(** * Client bindings of the pool program (js/src/secondary_bindings.ts)

    A shallow embedding of the TypeScript bindings: the pool state reader
    ([fetchPoolInfo]), the order history reconstructor
    ([parseCreateOrderInstruction], [getPoolOrdersInfosFromSignature],
    [getPoolOrderInfos]), the seed listing ([getPoolsSeedsBySigProvider]) and
    the single-asset deposit workflow ([singleTokenDeposit]).

    JavaScript numbers are IEEE-754 binary64 values: they are the kernel's
    primitive floats.  Buffers are lists of bytes.  An [async] function is a
    program over the requests it awaits ([Prog]); a thrown value or a rejected
    promise is an [Err]. *)

From Stdlib Require Import ZArith NArith String List Bool Lia Floats.
From Stdlib.Strings Require Import Byte.
Import ListNotations.

Set Implicit Arguments.
Set Warnings "-inexact-float".

(** ** JavaScript values *)

Definition Buffer := list byte.

(** A [number]. *)
Definition number := float.

(** [buf.slice(s, e)] for [0 <= s <= e]: the bytes at positions [s..e-1] that
    exist (a slice never reads past the end of the buffer). *)
Definition slice {A} (s e : nat) (b : list A) : list A := firstn (e - s) (skipn s b).

(** [buf.slice(s)]. *)
Definition slice_from {A} (s : nat) (b : list A) : list A := skipn s b.

(** [arr.slice(0, n)] for an integer [n]: a negative [n] counts from the end. *)
Definition slice_to {A} (n : Z) (l : list A) : list A :=
  let len := Z.of_nat (length l) in
  let e := if (n <? 0)%Z then Z.max (len + n) 0 else Z.min n len in
  firstn (Z.to_nat e) l.

(** [table[b]] where [b] is the result of [data[i]]: [undefined] when the byte
    is missing or the index is past the table. *)
Definition index_by_byte {A} (table : list A) (b : option byte) : option A :=
  match b with
  | Some x => nth_error table (Byte.to_nat x)
  | None => None
  end.

(** [Math.max(a, b)]: NaN when an argument is NaN, and [+0] above [-0]. *)
Definition Math_max (a b : number) : number :=
  if PrimFloat.is_nan a || PrimFloat.is_nan b then PrimFloat.nan
  else if PrimFloat.ltb a b then b
  else if PrimFloat.ltb b a then a
  else if PrimFloat.get_sign a then b else a.

(** What a [throw] or a rejected promise carries. *)
Inductive exn : Type :=
| Thrown (msg : string)      (* throw 'msg' *)
| ThrownError (msg : string) (* throw new Error(msg) *)
| TypeError                  (* a property read on undefined *)
| Rejected (why : string).   (* a failure inside an imported library or the RPC node *)

Inductive result (A : Type) : Type :=
| Ok (a : A)
| Err (e : exn).
Arguments Ok {A} a.
Arguments Err {A} e.

Definition rbind {A B} (r : result A) (f : A -> result B) : result B :=
  match r with
  | Ok a => f a
  | Err e => Err e
  end.

Definition is_ok {A} (r : result A) : bool :=
  match r with Ok _ => true | Err _ => false end.

(** The strings the bindings throw. *)
Definition PoolUnavailable : exn := Thrown "Pool account is unavailable".
Definition SourceUnavailable : exn := Thrown "Source asset account is unavailable".
Definition MarketDeprecated : exn := Thrown "Chosen Market is deprecated".
Definition ConversionNotMatched : exn := Thrown "Conversion to USDC Order was not matched.".

(** ** Keys, accounts, transactions *)

(** A [PublicKey], by the 32 bytes it wraps; [equals] and the comparison of
    [toBase58()] / [toString()] renderings are equality of these bytes. *)
Record PublicKey : Type := mkPublicKey { key_bytes : Buffer }.

Fixpoint Buffer_eqb (a b : Buffer) : bool :=
  match a, b with
  | [], [] => true
  | x :: a', y :: b' => Byte.eqb x y && Buffer_eqb a' b'
  | _, _ => false
  end.

Definition PublicKey_equals (a b : PublicKey) : bool :=
  Buffer_eqb (key_bytes a) (key_bytes b).

Record AccountInfo : Type := { data : Buffer }.

Record ConfirmedSignatureInfo : Type := {
  signature : string;
  slot : N
}.

Record Instruction : Type := {
  programId : PublicKey;
  ix_data : Buffer
}.

Record ConfirmedTransaction : Type := {
  instructions : list Instruction
}.

(** The answer of the [getProgramAccounts] RPC request: [error] or [result],
    each account by its decoded [account.data[0]] (base64) bytes. *)
Record RpcResponse : Type := {
  resp_error : option string;
  resp_result : list Buffer
}.

Record TokenAmount : Type := {
  amount : number;   (* the numeric value [+amount] of the decimal string *)
  decimals : number
}.

(** ** Enumerations of ./state used by the order decoder *)

Inductive OrderSide : Type := Bid | Ask.
Inductive OrderType : Type := Limit | ImmediateOrCancel | PostOnly.
Inductive SelfTradeBehavior : Type := DecrementTake | CancelProvide | AbortTransaction.

(** ** Types declared outside this file *)

(** [PoolStatus] (./state) and the asset record returned by [unpack_assets],
    of which the bindings read [mintAddress] only. *)
Class Types : Type := {
  PoolStatus : Type;
  PoolAsset : Type;
  mintAddress : PoolAsset -> PublicKey
}.

Section Records.
Context `{T : Types}.

Record PoolHeader : Type := {
  hdr_serumProgramId : PublicKey;
  hdr_seed : Buffer;
  hdr_signalProvider : PublicKey;
  hdr_status : PoolStatus;
  hdr_feeRatio : N;
  hdr_feeCollectionPeriod : N;
  numberOfMarkets : N
}.

Record PoolInfo : Type := {
  address : PublicKey;
  serumProgramId : PublicKey;
  seed : Buffer;
  signalProvider : PublicKey;
  status : PoolStatus;
  feeRatio : N;
  feePeriod : N;
  mintKey : PublicKey;
  assetMintkeys : list PublicKey;
  authorizedMarkets : list PublicKey
}.

(** A field that may be [undefined] is an [option]. *)
Record PoolOrderInfo : Type := {
  poolSeed : Buffer;
  side : option OrderSide;
  limitPrice : N;
  ratioOfPoolAssetsToTrade : N;
  orderType : option OrderType;
  clientOrderId : N;
  selfTradeBehavior : option SelfTradeBehavior;
  market : option PublicKey;
  transactionSignature : string;
  transactionSlot : N
}.
End Records.

(** ** Imported modules

    What the bindings import and this file does not define, taken as
    parameters: ./main, ./state, ./utils, @solana/web3.js,
    @solana/spl-token and @project-serum/serum. *)

Record TokenMint : Type := { tm_address : PublicKey; tm_name : string }.

Record MarketInfo : Type := {
  mi_name : string;
  mi_address : PublicKey;
  mi_deprecated : bool
}.

Record TokenAccount : Type := { ta_mint : Buffer; ta_amount : number }.

Class Imports `{T : Types} : Type := {
  (* ./main *)
  BONFIDABOT_PROGRAM_ID : PublicKey;
  BONFIDA_FEE_KEY : PublicKey;
  BONFIDA_BNB_KEY : PublicKey;
  (* ./state *)
  PoolHeader_LEN : nat;
  PoolHeader_fromBuffer : Buffer -> result PoolHeader;
  unpack_assets : Buffer -> result (list PoolAsset);
  unpack_markets : Buffer -> N -> result (list PublicKey);
  (* ./utils: [NumberuXX.fromBuffer(b).toNumber()] *)
  Numberu64_toNumber : Buffer -> result N;
  Numberu16_toNumber : Buffer -> result N;
  findAssociatedTokenAddress : PublicKey -> PublicKey -> result PublicKey;
  (* @solana/web3.js *)
  createProgramAddress : list Buffer -> PublicKey -> result PublicKey;
  SystemProgram_programId : PublicKey;
  (* @solana/spl-token *)
  TOKEN_PROGRAM_ID : PublicKey;
  AccountLayout_decode : Buffer -> TokenAccount;
  (* @project-serum/serum *)
  TOKEN_MINTS : list TokenMint;
  MARKETS : list MarketInfo
}.

(** Modelled from the spec: [PUBKEY_LENGTH] of ./state is not in this file;
    the markets list is N x 32-byte addresses. *)
Definition PUBKEY_LENGTH : nat := 32.

(** ** Collaborators of the deposit workflow *)

Record Wallet : Type := { wallet_publicKey : PublicKey }.
Record Account : Type := { account_publicKey : PublicKey }.
Record Market : Type := { market_address : PublicKey; quoteMintAddress : PublicKey }.
Record OpenOrders : Type := { oo_address : PublicKey }.

(** The argument of [market.placeOrder]. *)
Record OrderParams : Type := {
  op_owner : Wallet;
  op_payer : PublicKey;
  op_side : string;
  op_price : number;
  op_size : number;
  op_orderType : string
}.

(** An instruction the workflow builds, by the call that builds it. *)
Inductive TransactionInstruction : Type :=
| createAssociatedTokenAccount (systemProgramId fundingAddress walletAddress mint : PublicKey)
| depositInstruction
    (tokenProgramId programId sigProviderFeeReceiverKey bonfidaFeeReceiverKey
       bonfidaBuyAndBurnKey poolMintKey poolKey : PublicKey)
    (poolAssetKeys : list PublicKey)
    (targetPoolTokenKey sourceOwnerKey : PublicKey)
    (sourceAssetKeys : list PublicKey)
    (seeds : list Buffer)
    (poolTokenAmount : number)   (* the argument of [new Numberu64(...)] *)
| externalInstruction (id : N).  (* the one built inside [findAndCreateAssociatedAccount] *)

(** ** Awaited requests

    Each request a binding awaits on the connection, the trading venue or
    the wallet, indexed by the type of its answer. *)

Inductive Event : Type -> Type :=
| GetAccountInfo (key : PublicKey) : Event (option AccountInfo)
| GetTokenAccountBalance (key : PublicKey) : Event TokenAmount
| GetConfirmedSignaturesForAddress2 (key : PublicKey) : Event (list ConfirmedSignatureInfo)
| GetConfirmedTransaction (sig : string) : Event (option ConfirmedTransaction)
| GetProgramAccounts (program : PublicKey) : Event RpcResponse
| GetMidPrice (marketAddress : PublicKey) : Event (Market * number)
| PlaceOrder (m : Market) (o : OrderParams) : Event unit
| FindOpenOrdersAccountsForOwner (m : Market) (owner : PublicKey) : Event (list OpenOrders)
| SettleFunds (m : Market) (owner : Wallet) (oo : OpenOrders)
    (baseWallet : option PublicKey) (quoteWallet : PublicKey) : Event unit
| SignAndSendTransactionInstructions (signers : list Wallet) (payer : Account)
    (ixs : list TransactionInstruction) : Event string
| FindAndCreateAssociatedAccount (systemProgramId owner mint payer : PublicKey)
    : Event (PublicKey * option N)   (* the key, and the instruction built if any *)
| Sleep (ms : Z) : Event unit.

(** An [async] function body: it returns, throws, or awaits a request and
    goes on with the answer. *)
Inductive Prog (A : Type) : Type :=
| Ret (a : A)
| Fail (e : exn)
| Await (X : Type) (ev : Event X) (k : X -> Prog A).
Arguments Ret {A} a.
Arguments Fail {A} e.
Arguments Await {A X} ev k.

Fixpoint bind {A B} (p : Prog A) (f : A -> Prog B) : Prog B :=
  match p with
  | Ret a => f a
  | Fail e => Fail e
  | Await ev k => Await ev (fun x => bind (k x) f)
  end.

Definition await {X} (ev : Event X) : Prog X := Await ev Ret.

Definition lift {A} (r : result A) : Prog A :=
  match r with
  | Ok a => Ret a
  | Err e => Fail e
  end.

Declare Scope prog_scope.
Delimit Scope prog_scope with prog.
Notation "x <- p ;; q" := (bind p (fun x => q))
  (at level 61, p at next level, right associativity) : prog_scope.
Notation "' pat <- p ;; q" := (bind p (fun x => match x with pat => q end))
  (at level 61, pat pattern, p at next level, right associativity) : prog_scope.
Notation "p ;; q" := (bind p (fun _ => q))
  (at level 61, right associativity) : prog_scope.

Local Open Scope prog_scope.

(** [for (let a of l) { s = await body(s, a) }]. *)
Fixpoint foldP {S A} (body : S -> A -> Prog S) (l : list A) (s : S) : Prog S :=
  match l with
  | [] => Ret s
  | a :: l' => s' <- body s a ;; foldP body l' s'
  end.

(** [await Promise.all(l.map(f))]: the requests in the order of [l], the
    answers at the positions of [l]. A rejected promise rejects the whole;
    the run recorded here stops at the first rejection, whereas
    [Promise.all] has by then issued the later requests too: the two differ
    only in the requests recorded after a failure, never in a returned
    run. *)
Fixpoint mapP {A B} (f : A -> Prog B) (l : list A) : Prog (list B) :=
  match l with
  | [] => Ret []
  | a :: l' => b <- f a ;; bs <- mapP f l' ;; Ret (b :: bs)
  end.

(** [l.map(f)] for a callback that may throw. *)
Fixpoint map_result {A B} (f : A -> result B) (l : list A) : result (list B) :=
  match l with
  | [] => Ok []
  | a :: l' => rbind (f a) (fun b => rbind (map_result f l') (fun bs => Ok (b :: bs)))
  end.

(** [l.filter(o => o)] on objects: the [undefined] entries go. *)
Fixpoint filter_defined {A} (l : list (option A)) : list A :=
  match l with
  | [] => []
  | Some a :: l' => a :: filter_defined l'
  | None :: l' => filter_defined l'
  end.

(** ** Running a program against an environment

    The environment answers each request from its state, or rejects it. The
    run keeps the requests made and their answers. *)

Definition Handler (W : Type) : Type := forall X, Event X -> W -> result X * W.

Record Entry : Type := mkEntry {
  e_type : Type;
  e_event : Event e_type;
  e_answer : result e_type
}.

Definition Trace := list Entry.

Record Outcome (W A : Type) : Type := mkOutcome {
  returned : result A;
  final : W;
  trace : Trace
}.

Fixpoint run {W A} (h : Handler W) (p : Prog A) (w : W) : Outcome W A :=
  match p with
  | Ret a => mkOutcome (Ok a) w []
  | Fail e => mkOutcome (Err e) w []
  | Await ev k =>
      let (r, w') := h _ ev w in
      match r with
      | Ok x =>
          let o := run h (k x) w' in
          mkOutcome (returned o) (final o) (mkEntry ev r :: trace o)
      | Err e => mkOutcome (Err e) w' [mkEntry ev r]
      end
  end.

(** The orders placed in a run, in order. *)
Definition placed_order (e : Entry) : option (Market * OrderParams) :=
  match e_event e, e_answer e with
  | PlaceOrder m o, Ok _ => Some (m, o)
  | _, _ => None
  end.

Definition placed_orders (t : Trace) : list (Market * OrderParams) :=
  filter_defined (map placed_order t).

(** The transactions a run was answered, each with the signature asked. *)
Definition fetched_transaction (e : Entry) : option (string * ConfirmedTransaction) :=
  match e with
  | mkEntry ev ans =>
      match ev in Event X return result X -> option (string * ConfirmedTransaction) with
      | GetConfirmedTransaction sig =>
          fun a => match a with Ok (Some t) => Some (sig, t) | _ => None end
      | _ => fun _ => None
      end ans
  end.

Definition fetched_transactions (t : Trace) : list (string * ConfirmedTransaction) :=
  filter_defined (map fetched_transaction t).

(** The instructions sent in a run. *)
Definition sent_instructions (e : Entry) : list TransactionInstruction :=
  match e_event e with
  | SignAndSendTransactionInstructions _ _ ixs => ixs
  | _ => []
  end.

(** ** The bindings *)

Section Bindings.
Context `{I : Imports}.

(** [new Uint8Array(1)] with [array_one[0] = 1]. *)
Definition array_one : Buffer := ["001"%byte].

(** [table[table.map(key).indexOf(k)].name]: the first match; index -1
    reads [undefined], whose property read throws. *)
Definition token_name (mint : PublicKey) : result string :=
  match find (fun t => PublicKey_equals (tm_address t) mint) TOKEN_MINTS with
  | Some t => Ok (tm_name t)
  | None => Err TypeError
  end.

(** [MARKETS[MARKETS.map(m => m.name).lastIndexOf(pair)]]: the last match. *)
Definition market_info (pair : string) : option MarketInfo :=
  find (fun m => String.eqb (mi_name m) pair) (rev MARKETS).

(** The lookup followed by the read of [.deprecated] and the throw. *)
Definition live_market_info (pair : string) : result MarketInfo :=
  match market_info pair with
  | None => Err TypeError
  | Some m => if mi_deprecated m then Err MarketDeprecated else Ok m
  end.

(** *** fetchPoolInfo *)

Definition fetchPoolInfo (poolSeed : Buffer) : Prog PoolInfo :=
  poolKey <- lift (createProgramAddress [poolSeed] BONFIDABOT_PROGRAM_ID) ;;
  poolMintKey <- lift (createProgramAddress [poolSeed; array_one] BONFIDABOT_PROGRAM_ID) ;;
  poolData <- await (GetAccountInfo poolKey) ;;
  match poolData with
  | None => Fail PoolUnavailable
  | Some poolData =>
      poolHeader <- lift (PoolHeader_fromBuffer (slice 0 PoolHeader_LEN (data poolData))) ;;
      poolAssets <- lift (unpack_assets
        (slice_from (PoolHeader_LEN + N.to_nat (numberOfMarkets poolHeader) * PUBKEY_LENGTH)
           (data poolData))) ;;
      authorizedMarkets <- lift (unpack_markets
        (slice PoolHeader_LEN
           (PoolHeader_LEN + N.to_nat (numberOfMarkets poolHeader) * PUBKEY_LENGTH)
           (data poolData))
        (numberOfMarkets poolHeader)) ;;
      Ret {| address := poolKey;
             serumProgramId := hdr_serumProgramId poolHeader;
             seed := hdr_seed poolHeader;
             signalProvider := hdr_signalProvider poolHeader;
             status := hdr_status poolHeader;
             feeRatio := hdr_feeRatio poolHeader;
             feePeriod := hdr_feeCollectionPeriod poolHeader;
             mintKey := poolMintKey;
             assetMintkeys := map mintAddress poolAssets;
             authorizedMarkets := authorizedMarkets |}
  end.

(** *** getPoolsSeedsBySigProvider *)

(** One turn of the loop over [resp.result]. *)
Definition push_seed (signalProviderKey : option PublicKey)
    (poolSeeds : list Buffer) (data : Buffer) : list Buffer :=
  if length data <? PoolHeader_LEN then poolSeeds
  else if match signalProviderKey with
          | None => true
          | Some key => PublicKey_equals (mkPublicKey (slice 64 96 data)) key
          end
       then poolSeeds ++ [slice 32 64 data]
       else poolSeeds.

Definition getPoolsSeedsBySigProvider (signalProviderKey : option PublicKey)
  : Prog (list Buffer) :=
  resp <- await (GetProgramAccounts BONFIDABOT_PROGRAM_ID) ;;
  match resp_error resp with
  | Some message => Fail (ThrownError message)
  | None => Ret (fold_left (push_seed signalProviderKey) (resp_result resp) [])
  end.

(** *** parseCreateOrderInstruction *)

Definition parseCreateOrderInstruction (data : Buffer) (poolInfo : PoolInfo)
    (sig : ConfirmedSignatureInfo) : result PoolOrderInfo :=
  rbind (Numberu64_toNumber (slice 34 42 data)) (fun limitPrice =>
  rbind (Numberu16_toNumber (slice 42 44 data)) (fun ratio =>
  rbind (Numberu64_toNumber (slice 45 53 data)) (fun clientOrderId =>
  rbind (Numberu16_toNumber (slice 70 72 data)) (fun marketIndex =>
  Ok {| poolSeed := slice 1 33 data;
        side := index_by_byte [Bid; Ask] (nth_error data 33);
        limitPrice := limitPrice;
        ratioOfPoolAssetsToTrade := ratio;
        orderType :=
          index_by_byte [Limit; ImmediateOrCancel; PostOnly] (nth_error data 44);
        clientOrderId := clientOrderId;
        selfTradeBehavior :=
          index_by_byte [DecrementTake; CancelProvide; AbortTransaction]
            (nth_error data 53);
        market := nth_error (authorizedMarkets poolInfo) (N.to_nat marketIndex);
        transactionSignature := signature sig;
        transactionSlot := slot sig |})))).

(** *** getPoolOrdersInfosFromSignature *)

(** [i.programId.toBase58() === BONFIDABOT_PROGRAM_ID.toBase58() && i.data[0] == 3] *)
Definition is_create_order (i : Instruction) : bool :=
  PublicKey_equals (programId i) BONFIDABOT_PROGRAM_ID
  && match nth_error (ix_data i) 0 with
     | Some b => (Byte.to_N b =? 3)%N
     | None => false
     end.

(** The callback of [instructions.map]: a decoded order, or [undefined]. *)
Definition order_of_instruction (poolInfo : PoolInfo) (sig : ConfirmedSignatureInfo)
    (i : Instruction) : result (option PoolOrderInfo) :=
  if is_create_order i
  then rbind (parseCreateOrderInstruction (ix_data i) poolInfo sig) (fun o => Ok (Some o))
  else Ok None.

Definition getPoolOrdersInfosFromSignature (poolInfo : PoolInfo)
    (sig : ConfirmedSignatureInfo) : Prog (option (list PoolOrderInfo)) :=
  t <- await (GetConfirmedTransaction (signature sig)) ;;
  match t with
  | None => Ret None
  | Some t =>
      x <- lift (map_result (order_of_instruction poolInfo sig) (instructions t)) ;;
      Ret (Some (filter_defined x))
  end.

(** *** getPoolOrderInfos *)

Definition getPoolOrderInfos (poolSeed : Buffer) (n : Z) : Prog (list PoolOrderInfo) :=
  poolInfo <- fetchPoolInfo poolSeed ;;
  confirmedsignatures <- await (GetConfirmedSignaturesForAddress2 (address poolInfo)) ;;
  per_signature <- mapP (getPoolOrdersInfosFromSignature poolInfo) confirmedsignatures ;;
  let infos := concat (filter_defined per_signature) in
  Ret (slice_to n infos).

(** *** singleTokenDeposit

    The body in the order of the source; each part is bound to the next in
    [singleTokenDeposit] below. [console.log] calls are left out. *)

(** Pool layout and source token state (the lines up to [amount]). *)
Record Resolved : Type := {
  r_poolKey : PublicKey;
  r_poolMintKey : PublicKey;
  r_poolHeader : PoolHeader;
  r_poolAssets : list PoolAsset;
  r_tokenInitialBalance : number;
  r_tokenSymbol : string;
  r_amount : number
}.

Definition resolve (sourceTokenKey : PublicKey) (user_amount : number)
    (poolSeed : Buffer) : Prog Resolved :=
  poolKey <- lift (createProgramAddress [poolSeed] BONFIDABOT_PROGRAM_ID) ;;
  poolMintKey <- lift (createProgramAddress [poolSeed; array_one] BONFIDABOT_PROGRAM_ID) ;;
  poolInfo <- await (GetAccountInfo poolKey) ;;
  match poolInfo with
  | None => Fail PoolUnavailable
  | Some poolInfo =>
      poolHeader <- lift (PoolHeader_fromBuffer (slice 0 PoolHeader_LEN (data poolInfo))) ;;
      poolAssets <- lift (unpack_assets
        (slice_from (PoolHeader_LEN + N.to_nat (numberOfMarkets poolHeader) * PUBKEY_LENGTH)
           (data poolInfo))) ;;
      tokenInfo <- await (GetAccountInfo sourceTokenKey) ;;
      match tokenInfo with
      | None => Fail SourceUnavailable
      | Some tokenInfo =>
          let tokenData := data tokenInfo in
          let tokenMint := mkPublicKey (ta_mint (AccountLayout_decode tokenData)) in
          let tokenInitialBalance := ta_amount (AccountLayout_decode tokenData) in
          tokenSymbol <- lift (token_name tokenMint) ;;
          balance <- await (GetTokenAccountBalance sourceTokenKey) ;;
          let precision := decimals balance in
          let amount := (precision * user_amount)%float in
          Ret {| r_poolKey := poolKey;
                 r_poolMintKey := poolMintKey;
                 r_poolHeader := poolHeader;
                 r_poolAssets := poolAssets;
                 r_tokenInitialBalance := tokenInitialBalance;
                 r_tokenSymbol := tokenSymbol;
                 r_amount := amount |}
      end
  end.

(** [for (let openOrder of openOrders) await market.settleFunds(...)]. *)
Definition settle_all (m : Market) (owner : Wallet) (openOrders : list OpenOrders)
    (baseWallet : option PublicKey) (quoteWallet : PublicKey) : Prog unit :=
  foldP (fun _ openOrder => await (SettleFunds m owner openOrder baseWallet quoteWallet))
    openOrders tt.

(** Transfer source tokens to USDC: [midPriceUSDC] and [sourceUSDCKey]. *)
Definition convert (sourceOwner : Wallet) (sourceTokenKey : PublicKey) (payer : Account)
    (tokenSymbol : string) (amount : number) : Prog (number * PublicKey) :=
  if negb (String.eqb tokenSymbol "USDC") then
    let pairSymbol := (tokenSymbol ++ "/USDC")%string in
    usdcMarketInfo <- lift (live_market_info pairSymbol) ;;
    '(marketUSDC, midPriceUSDC) <- await (GetMidPrice (mi_address usdcMarketInfo)) ;;
    await (PlaceOrder marketUSDC
      {| op_owner := sourceOwner;
         op_payer := sourceTokenKey;
         op_side := "sell";
         op_price := (0.95 * midPriceUSDC)%float;
         op_size := amount;
         op_orderType := "ioc" |}) ;;
    sourceUSDCKey <- lift (findAssociatedTokenAddress (wallet_publicKey sourceOwner)
                             (quoteMintAddress marketUSDC)) ;;
    sourceUSDCInfo <- await (GetAccountInfo sourceUSDCKey) ;;
    match sourceUSDCInfo with
    | None =>
        let createUSDCInstruction :=
          createAssociatedTokenAccount SystemProgram_programId (account_publicKey payer)
            (wallet_publicKey sourceOwner) (quoteMintAddress marketUSDC) in
        await (SignAndSendTransactionInstructions [] payer [createUSDCInstruction]) ;;
        Ret tt
    | Some _ => Ret tt
    end ;;
    await (Sleep (3 * 1000)) ;;
    openOrders <- await (FindOpenOrdersAccountsForOwner marketUSDC
                           (wallet_publicKey sourceOwner)) ;;
    settle_all marketUSDC sourceOwner openOrders (Some sourceTokenKey) sourceUSDCKey ;;
    Ret (midPriceUSDC, sourceUSDCKey)
  else
    Ret (1%float, sourceTokenKey).

(** [tokenInitialBalance - tokenBalance > amount], the condition of the throw. *)
Definition conversion_rejected (tokenInitialBalance tokenBalance amount : number) : bool :=
  PrimFloat.ltb amount (tokenInitialBalance - tokenBalance)%float.

(** Verify that order went through correctly. *)
Definition verify (sourceTokenKey : PublicKey) (tokenInitialBalance amount : number)
  : Prog unit :=
  tokenInfo <- await (GetAccountInfo sourceTokenKey) ;;
  match tokenInfo with
  | None => Fail SourceUnavailable
  | Some tokenInfo =>
      let tokenData := data tokenInfo in
      let tokenBalance := ta_amount (AccountLayout_decode tokenData) in
      if conversion_rejected tokenInitialBalance tokenBalance amount
      then Fail ConversionNotMatched
      else Ret tt
  end.

(** Create the source asset account if nonexistent:
    [createAssetInstructions], [sourceAssetKeys], [poolAssetKeys]. *)
Definition provision_asset (sourceOwner : Wallet) (payer : Account) (poolKey : PublicKey)
    (acc : list TransactionInstruction * list PublicKey * list PublicKey)
    (asset : PoolAsset)
  : Prog (list TransactionInstruction * list PublicKey * list PublicKey) :=
  let '(createAssetInstructions, sourceAssetKeys, poolAssetKeys) := acc in
  sourceAssetKey <- lift (findAssociatedTokenAddress (wallet_publicKey sourceOwner)
                            (mintAddress asset)) ;;
  let sourceAssetKeys := sourceAssetKeys ++ [sourceAssetKey] in
  poolAssetKey <- lift (findAssociatedTokenAddress poolKey (mintAddress asset)) ;;
  let poolAssetKeys := poolAssetKeys ++ [poolAssetKey] in
  sourceAssetInfo <- await (GetAccountInfo sourceAssetKey) ;;
  match sourceAssetInfo with
  | None =>
      Ret (createAssetInstructions ++
             [createAssociatedTokenAccount SystemProgram_programId
                (account_publicKey payer) (wallet_publicKey sourceOwner)
                (mintAddress asset)],
           sourceAssetKeys, poolAssetKeys)
  | Some _ => Ret (createAssetInstructions, sourceAssetKeys, poolAssetKeys)
  end.

Definition provision (sourceOwner : Wallet) (payer : Account) (poolKey : PublicKey)
    (poolAssets : list PoolAsset) : Prog (list PublicKey * list PublicKey) :=
  '(createAssetInstructions, sourceAssetKeys, poolAssetKeys) <-
    foldP (provision_asset sourceOwner payer poolKey) poolAssets ([], [], []) ;;
  (if 0 <? length createAssetInstructions
   then await (SignAndSendTransactionInstructions [] payer createAssetInstructions) ;;
        Ret tt
   else Ret tt) ;;
  Ret (sourceAssetKeys, poolAssetKeys).

(** [poolAssetAmounts] and [totalPoolAssetAmount]. *)
Definition pool_balance (poolKey : PublicKey) (acc : list number * number)
    (asset : PoolAsset) : Prog (list number * number) :=
  let '(poolAssetAmounts, totalPoolAssetAmount) := acc in
  poolAssetKey <- lift (findAssociatedTokenAddress poolKey (mintAddress asset)) ;;
  balance <- await (GetTokenAccountBalance poolAssetKey) ;;
  let poolAssetBalance := amount balance in
  Ret (poolAssetAmounts ++ [poolAssetBalance],
       (totalPoolAssetAmount + poolAssetBalance)%float).

Definition pool_balances (poolKey : PublicKey) (poolAssets : list PoolAsset)
  : Prog (list number * number) :=
  foldP (pool_balance poolKey) poolAssets ([], 0%float).

(** Buy the corresponding tokens with the source USDC in correct ratios. *)

(** [assetAmountToBuy] of one leg. *)
Definition assetAmountToBuy (midPriceUSDC amount poolAssetAmount assetMidPrice
    totalPoolAssetAmount : number) : number :=
  ((midPriceUSDC * amount * poolAssetAmount)
   / (assetMidPrice * totalPoolAssetAmount))%float.

(** The second argument of [Math.max] in a leg that trades. *)
Definition traded_leg_ratio (midPriceUSDC amount poolAssetAmount assetMidPrice
    totalPoolAssetAmount : number) : number :=
  (assetAmountToBuy midPriceUSDC amount poolAssetAmount assetMidPrice
     totalPoolAssetAmount / poolAssetAmount)%float.

(** The second argument of [Math.max] in the USDC leg. *)
Definition usdc_leg_ratio (midPriceUSDC amount totalPoolAssetAmount : number) : number :=
  ((1000000 * midPriceUSDC * amount) / totalPoolAssetAmount)%float.

(** One turn of the loop [for (let i = 0; i < poolAssets.length; i++)] on
    [poolAssetMarkets] and [poolTokenAmount]. An index past
    [poolAssetAmounts] reads [undefined], a NaN in arithmetic. *)
Definition rebalance_asset (sourceOwner : Wallet) (sourceUSDCKey : PublicKey)
    (poolAssets : list PoolAsset) (poolAssetAmounts : list number)
    (midPriceUSDC amount totalPoolAssetAmount : number)
    (acc : list (option Market) * number) (i : nat)
  : Prog (list (option Market) * number) :=
  let '(poolAssetMarkets, poolTokenAmount) := acc in
  asset <- lift (match nth_error poolAssets i with
                 | Some a => Ok a
                 | None => Err TypeError
                 end) ;;
  poolAssetSymbol <- lift (token_name (mintAddress asset)) ;;
  if negb (String.eqb poolAssetSymbol "USDC") then
    let assetPairSymbol := (poolAssetSymbol ++ "/USDC")%string in
    assetMarketInfo <- lift (live_market_info assetPairSymbol) ;;
    let poolAssetAmount := nth i poolAssetAmounts PrimFloat.nan in
    if PrimFloat.eqb poolAssetAmount 0 then
      Ret (poolAssetMarkets, poolTokenAmount)
    else
      '(assetMarket, assetMidPrice) <- await (GetMidPrice (mi_address assetMarketInfo)) ;;
      let poolAssetMarkets := poolAssetMarkets ++ [Some assetMarket] in
      let toBuy := assetAmountToBuy midPriceUSDC amount poolAssetAmount assetMidPrice
                     totalPoolAssetAmount in
      let poolTokenAmount :=
        Math_max poolTokenAmount
          (traded_leg_ratio midPriceUSDC amount poolAssetAmount assetMidPrice
             totalPoolAssetAmount) in
      await (PlaceOrder assetMarket
        {| op_owner := sourceOwner;
           op_payer := sourceUSDCKey;
           op_side := "buy";
           op_price := (1.05 * assetMidPrice)%float;
           op_size := toBuy;
           op_orderType := "ioc" |}) ;;
      Ret (poolAssetMarkets, poolTokenAmount)
  else
    Ret (poolAssetMarkets ++ [None],
         Math_max poolTokenAmount
           (usdc_leg_ratio midPriceUSDC amount totalPoolAssetAmount)).

Definition rebalance (sourceOwner : Wallet) (sourceUSDCKey : PublicKey)
    (poolAssets : list PoolAsset) (poolAssetAmounts : list number)
    (midPriceUSDC amount totalPoolAssetAmount : number)
  : Prog (list (option Market) * number) :=
  foldP (rebalance_asset sourceOwner sourceUSDCKey poolAssets poolAssetAmounts
           midPriceUSDC amount totalPoolAssetAmount)
    (seq 0 (length poolAssets)) ([], 0%float).

(** Settle the USDC to Poolassets transfers. *)
Definition settle_asset (sourceOwner : Wallet) (sourceUSDCKey : PublicKey)
    (poolAssetMarkets : list (option Market)) (sourceAssetKeys : list PublicKey)
    (_ : unit) (i : nat) : Prog unit :=
  match nth_error poolAssetMarkets i with
  | Some (Some assetMarket) =>
      openOrders <- await (FindOpenOrdersAccountsForOwner assetMarket
                             (wallet_publicKey sourceOwner)) ;;
      settle_all assetMarket sourceOwner openOrders (nth_error sourceAssetKeys i)
        sourceUSDCKey
  | _ => Ret tt
  end.

Definition settle (sourceOwner : Wallet) (sourceUSDCKey : PublicKey)
    (poolAssets : list PoolAsset) (poolAssetMarkets : list (option Market))
    (sourceAssetKeys : list PublicKey) : Prog unit :=
  foldP (settle_asset sourceOwner sourceUSDCKey poolAssetMarkets sourceAssetKeys)
    (seq 0 (length poolAssets)) tt.

(** [ix ? instructions.push(ix) : null]. *)
Definition push_if_defined (instructions : list TransactionInstruction)
    (ix : option N) : list TransactionInstruction :=
  match ix with
  | Some id => instructions ++ [externalInstruction id]
  | None => instructions
  end.

(** The receiving accounts and the effective deposit. *)
Definition deposit (sourceOwner : Wallet) (payer : Account) (poolSeed : Buffer)
    (poolKey poolMintKey : PublicKey) (poolHeader : PoolHeader)
    (poolAssetKeys sourceAssetKeys : list PublicKey) (poolTokenAmount : number)
  : Prog unit :=
  let instructions : list TransactionInstruction := [] in
  '(targetPoolTokenKey, targetPTInstruction) <-
    await (FindAndCreateAssociatedAccount SystemProgram_programId
             (wallet_publicKey sourceOwner) poolMintKey (account_publicKey payer)) ;;
  let instructions := push_if_defined instructions targetPTInstruction in
  '(sigProviderFeeReceiverKey, sigProvInstruction) <-
    await (FindAndCreateAssociatedAccount SystemProgram_programId
             (hdr_signalProvider poolHeader) poolMintKey (account_publicKey payer)) ;;
  let instructions := push_if_defined instructions sigProvInstruction in
  '(bonfidaFeeReceiverKey, bonfidaFeeInstruction) <-
    await (FindAndCreateAssociatedAccount SystemProgram_programId
             BONFIDA_FEE_KEY poolMintKey (account_publicKey payer)) ;;
  let instructions := push_if_defined instructions bonfidaFeeInstruction in
  '(bonfidaBuyAndBurnKey, bonfidaBNBInstruction) <-
    await (FindAndCreateAssociatedAccount SystemProgram_programId
             BONFIDA_BNB_KEY poolMintKey (account_publicKey payer)) ;;
  let instructions := push_if_defined instructions bonfidaBNBInstruction in
  let depositTxInstruction :=
    depositInstruction TOKEN_PROGRAM_ID BONFIDABOT_PROGRAM_ID sigProviderFeeReceiverKey
      bonfidaFeeReceiverKey bonfidaBuyAndBurnKey poolMintKey poolKey poolAssetKeys
      targetPoolTokenKey (wallet_publicKey sourceOwner) sourceAssetKeys [poolSeed]
      (1000000 * poolTokenAmount)%float in
  let instructions := instructions ++ [depositTxInstruction] in
  await (SignAndSendTransactionInstructions [sourceOwner] payer instructions) ;;
  Ret tt.

Definition singleTokenDeposit (sourceOwner : Wallet) (sourceTokenKey : PublicKey)
    (user_amount : number) (poolSeed : Buffer) (payer : Account) : Prog unit :=
  r <- resolve sourceTokenKey user_amount poolSeed ;;
  '(midPriceUSDC, sourceUSDCKey) <-
    convert sourceOwner sourceTokenKey payer (r_tokenSymbol r) (r_amount r) ;;
  verify sourceTokenKey (r_tokenInitialBalance r) (r_amount r) ;;
  '(sourceAssetKeys, poolAssetKeys) <-
    provision sourceOwner payer (r_poolKey r) (r_poolAssets r) ;;
  '(poolAssetAmounts, totalPoolAssetAmount) <-
    pool_balances (r_poolKey r) (r_poolAssets r) ;;
  '(poolAssetMarkets, poolTokenAmount) <-
    rebalance sourceOwner sourceUSDCKey (r_poolAssets r) poolAssetAmounts
      midPriceUSDC (r_amount r) totalPoolAssetAmount ;;
  await (Sleep (3 * 1000)) ;;
  settle sourceOwner sourceUSDCKey (r_poolAssets r) poolAssetMarkets sourceAssetKeys ;;
  deposit sourceOwner payer poolSeed (r_poolKey r) (r_poolMintKey r) (r_poolHeader r)
    poolAssetKeys sourceAssetKeys poolTokenAmount.

End Bindings.

(** ** The list decoders of ./state, from their description *)

(** The fixed-size asset record of ./state: its length and its decoder. *)
Class AssetLayout `{T : Types} : Type := {
  PoolAsset_LEN : nat;
  PoolAsset_fromBuffer : Buffer -> result PoolAsset
}.

Definition DecodingError : exn := Rejected "DecodingError".

(** Modelled from the spec: [unpack_markets] of ./state is not in this file.
    List decoding takes an explicit element count and reads that many
    fixed-size records (32-byte addresses) sequentially; it fails loudly when
    the input is shorter than required. *)
Fixpoint spec_unpack_markets_nat (input : Buffer) (count : nat) : result (list PublicKey) :=
  match count with
  | 0 => Ok []
  | S count' =>
      if length input <? PUBKEY_LENGTH then Err DecodingError
      else rbind (spec_unpack_markets_nat (skipn PUBKEY_LENGTH input) count')
             (fun markets => Ok (mkPublicKey (firstn PUBKEY_LENGTH input) :: markets))
  end.

Definition spec_unpack_markets (input : Buffer) (numberOfMarkets : N)
  : result (list PublicKey) :=
  spec_unpack_markets_nat input (N.to_nat numberOfMarkets).

Section SpecAssets.
Context `{L : AssetLayout}.

(** Modelled from the spec: [unpack_assets] of ./state is not in this file.
    The assets list is a sequence of fixed-size records read sequentially,
    here as many as the buffer holds; a buffer that ends inside a record
    fails loudly. *)
Fixpoint spec_unpack_assets_nat (input : Buffer) (count : nat) : result (list PoolAsset) :=
  match count with
  | 0 => Ok []
  | S count' =>
      rbind (PoolAsset_fromBuffer (firstn PoolAsset_LEN input)) (fun asset =>
      rbind (spec_unpack_assets_nat (skipn PoolAsset_LEN input) count') (fun assets =>
      Ok (asset :: assets)))
  end.

Definition spec_unpack_assets (input : Buffer) : result (list PoolAsset) :=
  if length input mod PoolAsset_LEN =? 0
  then spec_unpack_assets_nat input (length input / PoolAsset_LEN)
  else Err DecodingError.

(** The imports, with the two list decoders as described. *)
Definition with_spec_unpackers (I : Imports) : Imports := {|
  BONFIDABOT_PROGRAM_ID := @BONFIDABOT_PROGRAM_ID _ I;
  BONFIDA_FEE_KEY := @BONFIDA_FEE_KEY _ I;
  BONFIDA_BNB_KEY := @BONFIDA_BNB_KEY _ I;
  PoolHeader_LEN := @PoolHeader_LEN _ I;
  PoolHeader_fromBuffer := @PoolHeader_fromBuffer _ I;
  unpack_assets := spec_unpack_assets;
  unpack_markets := spec_unpack_markets;
  Numberu64_toNumber := @Numberu64_toNumber _ I;
  Numberu16_toNumber := @Numberu16_toNumber _ I;
  findAssociatedTokenAddress := @findAssociatedTokenAddress _ I;
  createProgramAddress := @createProgramAddress _ I;
  SystemProgram_programId := @SystemProgram_programId _ I;
  TOKEN_PROGRAM_ID := @TOKEN_PROGRAM_ID _ I;
  AccountLayout_decode := @AccountLayout_decode _ I;
  TOKEN_MINTS := @TOKEN_MINTS _ I;
  MARKETS := @MARKETS _ I
|}.
End SpecAssets.

(** ** A concrete chain, venue and layout

    One instance of the imported modules and one environment, on which the
    bindings run by computation. *)

Module Fixture.

Definition byte_of_N (n : N) : byte :=
  match Byte.of_N n with
  | Some b => b
  | None => Byte.x00
  end.

(** Little-endian bytes of a value, and back. *)
Fixpoint le_bytes (width : nat) (v : N) : Buffer :=
  match width with
  | 0 => []
  | S w => byte_of_N (v mod 256) :: le_bytes w (v / 256)
  end.

Fixpoint le_value (b : Buffer) : N :=
  match b with
  | [] => 0
  | x :: r => Byte.to_N x + 256 * le_value r
  end.

(** Modelled from the spec: [Numberu64] and [Numberu16] of ./utils are not
    in this file. The spec fixes their widths (8 and 2 bytes) and that a
    decoder fails loudly on a buffer of another length; the byte order
    taken here is little-endian, and [toNumber] refuses a value past 53
    bits. *)
Definition fromBuffer_toNumber (width : nat) (b : Buffer) : result N :=
  if length b =? width then
    if (le_value b <? 2 ^ 53)%N then Ok (le_value b)
    else Err (Rejected "Number can only safely store up to 53 bits")
  else Err (Rejected "Invalid buffer length").

Definition key (b : byte) : PublicKey := mkPublicKey (repeat b 32).

Record Asset : Type := { asset_mint : PublicKey; asset_amount : N }.

#[export] Instance types : Types := {|
  PoolStatus := byte;
  PoolAsset := Asset;
  mintAddress := asset_mint
|}.

(** Modelled from the spec: [PoolHeader] of ./state is not in this file.
    A fixed-size prefix read at fixed offsets, holding the program id, the
    seed (bytes 32-64), the signal provider (bytes 64-96), the status, the
    fee ratio, the fee collection period and the count of markets; a shorter
    buffer is a decoding error. The offsets past byte 96 and the length are
    those of this instance. *)
Definition header_len : nat := 117.

Definition header_fromBuffer (b : Buffer) : result PoolHeader :=
  if length b <? header_len then Err DecodingError
  else Ok {| hdr_serumProgramId := mkPublicKey (slice 0 32 b);
             hdr_seed := slice 32 64 b;
             hdr_signalProvider := mkPublicKey (slice 64 96 b);
             hdr_status := nth 96 b Byte.x00;
             numberOfMarkets := le_value (slice 97 99 b);
             hdr_feeRatio := le_value (slice 99 101 b);
             hdr_feeCollectionPeriod := le_value (slice 109 117 b) |}.

(** Modelled from the spec: the asset record of ./state is not in this
    file. A fixed-size record of a mint identity and its balance, here 32
    and 8 bytes. *)
#[export] Instance asset_layout : AssetLayout := {|
  PoolAsset_LEN := 40;
  PoolAsset_fromBuffer := fun b =>
    if length b <? 40 then Err DecodingError
    else Ok {| asset_mint := mkPublicKey (slice 0 32 b);
               asset_amount := le_value (slice 32 40 b) |}
|}.

(** The number of an integer below 2^63. *)
Definition of_N (n : N) : number := PrimFloat.of_uint63 (Uint63.of_Z (Z.of_N n)).

Definition program_id : PublicKey := key Byte.x0b.
Definition USDC_mint : PublicKey := key Byte.xa0.
Definition SRM_mint : PublicKey := key Byte.xa1.
Definition FIDA_mint : PublicKey := key Byte.xa2.
Definition SRM_USDC : PublicKey := key Byte.x31.
Definition FIDA_USDC : PublicKey := key Byte.x32.

Definition base_imports : Imports := {|
  BONFIDABOT_PROGRAM_ID := program_id;
  BONFIDA_FEE_KEY := key Byte.x0c;
  BONFIDA_BNB_KEY := key Byte.x0d;
  PoolHeader_LEN := header_len;
  PoolHeader_fromBuffer := header_fromBuffer;
  unpack_assets := fun _ => Err DecodingError;
  unpack_markets := fun _ _ => Err DecodingError;
  Numberu64_toNumber := fromBuffer_toNumber 8;
  Numberu16_toNumber := fromBuffer_toNumber 2;
  findAssociatedTokenAddress := fun owner mint =>
    Ok (mkPublicKey (firstn 16 (key_bytes owner) ++ firstn 16 (key_bytes mint)));
  createProgramAddress := fun seeds program =>
    Ok (mkPublicKey (firstn 32 (rev (concat seeds) ++ key_bytes program)));
  SystemProgram_programId := key Byte.x00;
  TOKEN_PROGRAM_ID := key Byte.x06;
  AccountLayout_decode := fun b =>
    {| ta_mint := slice 0 32 b; ta_amount := of_N (le_value (slice 64 72 b)) |};
  TOKEN_MINTS := [ {| tm_address := SRM_mint; tm_name := "SRM" |};
                   {| tm_address := USDC_mint; tm_name := "USDC" |};
                   {| tm_address := FIDA_mint; tm_name := "FIDA" |} ];
  MARKETS := [ {| mi_name := "SRM/USDC"; mi_address := key Byte.x30;
                  mi_deprecated := true |};
               {| mi_name := "SRM/USDC"; mi_address := SRM_USDC;
                  mi_deprecated := false |};
               {| mi_name := "FIDA/USDC"; mi_address := FIDA_USDC;
                  mi_deprecated := false |} ]
|}.

#[export] Instance imports : Imports := with_spec_unpackers base_imports.

(** *** Accounts *)

Definition header_bytes (seed : Buffer) (markets : N) : Buffer :=
  repeat Byte.x05 32 ++ seed ++ repeat Byte.x07 32 ++ [Byte.x01]
    ++ le_bytes 2 markets ++ le_bytes 2 50 ++ le_bytes 8 0 ++ le_bytes 8 86400.

Definition asset_bytes (mint : PublicKey) (balance : N) : Buffer :=
  key_bytes mint ++ le_bytes 8 balance.

(** A pool with 2 markets and 1 asset (mint SRM, balance 1000). *)
Definition seed_one : Buffer := repeat Byte.x11 32.
Definition pool_one : Buffer :=
  header_bytes seed_one 2 ++ key_bytes SRM_USDC ++ key_bytes FIDA_USDC
    ++ asset_bytes SRM_mint 1000.

(** A pool with 2 markets and 2 assets (SRM, FIDA). *)
Definition seed_two : Buffer := repeat Byte.x12 32.
Definition pool_two : Buffer :=
  header_bytes seed_two 2 ++ key_bytes SRM_USDC ++ key_bytes FIDA_USDC
    ++ asset_bytes SRM_mint 128 ++ asset_bytes FIDA_mint 128.

Definition pool_key (seed : Buffer) : PublicKey :=
  mkPublicKey (firstn 32 (rev seed ++ key_bytes program_id)).

Definition source_token_key : PublicKey := key Byte.x51.

Definition token_account_bytes (mint : PublicKey) (balance : N) : Buffer :=
  key_bytes mint ++ repeat Byte.x52 32 ++ le_bytes 8 balance.

(** *** The environment *)

(** The state of the chain and venue: the source token account (mint,
    balance before and after the first order, decimals), the orders placed
    so far, the program's accounts and the pool's confirmed history. *)
Record World : Type := {
  w_source_mint : PublicKey;
  w_balance_before : N;
  w_balance_after : N;
  w_decimals : number;
  w_orders : nat;
  w_program_accounts : list Buffer;
  w_history : list (ConfirmedSignatureInfo * option ConfirmedTransaction)
}.

Definition place (w : World) : World :=
  {| w_source_mint := w_source_mint w;
     w_balance_before := w_balance_before w;
     w_balance_after := w_balance_after w;
     w_decimals := w_decimals w;
     w_orders := S (w_orders w);
     w_program_accounts := w_program_accounts w;
     w_history := w_history w |}.

Definition source_balance (w : World) : N :=
  if w_orders w =? 0 then w_balance_before w else w_balance_after w.

Definition account_at (w : World) (k : PublicKey) : option AccountInfo :=
  if PublicKey_equals k (pool_key seed_one) then Some {| data := pool_one |}
  else if PublicKey_equals k (pool_key seed_two) then Some {| data := pool_two |}
  else if PublicKey_equals k source_token_key
    then Some {| data := token_account_bytes (w_source_mint w) (source_balance w) |}
  else None.

Definition mid_price (marketAddress : PublicKey) : number :=
  if PublicKey_equals marketAddress SRM_USDC then 2%float else 4%float.

Definition transaction_of (w : World) (sig : string) : option ConfirmedTransaction :=
  match find (fun e => String.eqb (signature (fst e)) sig) (w_history w) with
  | Some e => snd e
  | None => None
  end.

Definition handler : Handler World := fun X ev =>
  match ev in Event X return World -> result X * World with
  | GetAccountInfo k => fun w => (Ok (account_at w k), w)
  | GetTokenAccountBalance k => fun w =>
      (Ok (if PublicKey_equals k source_token_key
           then {| amount := of_N (source_balance w); decimals := w_decimals w |}
           else {| amount := 128%float; decimals := 6%float |}), w)
  | GetConfirmedSignaturesForAddress2 k => fun w => (Ok (map fst (w_history w)), w)
  | GetConfirmedTransaction sig => fun w => (Ok (transaction_of w sig), w)
  | GetProgramAccounts _ => fun w =>
      (Ok {| resp_error := None; resp_result := w_program_accounts w |}, w)
  | GetMidPrice a => fun w =>
      (Ok ({| market_address := a; quoteMintAddress := USDC_mint |}, mid_price a), w)
  | PlaceOrder _ _ => fun w => (Ok tt, place w)
  | FindOpenOrdersAccountsForOwner m _ => fun w =>
      (Ok [ {| oo_address := market_address m |} ], w)
  | SettleFunds _ _ _ _ _ => fun w => (Ok tt, w)
  | SignAndSendTransactionInstructions _ _ _ => fun w => (Ok "signature"%string, w)
  | FindAndCreateAssociatedAccount _ owner mint _ => fun w =>
      (Ok (mkPublicKey (firstn 16 (key_bytes owner) ++ firstn 16 (key_bytes mint)),
           None), w)
  | Sleep _ => fun w => (Ok tt, w)
  end.
Arguments handler : clear implicits.

Definition owner : Wallet := {| wallet_publicKey := key Byte.x61 |}.
Definition payer : Account := {| account_publicKey := key Byte.x62 |}.

(** A holder of [before] source tokens of [mint] whose balance reads [after]
    once an order is placed. *)
Definition world (mint : PublicKey) (before after : N) (decimals : number) : World :=
  {| w_source_mint := mint;
     w_balance_before := before;
     w_balance_after := after;
     w_decimals := decimals;
     w_orders := 0;
     w_program_accounts := [];
     w_history := [] |}.

(** *** Orders and history *)

(** A seed at whose address no account exists. *)
Definition seed_none : Buffer := repeat Byte.x13 32.

(** The header of [pool_one]. *)
Definition header_one : PoolHeader :=
  {| hdr_serumProgramId := key Byte.x05;
     hdr_seed := seed_one;
     hdr_signalProvider := key Byte.x07;
     hdr_status := Byte.x01;
     hdr_feeRatio := 50;
     hdr_feeCollectionPeriod := 86400;
     numberOfMarkets := 2 |}.

(** The pool info of [pool_one]. *)
Definition info_one : PoolInfo :=
  {| address := pool_key seed_one;
     serumProgramId := key Byte.x05;
     seed := seed_one;
     signalProvider := key Byte.x07;
     status := Byte.x01;
     feeRatio := 50;
     feePeriod := 86400;
     mintKey := mkPublicKey (firstn 32 (rev (seed_one ++ array_one) ++ key_bytes program_id));
     assetMintkeys := [SRM_mint];
     authorizedMarkets := [SRM_USDC; FIDA_USDC] |}.

(** The data of an order-creation instruction: opcode, pool seed, side,
    price, ratio, order type, client id, self-trade byte, 16 further bytes,
    market index. *)
Definition order_bytes (opcode side type selfTrade : byte) (marketIndex : N) : Buffer :=
  [opcode] ++ seed_one ++ [side] ++ le_bytes 8 2500 ++ le_bytes 2 100 ++ [type]
    ++ le_bytes 8 42 ++ [selfTrade] ++ repeat Byte.x00 16 ++ le_bytes 2 marketIndex.

Definition sig_one : ConfirmedSignatureInfo := {| signature := "sig1"; slot := 7 |}.
Definition sig_two : ConfirmedSignatureInfo := {| signature := "sig2"; slot := 9 |}.
Definition sig_three : ConfirmedSignatureInfo := {| signature := "sig3"; slot := 11 |}.

(** A transaction with one order creation between an instruction of another
    opcode and an instruction of another program. *)
Definition transaction_one : ConfirmedTransaction :=
  {| instructions :=
       [ {| programId := program_id;
            ix_data := order_bytes Byte.x02 Byte.x00 Byte.x00 Byte.x00 0 |};
         {| programId := program_id;
            ix_data := order_bytes Byte.x03 Byte.x01 Byte.x01 Byte.x00 1 |};
         {| programId := key Byte.x0e;
            ix_data := order_bytes Byte.x03 Byte.x00 Byte.x00 Byte.x00 0 |} ] |}.

Definition transaction_two : ConfirmedTransaction :=
  {| instructions :=
       [ {| programId := program_id;
            ix_data := order_bytes Byte.x03 Byte.x00 Byte.x02 Byte.x01 0 |} ] |}.

(** The chain with a history of three signatures, the last of which has no
    transaction, and four program accounts: the two pools, an account
    shorter than a header, and a pool of another signal provider. *)
Definition other_pool : Buffer :=
  repeat Byte.x05 32 ++ seed_none ++ repeat Byte.x08 32 ++ [Byte.x01]
    ++ le_bytes 2 0 ++ le_bytes 2 50 ++ le_bytes 8 0 ++ le_bytes 8 86400.

Definition short_account : Buffer := firstn 100 pool_one.

Definition chain : World :=
  {| w_source_mint := SRM_mint;
     w_balance_before := 1000;
     w_balance_after := 400;
     w_decimals := 1%float;
     w_orders := 0;
     w_program_accounts := [pool_one; short_account; other_pool; pool_two];
     w_history := [ (sig_one, Some transaction_one);
                    (sig_two, Some transaction_two);
                    (sig_three, None) ] |}.

End Fixture.

(** * Properties *)

Unset Implicit Arguments.

(** ** Buffers and keys *)

Lemma Buffer_eqb_eq (a b : Buffer) : Buffer_eqb a b = true <-> a = b.
Proof.
  revert b; induction a as [|x a IH]; intros [|y b]; simpl; split; intro H;
    try reflexivity; try discriminate.
  - apply andb_true_iff in H as [Hx Hr].
    apply Byte.byte_dec_bl in Hx. apply IH in Hr. now subst.
  - injection H as -> ->. apply andb_true_iff; split.
    + now apply Byte.byte_dec_lb.
    + now apply IH.
Qed.

Lemma PublicKey_equals_eq (a b : PublicKey) : PublicKey_equals a b = true <-> a = b.
Proof.
  unfold PublicKey_equals. rewrite Buffer_eqb_eq.
  destruct a as [a], b as [b]; simpl. split; intro H.
  - now subst.
  - now injection H.
Qed.

Lemma byte_is_3 (b : byte) : (Byte.to_N b =? 3)%N = true <-> b = Byte.x03.
Proof.
  split.
  - intro H. apply N.eqb_eq in H.
    assert (E : Byte.of_N (Byte.to_N b) = Byte.of_N 3) by now rewrite H.
    rewrite Byte.of_to_N in E. now injection E.
  - now intros ->.
Qed.

Lemma slice_length {A} (s e : nat) (l : list A) :
  e <= length l -> length (slice s e l) = e - s.
Proof.
  intro H. unfold slice. rewrite length_firstn, length_skipn. lia.
Qed.

Lemma slice_skipn {A} (off s e : nat) (l : list A) :
  slice s e (skipn off l) = slice (off + s) (off + e) l.
Proof.
  unfold slice. rewrite skipn_skipn. f_equal; [lia | f_equal; lia].
Qed.

Lemma slice_slice {A} (off s e lim : nat) (l : list A) :
  off + e <= lim -> slice s e (slice off lim l) = slice (off + s) (off + e) l.
Proof.
  intro H. unfold slice.
  rewrite skipn_firstn_comm, firstn_firstn, skipn_skipn.
  f_equal; [lia | f_equal; lia].
Qed.

(** ** Runs *)

Section Runs.
Variable W : Type.
Variable h : Handler W.

Lemma run_bind {A B} (p : Prog A) (f : A -> Prog B) (w : W) :
  run h (bind p f) w =
  match returned (run h p w) with
  | Ok a =>
      let o := run h (f a) (final (run h p w)) in
      mkOutcome (returned o) (final o) (trace (run h p w) ++ trace o)
  | Err e => mkOutcome (Err e) (final (run h p w)) (trace (run h p w))
  end.
Proof.
  revert w; induction p as [a|e|X ev k IH]; intro w; simpl.
  - now destruct (run h (f a) w).
  - reflexivity.
  - destruct (h _ ev w) as [[x|e] w']; simpl; [|reflexivity].
    rewrite IH. now destruct (returned (run h (k x) w')).
Qed.

Lemma run_lift {A} (r : result A) (w : W) :
  run h (lift r) w = mkOutcome r w [].
Proof. now destruct r. Qed.

Lemma run_await {X} (ev : Event X) (w : W) :
  run h (await ev) w =
  mkOutcome (fst (h _ ev w)) (snd (h _ ev w)) [mkEntry ev (fst (h _ ev w))].
Proof.
  unfold await; simpl. now destruct (h _ ev w) as [[x|e] w'].
Qed.
End Runs.

(** One step of a run: a bind, a lifted result, an awaited request. *)
Ltac run_step :=
  first [ rewrite run_bind | rewrite run_lift | rewrite run_await ]; cbn [returned final trace].

(** ** The order decoder *)

Section Decoder.
Context `{I : Imports}.

Lemma index_by_byte_past {A} (table : list A) (b : byte) :
  length table <= Byte.to_nat b -> index_by_byte table (Some b) = None.
Proof. intro H. simpl. now apply nth_error_None. Qed.

(** The decoder returns exactly when its four numeric fields decode. *)
Lemma parse_returns (data : Buffer) (info : PoolInfo) (sig : ConfirmedSignatureInfo) :
  is_ok (parseCreateOrderInstruction data info sig)
  = is_ok (Numberu64_toNumber (slice 34 42 data))
    && is_ok (Numberu16_toNumber (slice 42 44 data))
    && is_ok (Numberu64_toNumber (slice 45 53 data))
    && is_ok (Numberu16_toNumber (slice 70 72 data)).
Proof.
  unfold parseCreateOrderInstruction.
  destruct (Numberu64_toNumber (slice 34 42 data)); simpl; [|reflexivity].
  destruct (Numberu16_toNumber (slice 42 44 data)); simpl; [|reflexivity].
  destruct (Numberu64_toNumber (slice 45 53 data)); simpl; [|reflexivity].
  now destruct (Numberu16_toNumber (slice 70 72 data)).
Qed.

(** The fields of a decoded order, from the four decoded numbers. *)
Lemma parse_fields (data : Buffer) (info : PoolInfo) (sig : ConfirmedSignatureInfo)
    (order : PoolOrderInfo) :
  parseCreateOrderInstruction data info sig = Ok order ->
  exists limit ratio client index,
    Numberu64_toNumber (slice 34 42 data) = Ok limit
    /\ Numberu16_toNumber (slice 42 44 data) = Ok ratio
    /\ Numberu64_toNumber (slice 45 53 data) = Ok client
    /\ Numberu16_toNumber (slice 70 72 data) = Ok index
    /\ order =
       {| poolSeed := slice 1 33 data;
          side := index_by_byte [Bid; Ask] (nth_error data 33);
          limitPrice := limit;
          ratioOfPoolAssetsToTrade := ratio;
          orderType :=
            index_by_byte [Limit; ImmediateOrCancel; PostOnly] (nth_error data 44);
          clientOrderId := client;
          selfTradeBehavior :=
            index_by_byte [DecrementTake; CancelProvide; AbortTransaction]
              (nth_error data 53);
          market := nth_error (authorizedMarkets info) (N.to_nat index);
          transactionSignature := signature sig;
          transactionSlot := slot sig |}.
Proof.
  unfold parseCreateOrderInstruction.
  destruct (Numberu64_toNumber (slice 34 42 data)) as [limit|]; simpl; [|discriminate].
  destruct (Numberu16_toNumber (slice 42 44 data)) as [ratio|]; simpl; [|discriminate].
  destruct (Numberu64_toNumber (slice 45 53 data)) as [client|]; simpl; [|discriminate].
  destruct (Numberu16_toNumber (slice 70 72 data)) as [index|]; simpl; [|discriminate].
  intro H. injection H as <-. now exists limit, ratio, client, index.
Qed.

(** C3 (as amended): the side, order-type and self-trade bytes are looked up
    in fixed tables indexed by the byte value; a byte past the table leaves
    the field undefined in the returned order, and whether the decoder
    returns does not depend on these bytes. *)
Theorem parse_enum_bytes (data : Buffer) (info : PoolInfo) (sig : ConfirmedSignatureInfo) :
  is_ok (parseCreateOrderInstruction data info sig)
  = is_ok (Numberu64_toNumber (slice 34 42 data))
    && is_ok (Numberu16_toNumber (slice 42 44 data))
    && is_ok (Numberu64_toNumber (slice 45 53 data))
    && is_ok (Numberu16_toNumber (slice 70 72 data))
  /\ forall order, parseCreateOrderInstruction data info sig = Ok order ->
     side order = index_by_byte [Bid; Ask] (nth_error data 33)
     /\ orderType order
        = index_by_byte [Limit; ImmediateOrCancel; PostOnly] (nth_error data 44)
     /\ selfTradeBehavior order
        = index_by_byte [DecrementTake; CancelProvide; AbortTransaction] (nth_error data 53)
     /\ (forall b, nth_error data 33 = Some b -> 2 <= Byte.to_nat b -> side order = None)
     /\ (forall b, nth_error data 44 = Some b -> 3 <= Byte.to_nat b ->
         orderType order = None)
     /\ (forall b, nth_error data 53 = Some b -> 3 <= Byte.to_nat b ->
         selfTradeBehavior order = None).
Proof.
  split; [apply parse_returns|].
  intros order H.
  destruct (parse_fields _ _ _ _ H) as (limit & ratio & client & index & _ & _ & _ & _ & ->).
  cbn [side orderType selfTradeBehavior].
  repeat split; intros b -> Hb; now apply index_by_byte_past.
Qed.

(** C10: the market of a decoded order is the entry of the pool's
    [authorizedMarkets] at the 2-byte index read at bytes 70-72; an index at
    or past the length of the list still returns an order, whose market is
    undefined. *)
Theorem parse_market_by_index (data : Buffer) (info : PoolInfo)
    (sig : ConfirmedSignatureInfo) (limit ratio client index : N) :
  Numberu64_toNumber (slice 34 42 data) = Ok limit ->
  Numberu16_toNumber (slice 42 44 data) = Ok ratio ->
  Numberu64_toNumber (slice 45 53 data) = Ok client ->
  Numberu16_toNumber (slice 70 72 data) = Ok index ->
  exists order,
    parseCreateOrderInstruction data info sig = Ok order
    /\ market order = nth_error (authorizedMarkets info) (N.to_nat index)
    /\ (length (authorizedMarkets info) <= N.to_nat index -> market order = None).
Proof.
  intros H1 H2 H3 H4. unfold parseCreateOrderInstruction.
  rewrite H1, H2, H3, H4; simpl.
  eexists; split; [reflexivity|]. cbn [market]. split; [reflexivity|].
  intro Hlen. now apply nth_error_None.
Qed.

End Decoder.

(** ** The pool state reader *)

Section Reader.
Context `{I : Imports}.
Variable W : Type.
Variable h : Handler W.

(** [fetchPoolInfo] up to the answer of its one request. *)
Lemma run_fetchPoolInfo (w : W) (poolSeed : Buffer) (poolKey poolMintKey : PublicKey) :
  createProgramAddress [poolSeed] BONFIDABOT_PROGRAM_ID = Ok poolKey ->
  createProgramAddress [poolSeed; array_one] BONFIDABOT_PROGRAM_ID = Ok poolMintKey ->
  trace (run h (fetchPoolInfo poolSeed) w)
  = [mkEntry (GetAccountInfo poolKey) (fst (h _ (GetAccountInfo poolKey) w))]
  /\ final (run h (fetchPoolInfo poolSeed) w) = snd (h _ (GetAccountInfo poolKey) w)
  /\ returned (run h (fetchPoolInfo poolSeed) w)
     = match fst (h _ (GetAccountInfo poolKey) w) with
       | Err e => Err e
       | Ok None => Err PoolUnavailable
       | Ok (Some poolData) =>
           rbind (PoolHeader_fromBuffer (slice 0 PoolHeader_LEN (data poolData)))
             (fun poolHeader =>
           rbind (unpack_assets
                    (slice_from (PoolHeader_LEN
                                 + N.to_nat (numberOfMarkets poolHeader) * PUBKEY_LENGTH)
                       (data poolData)))
             (fun poolAssets =>
           rbind (unpack_markets
                    (slice PoolHeader_LEN
                       (PoolHeader_LEN
                        + N.to_nat (numberOfMarkets poolHeader) * PUBKEY_LENGTH)
                       (data poolData))
                    (numberOfMarkets poolHeader))
             (fun authorizedMarkets =>
           Ok {| address := poolKey;
                 serumProgramId := hdr_serumProgramId poolHeader;
                 seed := hdr_seed poolHeader;
                 signalProvider := hdr_signalProvider poolHeader;
                 status := hdr_status poolHeader;
                 feeRatio := hdr_feeRatio poolHeader;
                 feePeriod := hdr_feeCollectionPeriod poolHeader;
                 mintKey := poolMintKey;
                 assetMintkeys := map mintAddress poolAssets;
                 authorizedMarkets := authorizedMarkets |})))
       end.
Proof.
  intros Hk Hm. unfold fetchPoolInfo. rewrite Hk, Hm. cbn [lift bind].
  run_step. run_step.
  destruct (h _ (GetAccountInfo poolKey) w) as [[[poolData|]|e] w']; cbn [fst snd];
    try (cbn; repeat split; reflexivity).
  destruct (PoolHeader_fromBuffer _) as [poolHeader|e]; cbn [lift bind rbind];
    [|cbn; repeat split; reflexivity].
  destruct (unpack_assets _) as [poolAssets|e]; cbn [lift bind rbind];
    [|cbn; repeat split; reflexivity].
  destruct (unpack_markets _ _) as [markets|e]; cbn [lift bind rbind];
    cbn; repeat split; reflexivity.
Qed.

(** C8: when no account exists at the address derived from the seed,
    [fetchPoolInfo] returns no pool info, whole or partial, and (the mint
    address being derived as well) fails with 'Pool account is unavailable'. *)
Theorem fetchPoolInfo_unavailable (w : W) (poolSeed : Buffer) (poolKey : PublicKey) :
  createProgramAddress [poolSeed] BONFIDABOT_PROGRAM_ID = Ok poolKey ->
  fst (h _ (GetAccountInfo poolKey) w) = Ok None ->
  (forall info, returned (run h (fetchPoolInfo poolSeed) w) <> Ok info)
  /\ (forall poolMintKey,
        createProgramAddress [poolSeed; array_one] BONFIDABOT_PROGRAM_ID = Ok poolMintKey ->
        returned (run h (fetchPoolInfo poolSeed) w) = Err PoolUnavailable).
Proof.
  intros Hk Hnone.
  assert (Hthrown : forall poolMintKey,
             createProgramAddress [poolSeed; array_one] BONFIDABOT_PROGRAM_ID
             = Ok poolMintKey ->
             returned (run h (fetchPoolInfo poolSeed) w) = Err PoolUnavailable).
  { intros poolMintKey Hm.
    destruct (run_fetchPoolInfo w poolSeed poolKey poolMintKey Hk Hm) as (_ & _ & Hr).
    now rewrite Hnone in Hr. }
  split; [|exact Hthrown].
  intro info.
  destruct (createProgramAddress [poolSeed; array_one] BONFIDABOT_PROGRAM_ID)
    as [poolMintKey|e] eqn:Hm.
  - rewrite (Hthrown poolMintKey eq_refl). discriminate.
  - unfold fetchPoolInfo. rewrite Hk, Hm. cbn. discriminate.
Qed.

(** *** The seeds of the pools of a signal provider *)

(** An account is listed when it is at least a header long and, if a key is
    given, its bytes 64-96 are that key. *)
Definition listed (signalProviderKey : option PublicKey) (data : Buffer) : bool :=
  (PoolHeader_LEN <=? length data)
  && match signalProviderKey with
     | None => true
     | Some key => Buffer_eqb (slice 64 96 data) (key_bytes key)
     end.

(** The seeds of the listed accounts, in the order of the accounts. *)
Definition listed_seeds (signalProviderKey : option PublicKey) (accounts : list Buffer)
  : list Buffer :=
  map (slice 32 64) (filter (listed signalProviderKey) accounts).

Lemma push_seed_listed (key : option PublicKey) (seeds : list Buffer) (data : Buffer) :
  push_seed key seeds data
  = seeds ++ (if listed key data then [slice 32 64 data] else []).
Proof.
  unfold push_seed, listed.
  destruct (Nat.ltb_spec (length data) PoolHeader_LEN) as [Hlt|Hge].
  - replace (PoolHeader_LEN <=? length data) with false
      by (symmetry; apply Nat.leb_gt; lia).
    simpl. now rewrite app_nil_r.
  - replace (PoolHeader_LEN <=? length data) with true
      by (symmetry; apply Nat.leb_le; lia).
    simpl. destruct key as [key|]; [|reflexivity].
    unfold PublicKey_equals; simpl.
    destruct (Buffer_eqb (slice 64 96 data) (key_bytes key)); [reflexivity|].
    now rewrite app_nil_r.
Qed.

Lemma fold_push_seed (key : option PublicKey) (accounts seeds : list Buffer) :
  fold_left (push_seed key) accounts seeds = seeds ++ listed_seeds key accounts.
Proof.
  revert seeds; induction accounts as [|data accounts IH]; intro seeds; simpl.
  - unfold listed_seeds; simpl. now rewrite app_nil_r.
  - rewrite IH, push_seed_listed, <- app_assoc. f_equal.
    unfold listed_seeds; simpl. now destruct (listed key data).
Qed.

(** C7: [getPoolsSeedsBySigProvider] returns the seeds (bytes 32-64) of the
    program accounts that are at least a header long and, when a key is
    given, whose bytes 64-96 are that key; with no key, of all accounts at
    least a header long. *)
Theorem getPoolsSeedsBySigProvider_listed (w : W) (signalProviderKey : option PublicKey)
    (resp : RpcResponse) :
  fst (h _ (GetProgramAccounts BONFIDABOT_PROGRAM_ID) w) = Ok resp ->
  resp_error resp = None ->
  returned (run h (getPoolsSeedsBySigProvider signalProviderKey) w)
  = Ok (listed_seeds signalProviderKey (resp_result resp))
  /\ (forall s, In s (listed_seeds signalProviderKey (resp_result resp)) <->
        exists data, In data (resp_result resp)
          /\ PoolHeader_LEN <= length data
          /\ (forall key, signalProviderKey = Some key -> slice 64 96 data = key_bytes key)
          /\ s = slice 32 64 data).
Proof.
  intros Hresp Herr. split.
  - unfold getPoolsSeedsBySigProvider. run_step. run_step.
    rewrite Hresp; cbn [returned]. rewrite Herr. cbn [run returned].
    now rewrite fold_push_seed.
  - intro s. unfold listed_seeds. rewrite in_map_iff. split.
    + intros (data & <- & Hin). apply filter_In in Hin as [Hin Hl].
      unfold listed in Hl. apply andb_true_iff in Hl as [Hlen Hkey].
      exists data. repeat split; trivial.
      * now apply Nat.leb_le.
      * intros key ->. now apply Buffer_eqb_eq.
    + intros (data & Hin & Hlen & Hkey & ->). exists data. split; [reflexivity|].
      apply filter_In. split; [assumption|]. unfold listed.
      apply andb_true_iff; split; [now apply Nat.leb_le|].
      destruct signalProviderKey as [key|]; [|reflexivity].
      apply Buffer_eqb_eq. now apply Hkey.
Qed.

End Reader.

(** ** The order history *)

Lemma filter_defined_app {A} (l1 l2 : list (option A)) :
  filter_defined (l1 ++ l2) = filter_defined l1 ++ filter_defined l2.
Proof.
  induction l1 as [|[a|] l1 IH]; simpl; [reflexivity| |assumption].
  now rewrite IH.
Qed.

Lemma fetched_transactions_app (t1 t2 : Trace) :
  fetched_transactions (t1 ++ t2) = fetched_transactions t1 ++ fetched_transactions t2.
Proof. unfold fetched_transactions. now rewrite map_app, filter_defined_app. Qed.

Lemma In_firstn {A} (k : nat) (l : list A) (x : A) : In x (firstn k l) -> In x l.
Proof.
  intro H. rewrite <- (firstn_skipn k l). apply in_or_app. now left.
Qed.

Lemma In_slice_to {A} (n : Z) (l : list A) (x : A) : In x (slice_to n l) -> In x l.
Proof. apply In_firstn. Qed.

Lemma slice_to_length {A} (n : Z) (l : list A) :
  (0 <= n)%Z -> Z.of_nat (length (slice_to n l)) = Z.min n (Z.of_nat (length l)).
Proof.
  intro Hn. unfold slice_to.
  replace (n <? 0)%Z with false by (symmetry; apply Z.ltb_ge; lia).
  rewrite length_firstn. lia.
Qed.

Section History.
Context `{I : Imports}.
Variable W : Type.
Variable h : Handler W.

(** The order-creation instructions of a transaction, counted. *)
Definition create_orders_in (t : ConfirmedTransaction) : nat :=
  length (filter is_create_order (instructions t)).

(** The order-creation instructions in the transactions a run was answered:
    the queryable window of that run. *)
Definition qualifying_in_window (tr : Trace) : nat :=
  list_sum (map (fun st => create_orders_in (snd st)) (fetched_transactions tr)).

Lemma qualifying_in_window_app (t1 t2 : Trace) :
  qualifying_in_window (t1 ++ t2) = qualifying_in_window t1 + qualifying_in_window t2.
Proof.
  unfold qualifying_in_window.
  now rewrite fetched_transactions_app, map_app, list_sum_app.
Qed.

Lemma is_create_order_spec (i : Instruction) :
  is_create_order i = true <->
  programId i = BONFIDABOT_PROGRAM_ID /\ nth_error (ix_data i) 0 = Some Byte.x03.
Proof.
  unfold is_create_order. rewrite andb_true_iff, PublicKey_equals_eq.
  destruct (nth_error (ix_data i) 0) as [b|].
  - rewrite byte_is_3. split; intros [Hp Hb]; split; trivial; congruence.
  - split; intros [_ Hb]; discriminate.
Qed.

Lemma orders_of_instructions (info : PoolInfo) (sig : ConfirmedSignatureInfo)
    (l : list Instruction) (x : list (option PoolOrderInfo)) :
  map_result (order_of_instruction info sig) l = Ok x ->
  length (filter_defined x) = length (filter is_create_order l)
  /\ forall o, In o (filter_defined x) ->
       exists i, In i l /\ is_create_order i = true
         /\ parseCreateOrderInstruction (ix_data i) info sig = Ok o.
Proof.
  revert x; induction l as [|i l IH]; intros x; simpl.
  - intro H; injection H as <-. split; [reflexivity|]. intros o [].
  - unfold order_of_instruction at 1.
    destruct (is_create_order i) eqn:Hi.
    + destruct (parseCreateOrderInstruction (ix_data i) info sig) as [o'|e] eqn:Hp;
        simpl; [|discriminate].
      destruct (map_result (order_of_instruction info sig) l) as [x'|e]; simpl;
        [|discriminate].
      intro H; injection H as <-. destruct (IH x' eq_refl) as [Hlen Hin]. simpl.
      split; [now rewrite Hlen|].
      intros o [<-|Ho].
      * exists i. auto.
      * destruct (Hin o Ho) as (j & Hj & Hq & Hpj). exists j. auto.
    + simpl.
      destruct (map_result (order_of_instruction info sig) l) as [x'|e]; simpl;
        [|discriminate].
      intro H; injection H as <-. destruct (IH x' eq_refl) as [Hlen Hin]. simpl.
      split; [assumption|].
      intros o Ho. destruct (Hin o Ho) as (j & Hj & Hq & Hpj). exists j. auto.
Qed.

(** [getPoolOrdersInfosFromSignature] up to the answer of its one request. *)
Lemma run_getPoolOrdersInfosFromSignature (info : PoolInfo)
    (sig : ConfirmedSignatureInfo) (w : W) :
  let answer := h _ (GetConfirmedTransaction (signature sig)) w in
  run h (getPoolOrdersInfosFromSignature info sig) w
  = mkOutcome
      match fst answer with
      | Err e => Err e
      | Ok None => Ok None
      | Ok (Some t) =>
          rbind (map_result (order_of_instruction info sig) (instructions t))
            (fun x => Ok (Some (filter_defined x)))
      end
      (snd answer)
      [mkEntry (GetConfirmedTransaction (signature sig)) (fst answer)].
Proof.
  unfold getPoolOrdersInfosFromSignature. cbn zeta. run_step. run_step.
  destruct (h _ (GetConfirmedTransaction (signature sig)) w) as [[[t|]|e] w'];
    cbn [fst snd]; try reflexivity.
  run_step. run_step.
  now destruct (map_result (order_of_instruction info sig) (instructions t)).
Qed.

Lemma fetched_cons_some (sig : string) (t : ConfirmedTransaction) (tr : Trace) :
  fetched_transactions (mkEntry (GetConfirmedTransaction sig) (Ok (Some t)) :: tr)
  = (sig, t) :: fetched_transactions tr.
Proof. reflexivity. Qed.

Lemma fetched_cons_none (sig : string) (tr : Trace) :
  fetched_transactions (mkEntry (GetConfirmedTransaction sig) (Ok None) :: tr)
  = fetched_transactions tr.
Proof. reflexivity. Qed.

Lemma qualifying_cons_some (sig : string) (t : ConfirmedTransaction) (tr : Trace) :
  qualifying_in_window (mkEntry (GetConfirmedTransaction sig) (Ok (Some t)) :: tr)
  = create_orders_in t + qualifying_in_window tr.
Proof. reflexivity. Qed.

Lemma qualifying_cons_none (sig : string) (tr : Trace) :
  qualifying_in_window (mkEntry (GetConfirmedTransaction sig) (Ok None) :: tr)
  = qualifying_in_window tr.
Proof. reflexivity. Qed.

(** The rest of [Promise.all] after the first promise. *)
Lemma run_mapP_rest {A B} (f : A -> Prog B) (l : list A) (first : B) (w : W)
    (per : list B) :
  returned (run h (bs <- mapP f l ;; Ret (first :: bs))%prog w) = Ok per ->
  exists rest, per = first :: rest
    /\ returned (run h (mapP f l) w) = Ok rest
    /\ trace (run h (bs <- mapP f l ;; Ret (first :: bs))%prog w)
       = trace (run h (mapP f l) w).
Proof.
  rewrite run_bind.
  destruct (returned (run h (mapP f l) w)) as [rest|e]; cbn; [|discriminate].
  intro H; injection H as <-. exists rest. now rewrite app_nil_r.
Qed.

(** The orders of a window: as many as its order-creation instructions, each
    decoded from one of them. *)
Lemma run_per_signature (info : PoolInfo) (sigs : list ConfirmedSignatureInfo) :
  forall (w : W) (per : list (option (list PoolOrderInfo))),
  returned (run h (mapP (getPoolOrdersInfosFromSignature info) sigs) w) = Ok per ->
  length (concat (filter_defined per))
  = qualifying_in_window
      (trace (run h (mapP (getPoolOrdersInfosFromSignature info) sigs) w))
  /\ forall o, In o (concat (filter_defined per)) ->
       exists sig t i,
         In (signature sig, t)
           (fetched_transactions
              (trace (run h (mapP (getPoolOrdersInfosFromSignature info) sigs) w)))
         /\ In i (instructions t) /\ is_create_order i = true
         /\ parseCreateOrderInstruction (ix_data i) info sig = Ok o.
Proof.
  induction sigs as [|sig sigs IH]; intros w per; cbn [mapP].
  - cbn. intro H; injection H as <-. split; [reflexivity|]. intros o [].
  - rewrite run_bind, run_getPoolOrdersInfosFromSignature. cbn [returned final trace].
    destruct (h _ (GetConfirmedTransaction (signature sig)) w) as [[ot|e] w'];
      cbn [fst snd]; [|cbn; discriminate].
    destruct ot as [t|].
    + destruct (map_result (order_of_instruction info sig) (instructions t))
        as [x|e] eqn:Hx; cbn [rbind]; [|cbn; discriminate].
      cbn [returned final trace app]. intro Hper.
      destruct (run_mapP_rest _ _ _ _ _ Hper) as (rest & -> & Hr & Htr). rewrite Htr.
      destruct (IH w' rest Hr) as [Hlen Hin].
      destruct (orders_of_instructions info sig _ _ Hx) as [Hlx Hix].
      cbn [filter_defined concat]. rewrite qualifying_cons_some, fetched_cons_some. split.
      * rewrite length_app, Hlen, Hlx. reflexivity.
      * intros o Ho. apply in_app_or in Ho as [Ho|Ho].
        -- destruct (Hix o Ho) as (i & Hi & Hq & Hp).
           exists sig, t, i. repeat split; trivial. now left.
        -- destruct (Hin o Ho) as (s & t' & i & Hf & Hi & Hq & Hp).
           exists s, t', i. repeat split; trivial. now right.
    + cbn [returned final trace app]. intro Hper.
      destruct (run_mapP_rest _ _ _ _ _ Hper) as (rest & -> & Hr & Htr). rewrite Htr.
      destruct (IH w' rest Hr) as [Hlen Hin].
      cbn [filter_defined]. rewrite qualifying_cons_none, fetched_cons_none.
      split; assumption.
Qed.

Lemma fetchPoolInfo_no_transactions (w : W) (poolSeed : Buffer) :
  fetched_transactions (trace (run h (fetchPoolInfo poolSeed) w)) = [].
Proof.
  destruct (createProgramAddress [poolSeed] BONFIDABOT_PROGRAM_ID) as [poolKey|e] eqn:Hk.
  - destruct (createProgramAddress [poolSeed; array_one] BONFIDABOT_PROGRAM_ID)
      as [poolMintKey|e] eqn:Hm.
    + destruct (run_fetchPoolInfo W h w poolSeed poolKey poolMintKey Hk Hm) as (-> & _).
      reflexivity.
    + unfold fetchPoolInfo. now rewrite Hk, Hm.
  - unfold fetchPoolInfo. now rewrite Hk.
Qed.

(** A run of [getPoolOrderInfos] that returns, by its three parts. *)
Lemma run_getPoolOrderInfos (w : W) (poolSeed : Buffer) (n : Z)
    (out : list PoolOrderInfo) :
  returned (run h (getPoolOrderInfos poolSeed n) w) = Ok out ->
  exists info per,
    returned (run h (fetchPoolInfo poolSeed) w) = Ok info
    /\ out = slice_to n (concat (filter_defined per))
    /\ length (concat (filter_defined per))
       = qualifying_in_window (trace (run h (getPoolOrderInfos poolSeed n) w))
    /\ forall o, In o (concat (filter_defined per)) ->
         exists sig t i,
           In (signature sig, t)
             (fetched_transactions (trace (run h (getPoolOrderInfos poolSeed n) w)))
           /\ In i (instructions t) /\ is_create_order i = true
           /\ parseCreateOrderInstruction (ix_data i) info sig = Ok o.
Proof.
  unfold getPoolOrderInfos. rewrite run_bind.
  pose proof (fetchPoolInfo_no_transactions w poolSeed) as Hnone.
  destruct (returned (run h (fetchPoolInfo poolSeed) w)) as [info|e]; [|cbn; discriminate].
  cbn zeta. cbn [returned final trace].
  rewrite run_bind, run_await. cbn [returned final trace].
  set (w1 := final (run h (fetchPoolInfo poolSeed) w)).
  destruct (h _ (GetConfirmedSignaturesForAddress2 (address info)) w1) as [[sigs|e] w2];
    cbn [fst snd]; [|cbn; discriminate].
  rewrite run_bind.
  destruct (returned (run h (mapP (getPoolOrdersInfosFromSignature info) sigs) w2))
    as [per|e] eqn:Hper; cbn [returned final trace run]; [|discriminate].
  intro H; injection H as <-.
  destruct (run_per_signature info sigs w2 per Hper) as [Hlen Hin].
  exists info, per. repeat split; trivial.
  - rewrite Hlen, app_nil_r, !qualifying_in_window_app.
    unfold qualifying_in_window at 2 3. rewrite Hnone. reflexivity.
  - intros o Ho. destruct (Hin o Ho) as (sig & t & i & Hf & Hrest).
    exists sig, t, i. split; [|exact Hrest].
    rewrite app_nil_r, !fetched_transactions_app.
    apply in_or_app; right. apply in_or_app; now right.
Qed.

(** *** When the history is returned *)

Lemma map_result_returns {A B} (f : A -> result B) (l : list A) :
  (forall a, In a l -> is_ok (f a) = true) -> is_ok (map_result f l) = true.
Proof.
  induction l as [|a l IH]; intro Hok; [reflexivity|]. simpl.
  pose proof (Hok a (or_introl eq_refl)) as Ha.
  destruct (f a) as [b|]; [|discriminate]. simpl.
  destruct (map_result f l) as [bs|]; [reflexivity|].
  apply IH. intros x Hx. apply Hok. now right.
Qed.

Lemma mapP_returns {A B} (f : A -> Prog B) (l : list A) :
  (forall a w, In a l -> is_ok (returned (run h (f a) w)) = true) ->
  forall w, is_ok (returned (run h (mapP f l) w)) = true.
Proof.
  induction l as [|a l IH]; intros Hok w; [reflexivity|]. cbn [mapP].
  rewrite run_bind. pose proof (Hok a w (or_introl eq_refl)) as Ha.
  destruct (returned (run h (f a) w)) as [b|]; [|discriminate]. cbn [returned].
  rewrite run_bind.
  pose proof (IH (fun x w' Hx => Hok x w' (or_intror Hx)) (final (run h (f a) w))) as Hl.
  now destruct (returned (run h (mapP f l) (final (run h (f a) w)))).
Qed.

(** [getPoolOrderInfos] returns whenever the pool info is fetched, the node
    answers the signature and transaction requests, and every order-creation
    instruction it is answered decodes. *)
Lemma getPoolOrderInfos_returns (w : W) (poolSeed : Buffer) (n : Z) (info : PoolInfo) :
  returned (run h (fetchPoolInfo poolSeed) w) = Ok info ->
  (forall w', is_ok (fst (h _ (GetConfirmedSignaturesForAddress2 (address info)) w')) = true) ->
  (forall w' sig, is_ok (fst (h _ (GetConfirmedTransaction sig) w')) = true) ->
  (forall w' sig t i,
     fst (h _ (GetConfirmedTransaction (signature sig)) w') = Ok (Some t) ->
     In i (instructions t) -> is_create_order i = true ->
     is_ok (parseCreateOrderInstruction (ix_data i) info sig) = true) ->
  is_ok (returned (run h (getPoolOrderInfos poolSeed n) w)) = true.
Proof.
  intros Hinfo Hsigs Htx Hdec. unfold getPoolOrderInfos.
  rewrite run_bind, Hinfo. cbn zeta. cbn [returned final trace].
  rewrite run_bind, run_await. cbn [returned final trace].
  set (w1 := final (run h (fetchPoolInfo poolSeed) w)).
  specialize (Hsigs w1).
  destruct (h _ (GetConfirmedSignaturesForAddress2 (address info)) w1) as [[sigs|] w2];
    cbn [fst snd] in *; [|discriminate].
  rewrite run_bind.
  assert (Hper : is_ok (returned (run h (mapP (getPoolOrdersInfosFromSignature info) sigs)
                                    w2)) = true).
  { apply mapP_returns. intros sig w' _.
    rewrite run_getPoolOrdersInfosFromSignature. cbn [returned].
    specialize (Htx w' (signature sig)). specialize (Hdec w' sig).
    destruct (h _ (GetConfirmedTransaction (signature sig)) w') as [[[t|]|] w''];
      cbn [fst snd] in *; try reflexivity; [|discriminate].
    assert (Hmap : is_ok (map_result (order_of_instruction info sig) (instructions t))
                   = true).
    { apply map_result_returns. intros i Hi. unfold order_of_instruction.
      destruct (is_create_order i) eqn:Hq; [|reflexivity].
      specialize (Hdec t i eq_refl Hi Hq).
      now destruct (parseCreateOrderInstruction (ix_data i) info sig). }
    now destruct (map_result (order_of_instruction info sig) (instructions t)). }
  now destruct (returned (run h (mapP (getPoolOrdersInfosFromSignature info) sigs) w2)).
Qed.

(** C5: every order returned by [getPoolOrderInfos] is decoded from an
    instruction of a scanned transaction whose program is the pool program
    and whose first data byte is 3, and there are no more orders than such
    instructions: an instruction of another opcode or another program
    contributes no entry. *)
Theorem getPoolOrderInfos_only_create_orders (w : W) (poolSeed : Buffer) (n : Z)
    (out : list PoolOrderInfo) :
  returned (run h (getPoolOrderInfos poolSeed n) w) = Ok out ->
  length out <= qualifying_in_window (trace (run h (getPoolOrderInfos poolSeed n) w))
  /\ forall o, In o out ->
     exists info sig t i,
       returned (run h (fetchPoolInfo poolSeed) w) = Ok info
       /\ In (signature sig, t)
            (fetched_transactions (trace (run h (getPoolOrderInfos poolSeed n) w)))
       /\ In i (instructions t)
       /\ programId i = BONFIDABOT_PROGRAM_ID
       /\ nth_error (ix_data i) 0 = Some Byte.x03
       /\ parseCreateOrderInstruction (ix_data i) info sig = Ok o.
Proof.
  intros Hout.
  destruct (run_getPoolOrderInfos w poolSeed n out Hout)
    as (info & per & Hi & -> & Hlen & Hin).
  split.
  - rewrite <- Hlen. unfold slice_to. rewrite length_firstn. apply Nat.le_min_r.
  - intros o Ho. apply In_slice_to in Ho.
    destruct (Hin o Ho) as (sig & t & i & Hf & Hit & Hq & Hp).
    apply is_create_order_spec in Hq as [Hprog Hop].
    exists info, sig, t, i. repeat split; assumption.
Qed.

(** The signature lists a run was answered, each with the address asked. *)
Definition listed_signature (e : Entry)
  : option (PublicKey * list ConfirmedSignatureInfo) :=
  match e with
  | mkEntry ev ans =>
      match ev in Event X
            return result X -> option (PublicKey * list ConfirmedSignatureInfo) with
      | GetConfirmedSignaturesForAddress2 k =>
          fun a => match a with Ok l => Some (k, l) | Err _ => None end
      | _ => fun _ => None
      end ans
  end.

Definition listed_signatures (t : Trace) : list (PublicKey * list ConfirmedSignatureInfo) :=
  filter_defined (map listed_signature t).

(** The transactions a run asked the node for, each with the node's answer
    ([None] when the node holds no transaction for the signature). *)
Definition requested_transaction (e : Entry)
  : option (string * option ConfirmedTransaction) :=
  match e with
  | mkEntry ev ans =>
      match ev in Event X
            return result X -> option (string * option ConfirmedTransaction) with
      | GetConfirmedTransaction sig =>
          fun a => match a with Ok t => Some (sig, t) | Err _ => None end
      | _ => fun _ => None
      end ans
  end.

Definition requested_transactions (t : Trace)
  : list (string * option ConfirmedTransaction) :=
  filter_defined (map requested_transaction t).

(** The order-creation instructions of one answer, and of a list of answers:
    the queryable window, when the answers are those for the listed
    signatures. *)
Definition create_orders_of (answer : option ConfirmedTransaction) : nat :=
  match answer with
  | Some t => create_orders_in t
  | None => 0
  end.

Definition qualifying_among (answers : list (string * option ConfirmedTransaction)) : nat :=
  list_sum (map (fun st => create_orders_of (snd st)) answers).

Lemma listed_signatures_app (t1 t2 : Trace) :
  listed_signatures (t1 ++ t2) = listed_signatures t1 ++ listed_signatures t2.
Proof. unfold listed_signatures. now rewrite map_app, filter_defined_app. Qed.

Lemma requested_transactions_app (t1 t2 : Trace) :
  requested_transactions (t1 ++ t2)
  = requested_transactions t1 ++ requested_transactions t2.
Proof. unfold requested_transactions. now rewrite map_app, filter_defined_app. Qed.

Lemma qualifying_among_requested (tr : Trace) :
  qualifying_in_window tr = qualifying_among (requested_transactions tr).
Proof.
  unfold qualifying_in_window, qualifying_among, fetched_transactions,
    requested_transactions.
  induction tr as [|[X ev ans] tr IH]; [reflexivity|]. cbn [map].
  destruct ev; cbn [fetched_transaction requested_transaction filter_defined]; trivial.
  destruct ans as [[t|]|]; cbn [filter_defined map list_sum snd create_orders_of];
    [unfold list_sum in IH |- *; cbn [fold_right]; now rewrite IH|exact IH|exact IH].
Qed.

Lemma fetchPoolInfo_no_requests (w : W) (poolSeed : Buffer) :
  listed_signatures (trace (run h (fetchPoolInfo poolSeed) w)) = []
  /\ requested_transactions (trace (run h (fetchPoolInfo poolSeed) w)) = [].
Proof.
  destruct (createProgramAddress [poolSeed] BONFIDABOT_PROGRAM_ID) as [poolKey|e] eqn:Hk.
  - destruct (createProgramAddress [poolSeed; array_one] BONFIDABOT_PROGRAM_ID)
      as [poolMintKey|e] eqn:Hm.
    + destruct (run_fetchPoolInfo W h w poolSeed poolKey poolMintKey Hk Hm) as (-> & _).
      split; reflexivity.
    + unfold fetchPoolInfo. rewrite Hk, Hm. split; reflexivity.
  - unfold fetchPoolInfo. rewrite Hk. split; reflexivity.
Qed.

(** A returned [Promise.all] over the listed signatures has asked for the
    transaction of each of them, in the order of the list. *)
Lemma run_per_signature_requests (info : PoolInfo) (sigs : list ConfirmedSignatureInfo) :
  forall (w : W) (per : list (option (list PoolOrderInfo))),
  returned (run h (mapP (getPoolOrdersInfosFromSignature info) sigs) w) = Ok per ->
  listed_signatures (trace (run h (mapP (getPoolOrdersInfosFromSignature info) sigs) w))
  = []
  /\ map fst (requested_transactions
                (trace (run h (mapP (getPoolOrdersInfosFromSignature info) sigs) w)))
     = map (fun sig => signature sig) sigs.
Proof.
  induction sigs as [|sig sigs IH]; intros w per; cbn [mapP].
  - cbn. intros _. split; reflexivity.
  - rewrite run_bind, run_getPoolOrdersInfosFromSignature. cbn [returned final trace].
    destruct (h _ (GetConfirmedTransaction (signature sig)) w) as [[ot|e] w'];
      cbn [fst snd]; [|cbn; discriminate].
    assert (Hstep : forall first : option (list PoolOrderInfo),
              returned (run h (bs <- mapP (getPoolOrdersInfosFromSignature info) sigs ;;
                               Ret (first :: bs))%prog w') = Ok per ->
              listed_signatures
                ([mkEntry (GetConfirmedTransaction (signature sig)) (Ok ot)]
                 ++ trace (run h (bs <- mapP (getPoolOrdersInfosFromSignature info) sigs ;;
                                  Ret (first :: bs))%prog w')) = []
              /\ map fst
                   (requested_transactions
                      ([mkEntry (GetConfirmedTransaction (signature sig)) (Ok ot)]
                       ++ trace (run h (bs <- mapP (getPoolOrdersInfosFromSignature info)
                                               sigs ;;
                                        Ret (first :: bs))%prog w')))
                 = map (fun sig => signature sig) (sig :: sigs)).
    { intros first Hper.
      destruct (run_mapP_rest _ _ _ _ _ Hper) as (rest & _ & Hr & Htr). rewrite Htr.
      destruct (IH w' rest Hr) as [Hl Hq].
      rewrite listed_signatures_app, requested_transactions_app, map_app, Hl, Hq.
      split; reflexivity. }
    destruct ot as [t|].
    + destruct (map_result (order_of_instruction info sig) (instructions t))
        as [x|e]; cbn [rbind]; [|cbn; discriminate].
      cbn [returned final trace]. apply Hstep.
    + cbn [returned final trace]. apply Hstep.
Qed.

(** A run of [getPoolOrderInfos] that returns has listed the signatures of
    the pool address once, and has asked for the transaction of every listed
    signature, in the order of the list. *)
Lemma run_getPoolOrderInfos_listing (w : W) (poolSeed : Buffer) (n : Z)
    (out : list PoolOrderInfo) :
  returned (run h (getPoolOrderInfos poolSeed n) w) = Ok out ->
  exists info sigs,
    returned (run h (fetchPoolInfo poolSeed) w) = Ok info
    /\ listed_signatures (trace (run h (getPoolOrderInfos poolSeed n) w))
       = [(address info, sigs)]
    /\ map fst (requested_transactions (trace (run h (getPoolOrderInfos poolSeed n) w)))
       = map (fun sig => signature sig) sigs.
Proof.
  unfold getPoolOrderInfos. rewrite run_bind.
  destruct (fetchPoolInfo_no_requests w poolSeed) as [Hnl Hnr].
  destruct (returned (run h (fetchPoolInfo poolSeed) w)) as [info|e]; [|cbn; discriminate].
  cbn zeta. cbn [returned final trace].
  rewrite run_bind, run_await. cbn [returned final trace].
  set (w1 := final (run h (fetchPoolInfo poolSeed) w)).
  destruct (h _ (GetConfirmedSignaturesForAddress2 (address info)) w1) as [[sigs|e] w2];
    cbn [fst snd]; [|cbn; discriminate].
  rewrite run_bind.
  destruct (returned (run h (mapP (getPoolOrdersInfosFromSignature info) sigs) w2))
    as [per|e] eqn:Hper; cbn [returned final trace run]; [|discriminate].
  intros _. destruct (run_per_signature_requests info sigs w2 per Hper) as [Hl Hq].
  exists info, sigs. split; [reflexivity|].
  rewrite app_nil_r, !listed_signatures_app, !requested_transactions_app, Hnl, Hnr, Hl,
    !map_app, Hq.
  split; reflexivity.
Qed.

(** C6: for a non-negative [n], [getPoolOrderInfos] returns at most [n]
    entries, and fewer than [n] only when the queryable window holds fewer
    than [n] order-creation instructions. The window is what the node holds
    for the pool: the run lists the signatures of the pool address once and
    asks for the transaction of every listed signature, and the count is
    over the node's answers to these requests. *)
Theorem getPoolOrderInfos_at_most_n (w : W) (poolSeed : Buffer) (n : Z)
    (out : list PoolOrderInfo) :
  (0 <= n)%Z ->
  returned (run h (getPoolOrderInfos poolSeed n) w) = Ok out ->
  exists info sigs,
    returned (run h (fetchPoolInfo poolSeed) w) = Ok info
    /\ listed_signatures (trace (run h (getPoolOrderInfos poolSeed n) w))
       = [(address info, sigs)]
    /\ map fst (requested_transactions (trace (run h (getPoolOrderInfos poolSeed n) w)))
       = map (fun sig => signature sig) sigs
    /\ (Z.of_nat (length out) <= n)%Z
    /\ ((Z.of_nat (length out) < n)%Z ->
        (Z.of_nat (qualifying_among
                     (requested_transactions
                        (trace (run h (getPoolOrderInfos poolSeed n) w)))) < n)%Z)
    /\ Z.of_nat (length out)
       = Z.min n
           (Z.of_nat (qualifying_among
                        (requested_transactions
                           (trace (run h (getPoolOrderInfos poolSeed n) w))))).
Proof.
  intros Hn Hout.
  destruct (run_getPoolOrderInfos_listing w poolSeed n out Hout)
    as (info & sigs & Hinfo & Hlisted & Hasked).
  exists info, sigs. split; [exact Hinfo|]. split; [exact Hlisted|].
  split; [exact Hasked|].
  destruct (run_getPoolOrderInfos w poolSeed n out Hout) as (info' & per & _ & -> & Hlen & _).
  rewrite <- qualifying_among_requested, <- Hlen, slice_to_length by assumption. lia.
Qed.

End History.

(** ** The order of the decoded lists *)

Lemma nth_error_map_seq {A} (f : nat -> A) (n i : nat) :
  i < n -> nth_error (map f (seq 0 n)) i = Some (f i).
Proof.
  intro H. rewrite nth_error_map, nth_error_seq.
  destruct (Nat.ltb_spec i n); [reflexivity|lia].
Qed.

Lemma slice_0 {A} (e : nat) (l : list A) : slice 0 e l = firstn e l.
Proof. unfold slice. now rewrite Nat.sub_0_r. Qed.

(** The i-th 32-byte record of a buffer. *)
Definition market_record (input : Buffer) (i : nat) : PublicKey :=
  mkPublicKey (slice (i * PUBKEY_LENGTH) (i * PUBKEY_LENGTH + PUBKEY_LENGTH) input).

Lemma spec_unpack_markets_nat_records (count : nat) :
  forall input : Buffer,
  count * PUBKEY_LENGTH <= length input ->
  spec_unpack_markets_nat input count = Ok (map (market_record input) (seq 0 count)).
Proof.
  induction count as [|count IH]; intros input Hlen; [reflexivity|].
  cbn [spec_unpack_markets_nat].
  destruct (Nat.ltb_spec (length input) PUBKEY_LENGTH) as [Hlt|_];
    [unfold PUBKEY_LENGTH in *; lia|].
  rewrite IH by (rewrite length_skipn; unfold PUBKEY_LENGTH in *; lia).
  cbn [rbind seq map]. do 2 f_equal.
  rewrite <- seq_shift, map_map. apply map_ext. intro i.
  unfold market_record. rewrite slice_skipn. do 2 f_equal; unfold PUBKEY_LENGTH; lia.
Qed.

Section SpecLayout.
Context `{L : AssetLayout}.
Context {I0 : Imports}.
Variable W : Type.
Variable h : Handler W.

(** The i-th fixed-size asset record of a buffer. *)
Definition asset_record (input : Buffer) (i : nat) : Buffer :=
  slice (i * PoolAsset_LEN) (i * PoolAsset_LEN + PoolAsset_LEN) input.

Lemma spec_unpack_assets_nat_records (count : nat) :
  forall input : Buffer,
  (forall i, i < count -> is_ok (PoolAsset_fromBuffer (asset_record input i)) = true) ->
  exists assets,
    spec_unpack_assets_nat input count = Ok assets
    /\ length assets = count
    /\ forall i, i < count ->
         exists asset, PoolAsset_fromBuffer (asset_record input i) = Ok asset
                       /\ nth_error assets i = Some asset.
Proof.
  induction count as [|count IH]; intros input Hok.
  - exists []. repeat split; trivial. intros i Hi; lia.
  - cbn [spec_unpack_assets_nat].
    assert (H0 : asset_record input 0 = firstn PoolAsset_LEN input)
      by (unfold asset_record; cbn [Nat.mul Nat.add]; apply slice_0).
    pose proof (Hok 0 ltac:(lia)) as Hfirst. rewrite H0 in Hfirst.
    destruct (PoolAsset_fromBuffer (firstn PoolAsset_LEN input)) as [a|e] eqn:Ha;
      [|discriminate].
    assert (Hshift : forall i, asset_record (skipn PoolAsset_LEN input) i
                               = asset_record input (S i)).
    { intro i. unfold asset_record. rewrite slice_skipn. f_equal; lia. }
    destruct (IH (skipn PoolAsset_LEN input)) as (assets & Hrun & Hlen & Hnth).
    { intros i Hi. rewrite Hshift. apply Hok. lia. }
    rewrite Hrun. cbn [rbind]. exists (a :: assets). repeat split.
    + simpl. now rewrite Hlen.
    + intros [|i] Hi.
      * exists a. rewrite H0. now split.
      * destruct (Hnth i ltac:(lia)) as (asset & Hd & Hn).
        exists asset. rewrite <- Hshift. now split.
Qed.

(** C9: for a well-formed pool account (a header, [numberOfMarkets] 32-byte
    addresses, then whole asset records), the lists of the [PoolInfo] follow
    the bytes of the account: entry [i] of [authorizedMarkets] is the i-th
    32-byte record after the header, and entry [i] of [assetMintkeys] is the
    mint of the i-th asset record after the markets. *)
Theorem fetchPoolInfo_preserves_order (w : W) (poolSeed : Buffer)
    (poolKey poolMintKey : PublicKey) (account : AccountInfo) (header : PoolHeader)
    (assets : nat) :
  let markets_at := PoolHeader_LEN in
  let assets_at := PoolHeader_LEN + N.to_nat (numberOfMarkets header) * PUBKEY_LENGTH in
  createProgramAddress [poolSeed] BONFIDABOT_PROGRAM_ID = Ok poolKey ->
  createProgramAddress [poolSeed; array_one] BONFIDABOT_PROGRAM_ID = Ok poolMintKey ->
  fst (h _ (GetAccountInfo poolKey) w) = Ok (Some account) ->
  PoolHeader_fromBuffer (slice 0 PoolHeader_LEN (data account)) = Ok header ->
  0 < PoolAsset_LEN ->
  length (data account) = assets_at + assets * PoolAsset_LEN ->
  (forall i, i < assets ->
     is_ok (PoolAsset_fromBuffer
              (slice (assets_at + i * PoolAsset_LEN)
                 (assets_at + i * PoolAsset_LEN + PoolAsset_LEN) (data account))) = true) ->
  exists info,
    returned (run h (@fetchPoolInfo _ (with_spec_unpackers I0) poolSeed) w) = Ok info
    /\ length (authorizedMarkets info) = N.to_nat (numberOfMarkets header)
    /\ length (assetMintkeys info) = assets
    /\ (forall i, i < N.to_nat (numberOfMarkets header) ->
          nth_error (authorizedMarkets info) i
          = Some (mkPublicKey
                    (slice (markets_at + i * PUBKEY_LENGTH)
                       (markets_at + i * PUBKEY_LENGTH + PUBKEY_LENGTH) (data account))))
    /\ (forall i, i < assets ->
          exists asset,
            PoolAsset_fromBuffer
              (slice (assets_at + i * PoolAsset_LEN)
                 (assets_at + i * PoolAsset_LEN + PoolAsset_LEN) (data account))
            = Ok asset
            /\ nth_error (assetMintkeys info) i = Some (mintAddress asset)).
Proof.
  intros markets_at assets_at Hk Hm Hacc Hhdr Hpos Hlen Hok.
  destruct (@run_fetchPoolInfo _ (with_spec_unpackers I0) W h w poolSeed poolKey
              poolMintKey Hk Hm) as (_ & _ & Hr).
  cbn [with_spec_unpackers BONFIDABOT_PROGRAM_ID PoolHeader_LEN PoolHeader_fromBuffer
         unpack_assets unpack_markets] in Hr.
  rewrite Hacc, Hhdr in Hr. cbn [rbind] in Hr.
  set (nm := N.to_nat (numberOfMarkets header)) in *.
  (* the assets *)
  assert (Hal : length (slice_from assets_at (data account)) = assets * PoolAsset_LEN)
    by (unfold slice_from; rewrite length_skipn; lia).
  assert (Hrec : forall i, asset_record (slice_from assets_at (data account)) i
                 = slice (assets_at + i * PoolAsset_LEN)
                     (assets_at + i * PoolAsset_LEN + PoolAsset_LEN) (data account)).
  { intro i. unfold asset_record, slice_from. rewrite slice_skipn. f_equal; lia. }
  destruct (spec_unpack_assets_nat_records assets (slice_from assets_at (data account)))
    as (poolAssets & Hrun & Hcount & Hnth).
  { intros i Hi. rewrite Hrec. now apply Hok. }
  assert (Ha : spec_unpack_assets (slice_from assets_at (data account)) = Ok poolAssets).
  { unfold spec_unpack_assets. rewrite Hal, Nat.Div0.mod_mul, Nat.div_mul by lia.
    exact Hrun. }
  fold assets_at in Hr. rewrite Ha in Hr. cbn [rbind] in Hr.
  (* the markets *)
  assert (Hmk : spec_unpack_markets (slice markets_at assets_at (data account))
                  (numberOfMarkets header)
                = Ok (map (market_record (slice markets_at assets_at (data account)))
                        (seq 0 nm))).
  { unfold spec_unpack_markets. apply spec_unpack_markets_nat_records.
    rewrite slice_length by lia. unfold assets_at, markets_at. fold nm. lia. }
  fold markets_at in Hr. rewrite Hmk in Hr. cbn [rbind] in Hr.
  eexists. split; [exact Hr|]. cbn [authorizedMarkets assetMintkeys].
  rewrite !length_map, length_seq. repeat split; trivial.
  - intros i Hi. rewrite nth_error_map_seq by assumption. f_equal.
    unfold market_record. rewrite slice_slice.
    + do 2 f_equal. lia.
    + unfold assets_at, markets_at. unfold PUBKEY_LENGTH in *. nia.
  - intros i Hi. destruct (Hnth i Hi) as (asset & Hd & Hn).
    exists asset. rewrite <- Hrec. split; [assumption|].
    now rewrite nth_error_map, Hn.
Qed.

End SpecLayout.

(** ** The deposit workflow *)

(** The mid prices a run was answered, each with the market address asked. *)
Definition mid_price_answer (e : Entry) : option (PublicKey * (Market * number)) :=
  match e with
  | mkEntry ev ans =>
      match ev in Event X return result X -> option (PublicKey * (Market * number)) with
      | GetMidPrice a => fun r => match r with Ok x => Some (a, x) | Err _ => None end
      | _ => fun _ => None
      end ans
  end.

Definition mid_prices (t : Trace) : list (PublicKey * (Market * number)) :=
  filter_defined (map mid_price_answer t).

(** The token balances a run was answered, each with the key asked. *)
Definition balance_answer (e : Entry) : option (PublicKey * TokenAmount) :=
  match e with
  | mkEntry ev ans =>
      match ev in Event X return result X -> option (PublicKey * TokenAmount) with
      | GetTokenAccountBalance k => fun r => match r with Ok x => Some (k, x) | Err _ => None end
      | _ => fun _ => None
      end ans
  end.

Definition balances (t : Trace) : list (PublicKey * TokenAmount) :=
  filter_defined (map balance_answer t).

(** The requests a program can make, whatever it is answered. *)
Fixpoint all_events {A} (P : forall X, Event X -> Prop) (p : Prog A) : Prop :=
  match p with
  | Ret _ => True
  | Fail _ => True
  | Await ev k => P _ ev /\ forall x, all_events P (k x)
  end.

(** Every order placed is a buy. *)
Definition only_buys (X : Type) (ev : Event X) : Prop :=
  match ev with
  | PlaceOrder _ o => op_side o = "buy"%string
  | _ => True
  end.

(** No deposit instruction is sent. *)
Definition is_deposit (ix : TransactionInstruction) : bool :=
  match ix with
  | depositInstruction _ _ _ _ _ _ _ _ _ _ _ _ _ => true
  | _ => false
  end.

Definition no_deposit (X : Type) (ev : Event X) : Prop :=
  match ev with
  | SignAndSendTransactionInstructions _ _ ixs =>
      forallb (fun ix => negb (is_deposit ix)) ixs = true
  | _ => True
  end.

(** The pool-token amount of a deposit instruction. *)
Definition deposit_amount (ix : TransactionInstruction) : option number :=
  match ix with
  | depositInstruction _ _ _ _ _ _ _ _ _ _ _ _ a => Some a
  | _ => None
  end.

Lemma all_events_bind {A B} (P : forall X, Event X -> Prop) (p : Prog A) (f : A -> Prog B) :
  all_events P p -> (forall a, all_events P (f a)) -> all_events P (bind p f).
Proof.
  intros Hp Hf. induction p as [a|e|X ev k IH]; simpl.
  - apply Hf.
  - exact I.
  - destruct Hp as [Hev Hk]. split; [assumption|]. intro x. apply IH, Hk.
Qed.

Lemma all_events_lift {A} (P : forall X, Event X -> Prop) (r : result A) :
  all_events P (lift r).
Proof. now destruct r. Qed.

Lemma all_events_await {X} (P : forall X, Event X -> Prop) (ev : Event X) :
  P _ ev -> all_events P (await ev).
Proof. intro H. simpl. now split. Qed.

Lemma all_events_foldP {S A} (P : forall X, Event X -> Prop) (body : S -> A -> Prog S)
    (l : list A) :
  (forall s a, all_events P (body s a)) -> forall s, all_events P (foldP body l s).
Proof.
  intro Hb. induction l as [|a l IH]; intro s; simpl; [exact I|].
  apply all_events_bind; [apply Hb|apply IH].
Qed.

Lemma all_events_run {W A} (h : Handler W) (P : forall X, Event X -> Prop) (p : Prog A) :
  all_events P p -> forall w, Forall (fun e => P _ (e_event e)) (trace (run h p w)).
Proof.
  induction p as [a|e|X ev k IH]; intros Hp w; simpl; try constructor.
  destruct Hp as [Hev Hk].
  destruct (h _ ev w) as [[x|e] w']; simpl; constructor; trivial.
  now apply IH.
Qed.

(** Structural proof of [all_events]: binds, loops, awaits and branches. *)
Ltac all_events_tac :=
  repeat first
    [ exact I
    | apply all_events_lift
    | apply all_events_bind
    | apply all_events_foldP
    | apply all_events_await
    | progress intros
    | match goal with
      | |- all_events _ (match ?x with _ => _ end) => destruct x
      | |- all_events _ (let '(_, _) := ?x in _) => destruct x
      | |- _ /\ _ => split
      end
    | progress cbn [all_events] ].

Lemma trace_bind {W A B} (h : Handler W) (p : Prog A) (f : A -> Prog B) (w : W) :
  trace (run h (bind p f) w)
  = trace (run h p w)
    ++ match returned (run h p w) with
       | Ok a => trace (run h (f a) (final (run h p w)))
       | Err _ => []
       end.
Proof.
  rewrite run_bind. destruct (returned (run h p w)); cbn; [reflexivity|].
  now rewrite app_nil_r.
Qed.

Lemma returned_bind {W A B} (h : Handler W) (p : Prog A) (f : A -> Prog B) (w : W) :
  returned (run h (bind p f) w)
  = match returned (run h p w) with
    | Ok a => returned (run h (f a) (final (run h p w)))
    | Err e => Err e
    end.
Proof. rewrite run_bind. now destruct (returned (run h p w)). Qed.

Lemma placed_orders_app (t1 t2 : Trace) :
  placed_orders (t1 ++ t2) = placed_orders t1 ++ placed_orders t2.
Proof. unfold placed_orders. now rewrite map_app, filter_defined_app. Qed.

Lemma mid_prices_app (t1 t2 : Trace) : mid_prices (t1 ++ t2) = mid_prices t1 ++ mid_prices t2.
Proof. unfold mid_prices. now rewrite map_app, filter_defined_app. Qed.

Lemma balances_app (t1 t2 : Trace) : balances (t1 ++ t2) = balances t1 ++ balances t2.
Proof. unfold balances. now rewrite map_app, filter_defined_app. Qed.

Lemma placed_orders_only_buys (t : Trace) :
  Forall (fun e => only_buys _ (e_event e)) t ->
  forall m o, In (m, o) (placed_orders t) -> op_side o = "buy"%string.
Proof.
  induction 1 as [|e t He Ht IH]; intros m o Hin; [destruct Hin|].
  unfold placed_orders in Hin. cbn [map filter_defined] in Hin.
  destruct e as [X ev ans].
  destruct ev; cbn in Hin; try (now apply (IH m o)).
  destruct ans as [[]|]; cbn in Hin; [|now apply (IH m o)].
  destruct Hin as [Heq|Hin]; [|now apply (IH m o)].
  injection Heq as <- <-. exact He.
Qed.

Lemma sent_no_deposit (t : Trace) :
  Forall (fun e => no_deposit _ (e_event e)) t ->
  forall ix, In ix (flat_map sent_instructions t) -> is_deposit ix = false.
Proof.
  induction 1 as [|e t He Ht IH]; intros ix Hin; [destruct Hin|].
  cbn [flat_map] in Hin. apply in_app_or in Hin as [Hin|Hin]; [|now apply IH].
  destruct e as [X ev ans]. destruct ev; cbn in Hin; try (now destruct Hin).
  cbn in He. rewrite forallb_forall in He. specialize (He ix Hin).
  now apply negb_true_iff in He.
Qed.

(** The values a program can return, whatever it is answered. *)
Fixpoint results {A} (Q : A -> Prop) (p : Prog A) : Prop :=
  match p with
  | Ret a => Q a
  | Fail _ => True
  | Await ev k => forall x, results Q (k x)
  end.

Lemma results_bind {A B} (Q1 : A -> Prop) (Q2 : B -> Prop) (p : Prog A) (f : A -> Prog B) :
  results Q1 p -> (forall a, Q1 a -> results Q2 (f a)) -> results Q2 (bind p f).
Proof.
  intros Hp Hf. induction p as [a|e|X ev k IH]; simpl.
  - now apply Hf.
  - exact I.
  - intro x. apply IH, Hp.
Qed.

Lemma results_any {A} (p : Prog A) : results (fun _ => True) p.
Proof. induction p; simpl; auto. Qed.

Lemma results_foldP {S A} (Inv : S -> Prop) (body : S -> A -> Prog S) (l : list A) :
  (forall s a, Inv s -> results Inv (body s a)) ->
  forall s, Inv s -> results Inv (foldP body l s).
Proof.
  intro Hb. induction l as [|a l IH]; intros s Hs; simpl; [assumption|].
  apply results_bind with (Q1 := Inv); [now apply Hb|apply IH].
Qed.

Lemma results_run {W A} (h : Handler W) (Q : A -> Prop) (p : Prog A) :
  results Q p -> forall w a, returned (run h p w) = Ok a -> Q a.
Proof.
  induction p as [a|e|X ev k IH]; intros Hp w b; simpl.
  - intro H; injection H as <-. exact Hp.
  - discriminate.
  - destruct (h _ ev w) as [[x|e] w']; simpl; [|discriminate]. apply IH, Hp.
Qed.

Lemma all_events_bind_post {A B} (P : forall X, Event X -> Prop) (Q : A -> Prop)
    (p : Prog A) (f : A -> Prog B) :
  all_events P p -> results Q p -> (forall a, Q a -> all_events P (f a)) ->
  all_events P (bind p f).
Proof.
  intros Hp Hq Hf. induction p as [a|e|X ev k IH]; simpl.
  - now apply Hf.
  - exact I.
  - destruct Hp as [Hev Hk]. split; [assumption|]. intro x. apply IH; [apply Hk|apply Hq].
Qed.

Section Deposit.
Context `{Imp : Imports}.
Variable W : Type.
Variable h : Handler W.

(** *** What each part of the workflow can request *)

Lemma resolve_only_buys (key : PublicKey) (user_amount : number) (poolSeed : Buffer) :
  all_events only_buys (resolve key user_amount poolSeed).
Proof. unfold resolve. all_events_tac. Qed.

Lemma resolve_no_deposit (key : PublicKey) (user_amount : number) (poolSeed : Buffer) :
  all_events no_deposit (resolve key user_amount poolSeed).
Proof. unfold resolve. all_events_tac. Qed.

Lemma settle_all_only_buys (m : Market) (owner : Wallet) (oos : list OpenOrders)
    (base : option PublicKey) (quote : PublicKey) :
  all_events only_buys (settle_all m owner oos base quote).
Proof. unfold settle_all. all_events_tac. Qed.

Lemma settle_all_no_deposit (m : Market) (owner : Wallet) (oos : list OpenOrders)
    (base : option PublicKey) (quote : PublicKey) :
  all_events no_deposit (settle_all m owner oos base quote).
Proof. unfold settle_all. all_events_tac. Qed.

Lemma convert_no_deposit (owner : Wallet) (key : PublicKey) (payer : Account)
    (symbol : string) (amount : number) :
  all_events no_deposit (convert owner key payer symbol amount).
Proof.
  unfold convert, settle_all. all_events_tac. reflexivity.
Qed.

Lemma verify_only_buys (key : PublicKey) (initial amount : number) :
  all_events only_buys (verify key initial amount).
Proof.
  unfold verify. all_events_tac.
Qed.

Lemma verify_no_deposit (key : PublicKey) (initial amount : number) :
  all_events no_deposit (verify key initial amount).
Proof.
  unfold verify. all_events_tac.
Qed.

Lemma provision_only_buys (owner : Wallet) (payer : Account) (poolKey : PublicKey)
    (assets : list PoolAsset) :
  all_events only_buys (provision owner payer poolKey assets).
Proof.
  unfold provision, provision_asset. all_events_tac.
Qed.

(** The instructions gathered by the provisioning loop create accounts. *)
Definition creates_only (acc : list TransactionInstruction * list PublicKey * list PublicKey)
  : Prop :=
  forallb (fun ix => negb (is_deposit ix)) (fst (fst acc)) = true.

Lemma provision_asset_creates_only (owner : Wallet) (payer : Account) (poolKey : PublicKey)
    (acc : list TransactionInstruction * list PublicKey * list PublicKey)
    (asset : PoolAsset) :
  creates_only acc -> results creates_only (provision_asset owner payer poolKey acc asset).
Proof.
  destruct acc as [[ixs sk] pk]. unfold creates_only, provision_asset; cbn [fst].
  intro Hixs.
  destruct (findAssociatedTokenAddress (wallet_publicKey owner) (mintAddress asset));
    cbn [lift bind]; [|exact I].
  destruct (findAssociatedTokenAddress poolKey (mintAddress asset));
    cbn [lift bind]; [|exact I].
  cbn [await bind results]. intros [info|]; cbn [results fst]; [assumption|].
  rewrite forallb_app, Hixs. reflexivity.
Qed.

Lemma provision_no_deposit (owner : Wallet) (payer : Account) (poolKey : PublicKey)
    (assets : list PoolAsset) :
  all_events no_deposit (provision owner payer poolKey assets).
Proof.
  unfold provision.
  apply all_events_bind_post with (Q := creates_only).
  - unfold provision_asset. all_events_tac.
  - apply results_foldP; [intros; now apply provision_asset_creates_only|reflexivity].
  - intros [[ixs sk] pk] Hixs. unfold creates_only in Hixs; cbn [fst] in Hixs.
    all_events_tac. exact Hixs.
Qed.

Lemma pool_balances_only_buys (poolKey : PublicKey) (assets : list PoolAsset) :
  all_events only_buys (pool_balances poolKey assets).
Proof.
  unfold pool_balances, pool_balance. all_events_tac.
Qed.

Lemma pool_balances_no_deposit (poolKey : PublicKey) (assets : list PoolAsset) :
  all_events no_deposit (pool_balances poolKey assets).
Proof.
  unfold pool_balances, pool_balance. all_events_tac.
Qed.

Lemma rebalance_only_buys (owner : Wallet) (key : PublicKey) (assets : list PoolAsset)
    (amounts : list number) (mid amount total : number) :
  all_events only_buys (rebalance owner key assets amounts mid amount total).
Proof.
  unfold rebalance, rebalance_asset. all_events_tac. reflexivity.
Qed.

Lemma rebalance_no_deposit (owner : Wallet) (key : PublicKey) (assets : list PoolAsset)
    (amounts : list number) (mid amount total : number) :
  all_events no_deposit (rebalance owner key assets amounts mid amount total).
Proof.
  unfold rebalance, rebalance_asset. all_events_tac.
Qed.

Lemma settle_only_buys (owner : Wallet) (key : PublicKey) (assets : list PoolAsset)
    (markets : list (option Market)) (keys : list PublicKey) :
  all_events only_buys (settle owner key assets markets keys).
Proof.
  unfold settle, settle_asset, settle_all. all_events_tac.
Qed.

Lemma settle_no_deposit (owner : Wallet) (key : PublicKey) (assets : list PoolAsset)
    (markets : list (option Market)) (keys : list PublicKey) :
  all_events no_deposit (settle owner key assets markets keys).
Proof.
  unfold settle, settle_asset, settle_all. all_events_tac.
Qed.

Lemma deposit_only_buys (owner : Wallet) (payer : Account) (poolSeed : Buffer)
    (poolKey poolMintKey : PublicKey) (header : PoolHeader)
    (poolAssetKeys sourceAssetKeys : list PublicKey) (pta : number) :
  all_events only_buys
    (deposit owner payer poolSeed poolKey poolMintKey header poolAssetKeys
       sourceAssetKeys pta).
Proof. unfold deposit. all_events_tac. Qed.

(** *** The amount and the conversion order *)

(** [amount] is the [decimals] answered for the source token account times
    [user_amount]. *)
Lemma resolve_amount (key : PublicKey) (user_amount : number) (poolSeed : Buffer)
    (w : W) (r : Resolved) :
  returned (run h (resolve key user_amount poolSeed) w) = Ok r ->
  exists balance,
    In (key, balance) (balances (trace (run h (resolve key user_amount poolSeed) w)))
    /\ r_amount r = (decimals balance * user_amount)%float.
Proof.
  unfold resolve.
  destruct (createProgramAddress [poolSeed] BONFIDABOT_PROGRAM_ID) as [poolKey|];
    cbn [lift bind]; [|cbn; discriminate].
  destruct (createProgramAddress [poolSeed; array_one] BONFIDABOT_PROGRAM_ID)
    as [poolMintKey|]; cbn [lift bind]; [|cbn; discriminate].
  cbn [await bind run].
  destruct (h _ (GetAccountInfo poolKey) w) as [[[poolInfo|]|] w1];
    cbn [returned trace]; try discriminate.
  destruct (PoolHeader_fromBuffer _) as [header|]; cbn [lift bind]; [|cbn; discriminate].
  destruct (unpack_assets _) as [assets|]; cbn [lift bind]; [|cbn; discriminate].
  cbn [await bind run].
  destruct (h _ (GetAccountInfo key) w1) as [[[tokenInfo|]|] w2];
    cbn [returned trace]; try discriminate.
  destruct (token_name _) as [symbol|]; cbn [lift bind]; [|cbn; discriminate].
  cbn [await bind run].
  destruct (h _ (GetTokenAccountBalance key) w2) as [[balance|] w3];
    cbn [returned trace run]; [|discriminate].
  intro H; injection H as <-. exists balance. split; [|reflexivity].
  cbn. now left.
Qed.

(** The one order of the conversion. *)
Lemma convert_orders (owner : Wallet) (key : PublicKey) (payer : Account)
    (symbol : string) (amount : number) (w : W) (m : Market) (o : OrderParams) :
  In (m, o) (placed_orders (trace (run h (convert owner key payer symbol amount) w))) ->
  op_side o = "sell"%string ->
  symbol <> "USDC"%string
  /\ exists marketAddress mid,
       In (marketAddress, (m, mid))
         (mid_prices (trace (run h (convert owner key payer symbol amount) w)))
       /\ o = {| op_owner := owner;
                 op_payer := key;
                 op_side := "sell";
                 op_price := (0.95 * mid)%float;
                 op_size := amount;
                 op_orderType := "ioc" |}.
Proof.
  unfold convert.
  destruct (symbol =? "USDC")%string eqn:Hsym; cbn [negb]; [cbn; contradiction|].
  apply String.eqb_neq in Hsym.
  destruct (live_market_info _) as [info|]; cbn [lift bind]; [|cbn; contradiction].
  rewrite trace_bind, run_await.
  destruct (h _ (GetMidPrice (mi_address info)) w) as [[[m' mid]|] w1];
    cbn [fst snd returned final trace]; [|cbn; contradiction].
  rewrite trace_bind, run_await.
  destruct (h _ (PlaceOrder m' _) w1) as [[[]|] w2];
    cbn [fst snd returned final trace]; [|cbn; contradiction].
  rewrite !placed_orders_app, !mid_prices_app. cbn [app].
  intros Hin Hsell. split; [assumption|].
  unfold placed_orders at 1 2 in Hin. cbn [map filter_defined placed_order e_event e_answer app]
    in Hin.
  destruct Hin as [Heq|Hin].
  - injection Heq as <- <-. exists (mi_address info), mid. split; [|reflexivity].
    apply in_or_app. left. cbn. now left.
  - exfalso.
    match type of Hin with
    | In _ (placed_orders (trace (run _ ?p _))) =>
        assert (Hp : all_events only_buys p) by (unfold settle_all; all_events_tac)
    end.
    pose proof (placed_orders_only_buys _ (all_events_run h _ _ Hp w2) _ _ Hin) as Hbuy.
    rewrite Hbuy in Hsell. discriminate.
Qed.

(** When the source token is not USDC, its market is live and the venue
    answers, the conversion order is the first order placed. *)
Lemma convert_places_sell (owner : Wallet) (key : PublicKey) (payer : Account)
    (symbol : string) (amount : number) (w : W) (info : MarketInfo) (m : Market)
    (mid : number) :
  symbol <> "USDC"%string ->
  live_market_info (symbol ++ "/USDC")%string = Ok info ->
  fst (h _ (GetMidPrice (mi_address info)) w) = Ok (m, mid) ->
  let order := {| op_owner := owner;
                  op_payer := key;
                  op_side := "sell";
                  op_price := (0.95 * mid)%float;
                  op_size := amount;
                  op_orderType := "ioc" |} in
  is_ok (fst (h _ (PlaceOrder m order) (snd (h _ (GetMidPrice (mi_address info)) w))))
  = true ->
  nth_error (placed_orders (trace (run h (convert owner key payer symbol amount) w))) 0
  = Some (m, order).
Proof.
  intros Hsym Hinfo Hmid order Hplaced. unfold convert.
  apply String.eqb_neq in Hsym. rewrite Hsym, Hinfo. cbn [negb lift bind].
  rewrite trace_bind, run_await. cbn [returned final trace].
  destruct (h _ (GetMidPrice (mi_address info)) w) as [answer w1]. cbn [fst snd] in *.
  subst answer. rewrite trace_bind, run_await. cbn [returned final trace].
  fold order.
  destruct (h _ (PlaceOrder m order) w1) as [[[]|] w2]; cbn [fst snd] in *;
    [|discriminate].
  reflexivity.
Qed.

(** What follows the conversion places buy orders only. *)
Lemma after_convert_only_buys (owner : Wallet) (key : PublicKey) (poolSeed : Buffer)
    (payer : Account) (r : Resolved) (x : number * PublicKey) :
  all_events only_buys
    (let '(midPriceUSDC, sourceUSDCKey) := x in
     verify key (r_tokenInitialBalance r) (r_amount r) ;;
     '(sourceAssetKeys, poolAssetKeys) <-
       provision owner payer (r_poolKey r) (r_poolAssets r) ;;
     '(poolAssetAmounts, totalPoolAssetAmount) <-
       pool_balances (r_poolKey r) (r_poolAssets r) ;;
     '(poolAssetMarkets, poolTokenAmount) <-
       rebalance owner sourceUSDCKey (r_poolAssets r) poolAssetAmounts
         midPriceUSDC (r_amount r) totalPoolAssetAmount ;;
     await (Sleep (3 * 1000)) ;;
     settle owner sourceUSDCKey (r_poolAssets r) poolAssetMarkets sourceAssetKeys ;;
     deposit owner payer poolSeed (r_poolKey r) (r_poolMintKey r) (r_poolHeader r)
       poolAssetKeys sourceAssetKeys poolTokenAmount)%prog.
Proof.
  destruct x as [mid usdcKey].
  apply all_events_bind; [apply verify_only_buys|intros _].
  apply all_events_bind; [apply provision_only_buys|intros [sk pk]].
  apply all_events_bind; [apply pool_balances_only_buys|intros [amounts total]].
  apply all_events_bind; [apply rebalance_only_buys|intros [markets pta]].
  apply all_events_bind; [now apply all_events_await|intros _].
  apply all_events_bind; [apply settle_only_buys|intros _].
  apply deposit_only_buys.
Qed.

(** *** The conversion check *)

Lemma run_verify (key : PublicKey) (initial amount : number) (w : W)
    (tokenInfo : AccountInfo) :
  fst (h _ (GetAccountInfo key) w) = Ok (Some tokenInfo) ->
  returned (run h (verify key initial amount) w)
  = if conversion_rejected initial (ta_amount (AccountLayout_decode (data tokenInfo))) amount
    then Err ConversionNotMatched
    else Ok tt.
Proof.
  intro Hinfo. unfold verify. rewrite returned_bind, run_await. cbn [returned final].
  rewrite Hinfo. now destruct (conversion_rejected _ _ _).
Qed.

(** *** The pool-token amount of the deposit *)

(** What turn [i] of the rebalance loop hands to [Math.max], if anything: the
    USDC ratio for the USDC asset, nothing for another asset whose pool
    balance is zero, and otherwise the ratio of the leg at the mid price
    answered for the asset's market. *)
Definition leg_of (assets : list PoolAsset) (amounts : list number)
    (mid amount total : number) (tr : Trace) (i : nat) (leg : option number) : Prop :=
  exists asset symbol,
    nth_error assets i = Some asset
    /\ token_name (mintAddress asset) = Ok symbol
    /\ if (symbol =? "USDC")%string
       then leg = Some (usdc_leg_ratio mid amount total)
       else exists info,
           live_market_info (symbol ++ "/USDC")%string = Ok info
           /\ if PrimFloat.eqb (nth i amounts PrimFloat.nan) 0
              then leg = None
              else exists m assetMid,
                  In (mi_address info, (m, assetMid)) (mid_prices tr)
                  /\ leg = Some (traded_leg_ratio mid amount (nth i amounts PrimFloat.nan)
                                   assetMid total).

Lemma leg_of_mono (assets : list PoolAsset) (amounts : list number)
    (mid amount total : number) (tr tr' : Trace) (i : nat) (leg : option number) :
  (forall x, In x (mid_prices tr) -> In x (mid_prices tr')) ->
  leg_of assets amounts mid amount total tr i leg ->
  leg_of assets amounts mid amount total tr' i leg.
Proof.
  intros Hsub (asset & symbol & Ha & Hs & Hleg). exists asset, symbol.
  repeat split; trivial.
  destruct (symbol =? "USDC")%string; [assumption|].
  destruct Hleg as (info & Hinfo & Hleg). exists info. split; [assumption|].
  destruct (PrimFloat.eqb _ _); [assumption|].
  destruct Hleg as (m & assetMid & Hin & ->). exists m, assetMid. auto.
Qed.

(** One turn of the loop. *)
Lemma run_rebalance_asset (owner : Wallet) (key : PublicKey) (assets : list PoolAsset)
    (amounts : list number) (mid amount total : number)
    (acc acc' : list (option Market) * number) (i : nat) (w : W) :
  returned (run h (rebalance_asset owner key assets amounts mid amount total acc i) w)
  = Ok acc' ->
  exists leg,
    leg_of assets amounts mid amount total
      (trace (run h (rebalance_asset owner key assets amounts mid amount total acc i) w))
      i leg
    /\ snd acc' = match leg with
                  | Some ratio => Math_max (snd acc) ratio
                  | None => snd acc
                  end.
Proof.
  unfold rebalance_asset, leg_of. destruct acc as [markets pta].
  destruct (nth_error assets i) as [asset|]; cbn [lift bind]; [|cbn; discriminate].
  destruct (token_name (mintAddress asset)) as [symbol|] eqn:Hname; cbn [lift bind];
    [|cbn; discriminate].
  destruct (symbol =? "USDC")%string eqn:Hsym; cbn [negb].
  - cbn [run returned trace]. intro H; injection H as <-.
    exists (Some (usdc_leg_ratio mid amount total)). split; [|reflexivity].
    exists asset, symbol. rewrite Hsym. auto.
  - destruct (live_market_info _) as [info|] eqn:Hinfo; cbn [lift bind];
      [|cbn; discriminate].
    destruct (PrimFloat.eqb (nth i amounts PrimFloat.nan) 0) eqn:Hzero.
    + cbn [run returned trace]. intro H; injection H as <-.
      exists None. split; [|reflexivity].
      exists asset, symbol. rewrite Hsym. repeat split; trivial.
      exists info. try rewrite Hzero. split; trivial.
    + cbn [await bind run].
      destruct (h _ (GetMidPrice (mi_address info)) w) as [[[m assetMid]|] w1];
        cbn [run returned trace]; [|discriminate].
      match goal with
      | |- context [h _ (PlaceOrder m ?o) w1] =>
          destruct (h _ (PlaceOrder m o) w1) as [[[]|] w2]
      end; cbn [returned trace run]; [|discriminate].
      intro H; injection H as <-.
      exists (Some (traded_leg_ratio mid amount (nth i amounts PrimFloat.nan) assetMid
                      total)).
      split; [|reflexivity].
      exists asset, symbol. rewrite Hsym. repeat split; trivial.
      exists info. try rewrite Hzero. split; [trivial|].
      exists m, assetMid. split; [|reflexivity]. cbn. now left.
Qed.

(** The loop from any accumulator. *)
Lemma run_rebalance_loop (owner : Wallet) (key : PublicKey) (assets : list PoolAsset)
    (amounts : list number) (mid amount total : number) (idxs : list nat) :
  forall (acc acc' : list (option Market) * number) (w : W),
  returned (run h (foldP (rebalance_asset owner key assets amounts mid amount total)
                     idxs acc) w) = Ok acc' ->
  exists legs,
    Forall2 (leg_of assets amounts mid amount total
               (trace (run h (foldP (rebalance_asset owner key assets amounts mid amount
                                       total) idxs acc) w)))
      idxs legs
    /\ snd acc' = fold_left Math_max (filter_defined legs) (snd acc).
Proof.
  induction idxs as [|i idxs IH]; intros acc acc' w; cbn [foldP].
  - cbn. intro H; injection H as <-. exists []. split; [constructor|reflexivity].
  - rewrite returned_bind, trace_bind.
    destruct (returned (run h (rebalance_asset owner key assets amounts mid amount total
                                 acc i) w)) as [acc1|] eqn:H1; [|discriminate].
    intro Hrest.
    destruct (run_rebalance_asset _ _ _ _ _ _ _ _ _ _ _ H1) as (leg & Hleg & Hacc1).
    destruct (IH _ _ _ Hrest) as (legs & Hlegs & Hacc').
    exists (leg :: legs). split.
    + constructor.
      * eapply leg_of_mono; [|exact Hleg]. intros x Hx.
        rewrite mid_prices_app. apply in_or_app. now left.
      * eapply Forall2_impl; [|exact Hlegs]. intros j l Hl.
        eapply leg_of_mono; [|exact Hl]. intros x Hx.
        rewrite mid_prices_app. apply in_or_app. now right.
    + rewrite Hacc'. destruct leg as [ratio|]; cbn [filter_defined fold_left];
        now rewrite Hacc1.
Qed.

(** The loop as run by the workflow: [poolTokenAmount] is the [Math.max] of
    0 and the ratios of the legs, taken in the order of the pool assets. *)
Lemma run_rebalance (owner : Wallet) (key : PublicKey) (assets : list PoolAsset)
    (amounts : list number) (mid amount total : number) (w : W)
    (markets : list (option Market)) (poolTokenAmount : number) :
  returned (run h (rebalance owner key assets amounts mid amount total) w)
  = Ok (markets, poolTokenAmount) ->
  exists legs,
    Forall2 (leg_of assets amounts mid amount total
               (trace (run h (rebalance owner key assets amounts mid amount total) w)))
      (seq 0 (length assets)) legs
    /\ poolTokenAmount = fold_left Math_max (filter_defined legs) 0%float.
Proof.
  unfold rebalance. intro H.
  destruct (run_rebalance_loop _ _ _ _ _ _ _ _ _ _ _ H) as (legs & Hlegs & Hpta).
  exists legs. split; assumption.
Qed.

(** Every deposit instruction sent carries 1000000 times [poolTokenAmount]. *)
Definition deposit_claim (poolTokenAmount : number) (X : Type) (ev : Event X) : Prop :=
  match ev with
  | SignAndSendTransactionInstructions _ _ ixs =>
      forall ix, In ix ixs -> is_deposit ix = true ->
                 deposit_amount ix = Some (1000000 * poolTokenAmount)%float
  | _ => True
  end.

Lemma deposit_sends_claim (owner : Wallet) (payer : Account) (poolSeed : Buffer)
    (poolKey poolMintKey : PublicKey) (header : PoolHeader)
    (poolAssetKeys sourceAssetKeys : list PublicKey) (pta : number) :
  all_events (deposit_claim pta)
    (deposit owner payer poolSeed poolKey poolMintKey header poolAssetKeys
       sourceAssetKeys pta).
Proof.
  unfold deposit. all_events_tac. unfold deposit_claim. intros ix Hin Hdep.
  repeat match goal with o : option N |- _ => destruct o end;
    cbn [push_if_defined app In] in Hin;
    repeat (destruct Hin as [Hin|Hin]; [subst ix; try discriminate; try reflexivity|]);
    try contradiction.
Qed.

Lemma sent_deposit_claim (pta : number) (t : Trace) :
  Forall (fun e => deposit_claim pta _ (e_event e)) t ->
  forall ix, In ix (flat_map sent_instructions t) -> is_deposit ix = true ->
             deposit_amount ix = Some (1000000 * pta)%float.
Proof.
  induction 1 as [|e t He Ht IH]; intros ix Hin Hd; [destruct Hin|].
  cbn [flat_map] in Hin. apply in_app_or in Hin as [Hin|Hin]; [|now apply IH].
  destruct e as [X ev ans]. destruct ev; cbn in Hin; try (now destruct Hin).
  now apply He.
Qed.

(** A part of the workflow that sends no deposit instruction. *)
(** *** What the run was answered: balances and mid prices *)

Definition no_balance (X : Type) (ev : Event X) : Prop :=
  match ev with
  | GetTokenAccountBalance _ => False
  | _ => True
  end.

Definition no_mid_price (X : Type) (ev : Event X) : Prop :=
  match ev with
  | GetMidPrice _ => False
  | _ => True
  end.

(** Neither a balance nor a mid price is asked. *)
Definition silent (X : Type) (ev : Event X) : Prop :=
  no_balance X ev /\ no_mid_price X ev.

Lemma no_balance_trace (t : Trace) :
  Forall (fun e => no_balance _ (e_event e)) t -> balances t = [].
Proof.
  induction 1 as [|e t He _ IH]; [reflexivity|].
  destruct e as [X ev ans]. unfold balances in *.
  destruct ev; cbn in He |- *; try contradiction; exact IH.
Qed.

Lemma no_mid_price_trace (t : Trace) :
  Forall (fun e => no_mid_price _ (e_event e)) t -> mid_prices t = [].
Proof.
  induction 1 as [|e t He _ IH]; [reflexivity|].
  destruct e as [X ev ans]. unfold mid_prices in *.
  destruct ev; cbn in He |- *; try contradiction; exact IH.
Qed.

Lemma silent_trace (t : Trace) :
  Forall (fun e => silent _ (e_event e)) t -> balances t = [] /\ mid_prices t = [].
Proof.
  intro H. split; [apply no_balance_trace|apply no_mid_price_trace];
    (eapply Forall_impl; [|exact H]); now intros e [Hb Hm].
Qed.

Lemma resolve_no_mid_price (key : PublicKey) (user_amount : number) (poolSeed : Buffer) :
  all_events no_mid_price (resolve key user_amount poolSeed).
Proof. unfold resolve. all_events_tac. Qed.

Lemma convert_no_balance (owner : Wallet) (key : PublicKey) (payer : Account)
    (symbol : string) (amount : number) :
  all_events no_balance (convert owner key payer symbol amount).
Proof. unfold convert, settle_all. all_events_tac. Qed.

Lemma verify_silent (key : PublicKey) (initial amount : number) :
  all_events silent (verify key initial amount).
Proof. unfold verify, silent. all_events_tac. Qed.

Lemma provision_silent (owner : Wallet) (payer : Account) (poolKey : PublicKey)
    (assets : list PoolAsset) :
  all_events silent (provision owner payer poolKey assets).
Proof. unfold provision, provision_asset, silent. all_events_tac. Qed.

Lemma pool_balances_no_mid_price (poolKey : PublicKey) (assets : list PoolAsset) :
  all_events no_mid_price (pool_balances poolKey assets).
Proof. unfold pool_balances, pool_balance. all_events_tac. Qed.

Lemma rebalance_no_balance (owner : Wallet) (key : PublicKey) (assets : list PoolAsset)
    (amounts : list number) (mid amount total : number) :
  all_events no_balance (rebalance owner key assets amounts mid amount total).
Proof. unfold rebalance, rebalance_asset. all_events_tac. Qed.

Lemma sleep_silent (ms : Z) : all_events silent (await (Sleep ms)).
Proof. apply all_events_await. split; exact I. Qed.

Lemma settle_silent (owner : Wallet) (key : PublicKey) (assets : list PoolAsset)
    (markets : list (option Market)) (keys : list PublicKey) :
  all_events silent (settle owner key assets markets keys).
Proof. unfold settle, settle_asset, settle_all, silent. all_events_tac. Qed.

Lemma deposit_silent (owner : Wallet) (payer : Account) (poolSeed : Buffer)
    (poolKey poolMintKey : PublicKey) (header : PoolHeader)
    (poolAssetKeys sourceAssetKeys : list PublicKey) (pta : number) :
  all_events silent
    (deposit owner payer poolSeed poolKey poolMintKey header poolAssetKeys
       sourceAssetKeys pta).
Proof. unfold deposit, silent. all_events_tac. Qed.

(** The one balance the reading phase asks: that of the source account,
    whose [decimals] scales the amount. *)
Lemma run_resolve_balance (key : PublicKey) (user_amount : number) (poolSeed : Buffer)
    (w : W) (r : Resolved) :
  returned (run h (resolve key user_amount poolSeed) w) = Ok r ->
  exists balance,
    balances (trace (run h (resolve key user_amount poolSeed) w)) = [(key, balance)]
    /\ r_amount r = (decimals balance * user_amount)%float.
Proof.
  unfold resolve.
  destruct (createProgramAddress [poolSeed] BONFIDABOT_PROGRAM_ID) as [poolKey|];
    cbn [lift bind]; [|cbn; discriminate].
  destruct (createProgramAddress [poolSeed; array_one] BONFIDABOT_PROGRAM_ID)
    as [poolMintKey|]; cbn [lift bind]; [|cbn; discriminate].
  cbn [await bind run].
  destruct (h _ (GetAccountInfo poolKey) w) as [[[poolInfo|]|] w1];
    cbn [returned trace]; try discriminate.
  destruct (PoolHeader_fromBuffer _) as [header|]; cbn [lift bind]; [|cbn; discriminate].
  destruct (unpack_assets _) as [assets|]; cbn [lift bind]; [|cbn; discriminate].
  cbn [await bind run].
  destruct (h _ (GetAccountInfo key) w1) as [[[tokenInfo|]|] w2];
    cbn [returned trace]; try discriminate.
  destruct (token_name _) as [symbol|]; cbn [lift bind]; [|cbn; discriminate].
  cbn [await bind run].
  destruct (h _ (GetTokenAccountBalance key) w2) as [[balance|] w3];
    cbn [returned trace run]; [|discriminate].
  intro H; injection H as <-. exists balance. split; reflexivity.
Qed.

(** What the conversion step was answered and gives on: for a USDC source
    nothing is asked, the price is 1 and the USDC account is the source
    account; otherwise the one mid price asked is that of the market of the
    pair, and the USDC account is the owner's associated address for the
    quote mint of that market. *)
Definition conversion_of (owner : Wallet) (key : PublicKey) (symbol : string)
    (asked : list (PublicKey * (Market * number))) (midPriceUSDC : number)
    (sourceUSDCKey : PublicKey) : Prop :=
  if (symbol =? "USDC")%string
  then asked = [] /\ midPriceUSDC = 1%float /\ sourceUSDCKey = key
  else exists info marketUSDC,
      live_market_info (symbol ++ "/USDC")%string = Ok info
      /\ asked = [(mi_address info, (marketUSDC, midPriceUSDC))]
      /\ findAssociatedTokenAddress (wallet_publicKey owner) (quoteMintAddress marketUSDC)
         = Ok sourceUSDCKey.

Lemma run_convert_mid (owner : Wallet) (key : PublicKey) (payer : Account)
    (symbol : string) (amount : number) (w : W) (mid : number) (usdcKey : PublicKey) :
  returned (run h (convert owner key payer symbol amount) w) = Ok (mid, usdcKey) ->
  conversion_of owner key symbol
    (mid_prices (trace (run h (convert owner key payer symbol amount) w))) mid usdcKey.
Proof.
  unfold convert, conversion_of.
  destruct (symbol =? "USDC")%string; cbn [negb].
  - cbn. intro H; injection H as <- <-. auto.
  - destruct (live_market_info _) as [info|] eqn:Hinfo; cbn [lift bind];
      [|cbn; discriminate].
    rewrite returned_bind, trace_bind, run_await.
    destruct (h _ (GetMidPrice (mi_address info)) w) as [[[m mid0]|] w1];
      cbn [fst snd returned final trace]; [|discriminate].
    rewrite returned_bind, trace_bind, run_await.
    destruct (h _ (PlaceOrder m _) w1) as [[[]|] w2];
      cbn [fst snd returned final trace]; [|discriminate].
    destruct (findAssociatedTokenAddress (wallet_publicKey owner) (quoteMintAddress m))
      as [k|] eqn:Hk; cbn [lift bind]; [|cbn; discriminate].
    intro Hret.
    match type of Hret with
    | returned (run _ ?p _) = _ =>
        assert (Hq : all_events no_mid_price p) by (unfold settle_all; all_events_tac);
        assert (Hres : results (fun x => x = (mid0, k)) p)
          by (repeat (apply results_bind with (Q1 := fun _ => True);
                      [apply results_any|intros ? _]);
              reflexivity)
    end.
    pose proof (results_run h _ _ Hres _ _ Hret) as Heq. injection Heq as -> ->.
    exists info, m. split; [reflexivity|]. split; [|exact Hk].
    rewrite !mid_prices_app, (no_mid_price_trace _ (all_events_run h _ _ Hq w2)).
    reflexivity.
Qed.

(** The balances the pool balance loop was answered. *)
Definition pool_amounts (answers : list (PublicKey * TokenAmount)) : list number :=
  map (fun kb => amount (snd kb)) answers.

Definition pool_total (answers : list (PublicKey * TokenAmount)) : number :=
  fold_left (fun total a => (total + a)%float) (pool_amounts answers) 0%float.

Lemma run_pool_balance (poolKey : PublicKey) (acc : list number * number)
    (asset : PoolAsset) (w : W) :
  run h (pool_balance poolKey acc asset) w
  = match findAssociatedTokenAddress poolKey (mintAddress asset) with
    | Err e => mkOutcome (Err e) w []
    | Ok k =>
        let answer := h _ (GetTokenAccountBalance k) w in
        mkOutcome
          match fst answer with
          | Ok b => Ok (fst acc ++ [amount b], (snd acc + amount b)%float)
          | Err e => Err e
          end
          (snd answer)
          [mkEntry (GetTokenAccountBalance k) (fst answer)]
    end.
Proof.
  unfold pool_balance. destruct acc as [amounts total].
  destruct (findAssociatedTokenAddress poolKey (mintAddress asset)) as [k|];
    cbn [lift bind]; [|reflexivity].
  cbn [await bind run].
  now destruct (h _ (GetTokenAccountBalance k) w) as [[b|] w1].
Qed.

Lemma run_pool_balance_loop (poolKey : PublicKey) (assets : list PoolAsset) :
  forall (acc acc' : list number * number) (w : W),
  returned (run h (foldP (pool_balance poolKey) assets acc) w) = Ok acc' ->
  map (fun kb => Ok (fst kb))
    (balances (trace (run h (foldP (pool_balance poolKey) assets acc) w)))
  = map (fun a => findAssociatedTokenAddress poolKey (mintAddress a)) assets
  /\ fst acc'
     = fst acc
       ++ pool_amounts (balances (trace (run h (foldP (pool_balance poolKey) assets acc) w)))
  /\ snd acc'
     = fold_left (fun total a => (total + a)%float)
         (pool_amounts
            (balances (trace (run h (foldP (pool_balance poolKey) assets acc) w))))
         (snd acc).
Proof.
  induction assets as [|a assets IH]; intros acc acc' w; cbn [foldP].
  - cbn. intro H; injection H as <-. now rewrite app_nil_r.
  - rewrite returned_bind, trace_bind, balances_app, run_pool_balance. cbn [map].
    destruct (findAssociatedTokenAddress poolKey (mintAddress a)) as [k|];
      [|cbn; discriminate].
    cbn zeta. cbn [returned final trace].
    destruct (h _ (GetTokenAccountBalance k) w) as [[b|] w1]; cbn [fst snd];
      [|discriminate].
    intro Hrest. destruct (IH _ _ _ Hrest) as (Hk & Ha & Ht).
    unfold pool_amounts in *. rewrite map_app, map_app, fold_left_app, Hk, Ha, Ht.
    cbn [fst snd]. rewrite <- app_assoc. repeat split; reflexivity.
Qed.

Lemma run_pool_balances (poolKey : PublicKey) (assets : list PoolAsset) (w : W)
    (amounts : list number) (total : number) :
  returned (run h (pool_balances poolKey assets) w) = Ok (amounts, total) ->
  map (fun kb => Ok (fst kb)) (balances (trace (run h (pool_balances poolKey assets) w)))
  = map (fun a => findAssociatedTokenAddress poolKey (mintAddress a)) assets
  /\ amounts = pool_amounts (balances (trace (run h (pool_balances poolKey assets) w)))
  /\ total = pool_total (balances (trace (run h (pool_balances poolKey assets) w))).
Proof.
  unfold pool_balances, pool_total. intro H.
  destruct (run_pool_balance_loop _ _ _ _ _ H) as (Hk & Ha & Ht).
  repeat split; assumption.
Qed.

(** One turn of the rebalance loop, by what it did for its asset: the USDC
    asset, an asset of zero pool balance (skipped before any request), or an
    asset traded on the market the mid price request answered. *)
Inductive Turn : Type :=
| usdc_turn
| skipped_turn
| traded_turn (marketAddress : PublicKey) (assetMarket : Market) (assetMidPrice : number).

(** The turn of index [i]: its asset is the [i]-th pool asset, and a traded
    turn asked the mid price at the address [MARKETS] gives for the pair of
    that asset. *)
Definition turn_at (assets : list PoolAsset) (amounts : list number) (i : nat)
    (turn : Turn) : Prop :=
  exists asset symbol,
    nth_error assets i = Some asset
    /\ token_name (mintAddress asset) = Ok symbol
    /\ if (symbol =? "USDC")%string then turn = usdc_turn
       else exists info,
           live_market_info (symbol ++ "/USDC")%string = Ok info
           /\ if PrimFloat.eqb (nth i amounts PrimFloat.nan) 0 then turn = skipped_turn
              else exists m assetMid, turn = traded_turn (mi_address info) m assetMid.

(** The mid price a turn was answered. *)
Definition turn_mid (turn : Turn) : option (PublicKey * (Market * number)) :=
  match turn with
  | traded_turn a m assetMid => Some (a, (m, assetMid))
  | _ => None
  end.

(** The ratio a turn hands to [Math.max]. *)
Definition turn_ratio (amounts : list number) (mid amount total : number)
    (it : nat * Turn) : option number :=
  match snd it with
  | usdc_turn => Some (usdc_leg_ratio mid amount total)
  | skipped_turn => None
  | traded_turn _ _ assetMid =>
      Some (traded_leg_ratio mid amount (nth (fst it) amounts PrimFloat.nan) assetMid total)
  end.

(** The order a turn places. *)
Definition turn_order (owner : Wallet) (usdcKey : PublicKey) (amounts : list number)
    (mid amount total : number) (it : nat * Turn) : option (Market * OrderParams) :=
  match snd it with
  | traded_turn _ m assetMid =>
      Some (m, {| op_owner := owner;
                  op_payer := usdcKey;
                  op_side := "buy";
                  op_price := (1.05 * assetMid)%float;
                  op_size := assetAmountToBuy mid amount
                               (nth (fst it) amounts PrimFloat.nan) assetMid total;
                  op_orderType := "ioc" |})
  | _ => None
  end.

Lemma run_rebalance_turn (owner : Wallet) (key : PublicKey) (assets : list PoolAsset)
    (amounts : list number) (mid amount total : number)
    (acc acc' : list (option Market) * number) (i : nat) (w : W) :
  returned (run h (rebalance_asset owner key assets amounts mid amount total acc i) w)
  = Ok acc' ->
  exists turn,
    turn_at assets amounts i turn
    /\ mid_prices
         (trace (run h (rebalance_asset owner key assets amounts mid amount total acc i) w))
       = filter_defined [turn_mid turn]
    /\ placed_orders
         (trace (run h (rebalance_asset owner key assets amounts mid amount total acc i) w))
       = filter_defined [turn_order owner key amounts mid amount total (i, turn)]
    /\ snd acc' = fold_left Math_max
                    (filter_defined [turn_ratio amounts mid amount total (i, turn)])
                    (snd acc).
Proof.
  unfold rebalance_asset, turn_at. destruct acc as [markets pta].
  destruct (nth_error assets i) as [asset|]; cbn [lift bind]; [|cbn; discriminate].
  destruct (token_name (mintAddress asset)) as [symbol|] eqn:Hname; cbn [lift bind];
    [|cbn; discriminate].
  destruct (symbol =? "USDC")%string eqn:Hsym; cbn [negb].
  - cbn [run returned trace]. intro H; injection H as <-.
    exists usdc_turn. split; [|repeat split; reflexivity].
    exists asset, symbol. rewrite Hsym. auto.
  - destruct (live_market_info _) as [info|] eqn:Hinfo; cbn [lift bind];
      [|cbn; discriminate].
    destruct (PrimFloat.eqb (nth i amounts PrimFloat.nan) 0) eqn:Hzero.
    + cbn [run returned trace]. intro H; injection H as <-.
      exists skipped_turn. split; [|repeat split; reflexivity].
      exists asset, symbol. rewrite Hsym. repeat split; trivial.
      exists info. try rewrite Hzero. split; trivial.
    + cbn [await bind run].
      destruct (h _ (GetMidPrice (mi_address info)) w) as [[[m assetMid]|] w1];
        cbn [run returned trace]; [|discriminate].
      match goal with
      | |- context [h _ (PlaceOrder m ?o) w1] =>
          destruct (h _ (PlaceOrder m o) w1) as [[[]|] w2]
      end; cbn [returned trace run]; [|discriminate].
      intro H; injection H as <-.
      exists (traded_turn (mi_address info) m assetMid).
      split; [|repeat split; reflexivity].
      exists asset, symbol. rewrite Hsym. repeat split; trivial.
      exists info. try rewrite Hzero. split; [trivial|].
      exists m, assetMid. reflexivity.
Qed.

Lemma run_rebalance_turns (owner : Wallet) (key : PublicKey) (assets : list PoolAsset)
    (amounts : list number) (mid amount total : number) (idxs : list nat) :
  forall (acc acc' : list (option Market) * number) (w : W),
  returned (run h (foldP (rebalance_asset owner key assets amounts mid amount total)
                     idxs acc) w) = Ok acc' ->
  exists turns,
    Forall2 (turn_at assets amounts) idxs turns
    /\ mid_prices
         (trace (run h (foldP (rebalance_asset owner key assets amounts mid amount total)
                          idxs acc) w))
       = filter_defined (map turn_mid turns)
    /\ placed_orders
         (trace (run h (foldP (rebalance_asset owner key assets amounts mid amount total)
                          idxs acc) w))
       = filter_defined (map (turn_order owner key amounts mid amount total)
                           (combine idxs turns))
    /\ snd acc' = fold_left Math_max
                    (filter_defined (map (turn_ratio amounts mid amount total)
                                       (combine idxs turns)))
                    (snd acc).
Proof.
  induction idxs as [|i idxs IH]; intros acc acc' w; cbn [foldP].
  - cbn. intro H; injection H as <-. exists []. repeat split. constructor.
  - rewrite returned_bind, trace_bind.
    destruct (returned (run h (rebalance_asset owner key assets amounts mid amount total
                                 acc i) w)) as [acc1|] eqn:H1; [|discriminate].
    intro Hrest.
    destruct (run_rebalance_turn _ _ _ _ _ _ _ _ _ _ _ H1) as (turn & Hat & Hm & Ho & Ha).
    destruct (IH _ _ _ Hrest) as (turns & Hturns & Hms & Hos & Has).
    exists (turn :: turns). split; [now constructor|].
    rewrite mid_prices_app, placed_orders_app, Hm, Ho, Hms, Hos, Has, Ha.
    cbn [map combine]. split; [|split].
    + now destruct (turn_mid turn).
    + now destruct (turn_order owner key amounts mid amount total (i, turn)).
    + now destruct (turn_ratio amounts mid amount total (i, turn)).
Qed.

Ltac no_deposit_part Hin Hdep lemma :=
  rewrite trace_bind in Hin |- *; rewrite flat_map_app in Hin;
  apply in_app_or in Hin as [Hin|Hin];
  [ exfalso;
    pose proof (sent_no_deposit _ (all_events_run h _ _ lemma _) _ Hin);
    congruence
  | ].

(** C2 (as amended): the pool-token amount of the deposit instruction sent
    by [singleTokenDeposit] is 1000000 times the [Math.max], starting from 0,
    of the ratios of the turns of the rebalance loop (one for the USDC asset,
    one for each other asset with a nonzero pool balance): the ratios are
    combined by a maximum, not by a sum and not by a minimum. Every quantity
    in the ratios is what the run was answered: the amount is the source
    account's [decimals] times the requested amount, the pool balances and
    their total are the answers to the balance requests for the pool's
    associated addresses (the only balances asked after the source's),
    [midPriceUSDC] is the mid price the conversion step asked (1 for a USDC
    source), and the mid prices of the traded turns are, in order, the
    remaining mid prices the run asked. *)
Theorem deposit_claim_is_max (owner : Wallet) (key : PublicKey) (user_amount : number)
    (poolSeed : Buffer) (payer : Account) (w : W) (ix : TransactionInstruction) :
  In ix (flat_map sent_instructions
           (trace (run h (singleTokenDeposit owner key user_amount poolSeed payer) w))) ->
  is_deposit ix = true ->
  exists r balance answers conv mid usdcKey turns,
    returned (run h (resolve key user_amount poolSeed) w) = Ok r
    /\ r_amount r = (decimals balance * user_amount)%float
    /\ balances (trace (run h (singleTokenDeposit owner key user_amount poolSeed payer) w))
       = (key, balance) :: answers
    /\ map (fun kb => Ok (fst kb)) answers
       = map (fun a => findAssociatedTokenAddress (r_poolKey r) (mintAddress a))
           (r_poolAssets r)
    /\ mid_prices (trace (run h (singleTokenDeposit owner key user_amount poolSeed payer) w))
       = conv ++ filter_defined (map turn_mid turns)
    /\ conversion_of owner key (r_tokenSymbol r) conv mid usdcKey
    /\ Forall2 (turn_at (r_poolAssets r) (pool_amounts answers))
         (seq 0 (length (r_poolAssets r))) turns
    /\ deposit_amount ix
       = Some (1000000
               * fold_left Math_max
                   (filter_defined
                      (map (turn_ratio (pool_amounts answers) mid (r_amount r)
                              (pool_total answers))
                         (combine (seq 0 (length (r_poolAssets r))) turns)))
                   0)%float.
Proof.
  intros Hin Hdep. unfold singleTokenDeposit in Hin |- *.
  no_deposit_part Hin Hdep (resolve_no_deposit key user_amount poolSeed).
  destruct (returned (run h (resolve key user_amount poolSeed) w)) as [r|] eqn:Hr;
    [|destruct Hin].
  set (w1 := final (run h (resolve key user_amount poolSeed) w)) in *.
  no_deposit_part Hin Hdep
    (convert_no_deposit owner key payer (r_tokenSymbol r) (r_amount r)).
  destruct (returned (run h (convert _ _ _ _ _) w1)) as [[mid usdcKey]|] eqn:Hc;
    [|destruct Hin].
  set (w2 := final (run h (convert _ _ _ _ _) w1)) in *.
  no_deposit_part Hin Hdep (verify_no_deposit key (r_tokenInitialBalance r) (r_amount r)).
  destruct (returned (run h (verify _ _ _) w2)) as [[]|]; [|destruct Hin].
  set (w3 := final (run h (verify _ _ _) w2)) in *.
  no_deposit_part Hin Hdep (provision_no_deposit owner payer (r_poolKey r) (r_poolAssets r)).
  destruct (returned (run h (provision _ _ _ _) w3)) as [[sk pk]|]; [|destruct Hin].
  set (w4 := final (run h (provision _ _ _ _) w3)) in *.
  no_deposit_part Hin Hdep (pool_balances_no_deposit (r_poolKey r) (r_poolAssets r)).
  destruct (returned (run h (pool_balances _ _) w4)) as [[amounts total]|] eqn:Hb;
    [|destruct Hin].
  set (w5 := final (run h (pool_balances _ _) w4)) in *.
  no_deposit_part Hin Hdep
    (rebalance_no_deposit owner usdcKey (r_poolAssets r) amounts mid (r_amount r) total).
  destruct (returned (run h (rebalance _ _ _ _ _ _ _) w5)) as [[markets pta]|] eqn:Hreb;
    [|destruct Hin].
  set (w6 := final (run h (rebalance _ _ _ _ _ _ _) w5)) in *.
  assert (Hsleep : all_events no_deposit (await (Sleep (3 * 1000))))
    by now apply all_events_await.
  no_deposit_part Hin Hdep Hsleep.
  destruct (returned (run h (await (Sleep _)) w6)) as [[]|]; [|destruct Hin].
  set (w7 := final (run h (await (Sleep _)) w6)) in *.
  no_deposit_part Hin Hdep (settle_no_deposit owner usdcKey (r_poolAssets r) markets sk).
  destruct (returned (run h (settle _ _ _ _ _) w7)) as [[]|]; [|destruct Hin].
  set (w8 := final (run h (settle _ _ _ _ _) w7)) in *.
  destruct (run_resolve_balance _ _ _ _ _ Hr) as (balance & Hb1 & Hamount).
  pose proof (no_mid_price_trace _
                (all_events_run h _ _ (resolve_no_mid_price key user_amount poolSeed) w))
    as Hm1.
  pose proof (no_balance_trace _
                (all_events_run h _ _
                   (convert_no_balance owner key payer (r_tokenSymbol r) (r_amount r)) w1))
    as Hb2.
  pose proof (run_convert_mid _ _ _ _ _ _ _ _ Hc) as Hconv.
  destruct (silent_trace _
              (all_events_run h _ _
                 (verify_silent key (r_tokenInitialBalance r) (r_amount r)) w2))
    as [Hb3 Hm3].
  destruct (silent_trace _
              (all_events_run h _ _
                 (provision_silent owner payer (r_poolKey r) (r_poolAssets r)) w3))
    as [Hb4 Hm4].
  destruct (run_pool_balances _ _ _ _ _ Hb) as (Hkeys & Hamounts & Htotal).
  pose proof (no_mid_price_trace _
                (all_events_run h _ _
                   (pool_balances_no_mid_price (r_poolKey r) (r_poolAssets r)) w4))
    as Hm5.
  pose proof (no_balance_trace _
                (all_events_run h _ _
                   (rebalance_no_balance owner usdcKey (r_poolAssets r) amounts mid
                      (r_amount r) total) w5))
    as Hb6.
  pose proof Hreb as Hturns. unfold rebalance in Hturns.
  apply run_rebalance_turns in Hturns as (turns & Hat & Hm6 & _ & Hpta).
  fold (rebalance owner usdcKey (r_poolAssets r) amounts mid (r_amount r) total) in Hm6.
  destruct (silent_trace _ (all_events_run h _ _ (sleep_silent (3 * 1000)) w6))
    as [Hb7 Hm7].
  destruct (silent_trace _
              (all_events_run h _ _
                 (settle_silent owner usdcKey (r_poolAssets r) markets sk) w7))
    as [Hb8 Hm8].
  destruct (silent_trace _
              (all_events_run h _ _
                 (deposit_silent owner payer poolSeed (r_poolKey r) (r_poolMintKey r)
                    (r_poolHeader r) pk sk pta) w8))
    as [Hb9 Hm9].
  exists r, balance,
    (balances (trace (run h (pool_balances (r_poolKey r) (r_poolAssets r)) w4))),
    (mid_prices (trace (run h (convert owner key payer (r_tokenSymbol r) (r_amount r)) w1))),
    mid, usdcKey, turns.
  split; [reflexivity|]. split; [exact Hamount|]. split.
  { rewrite !balances_app, Hb1, Hb2, Hb3, Hb4, Hb6, Hb7, Hb8, Hb9.
    cbn [app]. now rewrite !app_nil_r. }
  split; [exact Hkeys|]. split.
  { rewrite !mid_prices_app, Hm1, Hm3, Hm4, Hm5, Hm6, Hm7, Hm8, Hm9.
    cbn [app]. now rewrite !app_nil_r. }
  split; [exact Hconv|]. rewrite <- Hamounts, <- Htotal. split; [exact Hat|].
  cbn [snd] in Hpta. rewrite <- Hpta.
  exact (sent_deposit_claim pta _
           (all_events_run h _ _
              (deposit_sends_claim owner payer poolSeed (r_poolKey r) (r_poolMintKey r)
                 (r_poolHeader r) pk sk pta) w8) ix Hin Hdep).
Qed.

End Deposit.

(** * The properties on the concrete chain *)

Module Scenarios.
Import Fixture.

(** ** The order decoder *)

(** An order whose side byte is 2, past the table of two sides. *)
Definition side_past_table : Buffer := order_bytes Byte.x03 Byte.x02 Byte.x00 Byte.x00 0.

(** An order whose market index is 5, past the pool's two markets. *)
Definition market_past_list : Buffer := order_bytes Byte.x03 Byte.x00 Byte.x00 Byte.x00 5.

(** C3, as stated, fails: a side byte outside the table's range is not a
    decoding error; the decoder returns an order whose side is undefined. *)
Lemma parse_side_past_table_returns :
  nth_error side_past_table 33 = Some Byte.x02
  /\ exists order,
       parseCreateOrderInstruction side_past_table info_one sig_one = Ok order
       /\ side order = None
       /\ orderType order = Some Limit.
Proof.
  split; [reflexivity|]. eexists. split; [vm_compute; reflexivity|].
  split; reflexivity.
Qed.

Lemma parse_enum_bytes_witness :
  exists order,
    parseCreateOrderInstruction side_past_table info_one sig_one = Ok order
    /\ side order = index_by_byte [Bid; Ask] (nth_error side_past_table 33)
    /\ side order = None.
Proof.
  pose (order := match parseCreateOrderInstruction side_past_table info_one sig_one with
                 | Ok o => Some o
                 | Err _ => None
                 end).
  vm_compute in order.
  match eval cbv delta [order] in order with
  | Some ?o => exists o
  end.
  assert (H : parseCreateOrderInstruction side_past_table info_one sig_one = Ok _)
    by (vm_compute; reflexivity).
  split; [exact H|].
  destruct (proj2 (parse_enum_bytes side_past_table info_one sig_one) _ H)
    as (Hside & _ & _ & Hpast & _).
  split; [exact Hside|].
  apply (Hpast Byte.x02); [reflexivity|vm_compute; lia].
Defined.

Lemma parse_market_by_index_witness :
  length (authorizedMarkets info_one) <= 5
  /\ exists order,
       parseCreateOrderInstruction market_past_list info_one sig_one = Ok order
       /\ market order = None.
Proof.
  split; [vm_compute; lia|].
  destruct (parse_market_by_index market_past_list info_one sig_one 2500 100 42 5)
    as (order & Hparse & _ & Hnone); try (vm_compute; reflexivity).
  exists order. split; [exact Hparse|]. apply Hnone. vm_compute; lia.
Defined.

(** ** The pool state reader *)

Lemma fetchPoolInfo_unavailable_witness :
  fst (handler _ (GetAccountInfo (pool_key seed_none)) chain) = Ok None
  /\ returned (run handler (fetchPoolInfo seed_none) chain) = Err PoolUnavailable.
Proof.
  split; [reflexivity|].
  destruct (@fetchPoolInfo_unavailable types imports World handler chain seed_none
              (pool_key seed_none)) as [_ Hthrown];
    [vm_compute; reflexivity|vm_compute; reflexivity|].
  apply (Hthrown
           (mkPublicKey (firstn 32 (rev (seed_none ++ array_one) ++ key_bytes program_id)))).
  vm_compute; reflexivity.
Defined.

(** The scenario of a header with 2 markets, fee ratio 50 and period 86400,
    followed by 2 market addresses and 1 asset record of mint SRM. *)
Example fetchPoolInfo_pool_one :
  returned (run handler (fetchPoolInfo seed_one) chain) = Ok info_one.
Proof. vm_compute. reflexivity. Qed.

Lemma fetchPoolInfo_preserves_order_witness :
  exists info,
    returned (run handler (fetchPoolInfo seed_one) chain) = Ok info
    /\ length (authorizedMarkets info) = 2
    /\ length (assetMintkeys info) = 1
    /\ nth_error (authorizedMarkets info) 1
       = Some (mkPublicKey (slice (117 + 1 * 32) (117 + 1 * 32 + 32) pool_one))
    /\ exists asset,
         PoolAsset_fromBuffer (slice (181 + 0 * 40) (181 + 0 * 40 + 40) pool_one) = Ok asset
         /\ nth_error (assetMintkeys info) 0 = Some (mintAddress asset).
Proof.
  destruct (@fetchPoolInfo_preserves_order types asset_layout base_imports World handler
              chain seed_one (pool_key seed_one)
              (mkPublicKey (firstn 32 (rev (seed_one ++ array_one) ++ key_bytes program_id)))
              {| data := pool_one |} header_one 1)
    as (info & Hret & Hm & Ha & Hmk & Hak).
  - vm_compute; reflexivity.
  - vm_compute; reflexivity.
  - vm_compute; reflexivity.
  - vm_compute; reflexivity.
  - vm_compute; lia.
  - vm_compute; reflexivity.
  - intros i Hi. assert (i = 0) as -> by lia. vm_compute; reflexivity.
  - exists info. split; [exact Hret|]. split; [exact Hm|]. split; [exact Ha|].
    split; [apply (Hmk 1); vm_compute; lia|]. apply (Hak 0). lia.
Defined.

Lemma getPoolsSeedsBySigProvider_listed_witness :
  returned (run handler (getPoolsSeedsBySigProvider (Some (key Byte.x07))) chain)
  = Ok [seed_one; seed_two]
  /\ returned (run handler (getPoolsSeedsBySigProvider None) chain)
     = Ok [seed_one; seed_none; seed_two].
Proof.
  split.
  - rewrite (proj1 (getPoolsSeedsBySigProvider_listed World handler chain
                      (Some (key Byte.x07))
                      {| resp_error := None; resp_result := w_program_accounts chain |}
                      eq_refl eq_refl)).
    vm_compute; reflexivity.
  - rewrite (proj1 (getPoolsSeedsBySigProvider_listed World handler chain None
                      {| resp_error := None; resp_result := w_program_accounts chain |}
                      eq_refl eq_refl)).
    vm_compute; reflexivity.
Defined.

(** ** The order history *)

Lemma getPoolOrderInfos_only_create_orders_witness :
  exists out,
    returned (run handler (getPoolOrderInfos seed_one 10) chain) = Ok out
    /\ length out = 2
    /\ forall o, In o out ->
       exists info sig t i,
         returned (run handler (fetchPoolInfo seed_one) chain) = Ok info
         /\ In (signature sig, t)
              (fetched_transactions (trace (run handler (getPoolOrderInfos seed_one 10) chain)))
         /\ In i (instructions t)
         /\ programId i = BONFIDABOT_PROGRAM_ID
         /\ nth_error (ix_data i) 0 = Some Byte.x03
         /\ parseCreateOrderInstruction (ix_data i) info sig = Ok o.
Proof.
  exists (match returned (run handler (getPoolOrderInfos seed_one 10) chain) with
          | Ok out => out
          | Err _ => []
          end).
  assert (H : returned (run handler (getPoolOrderInfos seed_one 10) chain)
              = Ok (match returned (run handler (getPoolOrderInfos seed_one 10) chain) with
                    | Ok out => out
                    | Err _ => []
                    end)) by (vm_compute; reflexivity).
  split; [exact H|]. split; [vm_compute; reflexivity|].
  exact (proj2 (getPoolOrderInfos_only_create_orders World handler chain seed_one 10 _ H)).
Defined.

Lemma getPoolOrderInfos_at_most_n_witness :
  (0 <= 1)%Z
  /\ qualifying_among
       (requested_transactions (trace (run handler (getPoolOrderInfos seed_one 1) chain)))
     = 2
  /\ exists out info sigs,
       returned (run handler (getPoolOrderInfos seed_one 1) chain) = Ok out
       /\ returned (run handler (fetchPoolInfo seed_one) chain) = Ok info
       /\ listed_signatures (trace (run handler (getPoolOrderInfos seed_one 1) chain))
          = [(address info, sigs)]
       /\ map fst (requested_transactions
                     (trace (run handler (getPoolOrderInfos seed_one 1) chain)))
          = map (fun sig => signature sig) sigs
       /\ (Z.of_nat (length out) <= 1)%Z.
Proof.
  split; [lia|]. split; [vm_compute; reflexivity|].
  pose (res := returned (run handler (getPoolOrderInfos seed_one 1) chain)).
  assert (Hres : exists out, res = Ok out) by (vm_compute; eexists; reflexivity).
  destruct Hres as (out & Hres).
  destruct (getPoolOrderInfos_at_most_n World handler chain seed_one 1 out ltac:(lia) Hres)
    as (info & sigs & Hinfo & Hlisted & Hasked & Hle & _).
  exists out, info, sigs. split; [exact Hres|]. split; [exact Hinfo|].
  split; [exact Hlisted|]. split; [exact Hasked|exact Hle].
Defined.

(** The bound needs a non-negative [n]: [slice(0, -1)] drops the last order
    and returns the one before it. *)
Example getPoolOrderInfos_negative_n :
  option_map (@length _)
    (match returned (run handler (getPoolOrderInfos seed_one (-1)) chain) with
     | Ok out => Some out
     | Err _ => None
     end) = Some 1.
Proof. vm_compute. reflexivity. Qed.

(** ** The deposit workflow *)

(** A holder of 1000 SRM (decimals read as 1) whose balance is 400 after the
    conversion order and its settlement. *)
Definition sold_600 : World := world SRM_mint 1000 400 1%float.

(** C1: the conversion check at the scenario of the specification. With a
    balance of 1000 before and 400 after, a requested amount of 500 (the
    balance fell by 600, at least the amount) makes the workflow throw
    'Conversion to USDC Order was not matched.', and a requested amount of
    700 (the balance fell by less than the amount) passes the check and the
    workflow runs to its end: the comparison is the reverse of the
    documented one. *)
Theorem conversion_check_at_scenario :
  returned (run handler (singleTokenDeposit owner source_token_key 500%float seed_two payer)
              sold_600)
  = Err ConversionNotMatched
  /\ returned (run handler (singleTokenDeposit owner source_token_key 700%float seed_two payer)
                 sold_600)
     = Ok tt
  /\ (conversion_rejected 1000 400 500)%float = true
  /\ (conversion_rejected 1000 400 700)%float = false.
Proof. repeat split; vm_compute; reflexivity. Qed.

(** The check also lets through an order that did not fill at all. *)
Example conversion_check_unfilled :
  returned (run handler (singleTokenDeposit owner source_token_key 500%float seed_two payer)
              (world SRM_mint 1000 1000 1%float))
  = Ok tt
  /\ (conversion_rejected 1000 1000 500)%float = false.
Proof. split; vm_compute; reflexivity. Qed.

(** A holder of 5000 SRM with 6 decimals, asking to deposit 500. *)
Definition six_decimals : World := world SRM_mint 5000 2000 6%float.

(** C4: the conversion order at a scenario. The source account holds SRM and
    its balance request answers 6 decimals; the caller asks to invest 500
    source tokens ([user_amount], "the amount of source tokens to invest
    into pool"); the mid price of SRM/USDC is 2. The first order the
    workflow places is the immediate-or-cancel sell of the source owner,
    paid from the source token account, at 0.95 times the mid price; its
    size is 3000, the decimals count times the requested amount, not the
    500 source tokens requested. *)
Theorem conversion_order_at_scenario :
  w_decimals six_decimals = 6%float
  /\ firstn 1
       (placed_orders
          (trace (run handler (singleTokenDeposit owner source_token_key 500%float seed_two payer)
                    six_decimals)))
     = [({| market_address := SRM_USDC; quoteMintAddress := USDC_mint |},
         {| op_owner := owner;
            op_payer := source_token_key;
            op_side := "sell";
            op_price := (0.95 * 2)%float;
            op_size := 3000%float;
            op_orderType := "ioc" |})]
  /\ (6 * 500)%float = 3000%float
  /\ (PrimFloat.eqb 3000 500)%float = false.
Proof. repeat split; vm_compute; reflexivity. Qed.

(** A holder of USDC asking to deposit 1024 into the pool of two assets,
    each with a pool balance of 128, at mid prices 2 (SRM) and 4 (FIDA). *)
Definition usdc_holder : World := world USDC_mint 5000 5000 1%float.

(** C2, as stated, fails: the two legs buy 256 SRM and 128 FIDA, that is 2
    and 1 pool tokens per unit of pool balance; the deposit claims
    1000000 * 2, more than the 1000000 * 1 that the FIDA leg supports. *)
Lemma deposit_claim_exceeds_least_leg :
  map (fun mo => (op_side (snd mo), op_size (snd mo)))
    (placed_orders
       (trace (run handler (singleTokenDeposit owner source_token_key 1024%float seed_two payer)
                 usdc_holder)))
  = [("buy"%string, 256%float); ("buy"%string, 128%float)]
  /\ (traded_leg_ratio 1 1024 128 2 256)%float = 2%float
  /\ (traded_leg_ratio 1 1024 128 4 256)%float = 1%float
  /\ map deposit_amount
       (filter is_deposit
          (flat_map sent_instructions
             (trace (run handler
                       (singleTokenDeposit owner source_token_key 1024%float seed_two payer)
                       usdc_holder))))
     = [Some (1000000 * 2)%float]
  /\ (PrimFloat.ltb (1000000 * 1) (1000000 * 2))%float = true.
Proof. repeat split; vm_compute; reflexivity. Qed.

Lemma deposit_claim_is_max_witness :
  exists ix r balance answers conv mid usdcKey turns,
    In ix (flat_map sent_instructions
             (trace (run handler
                       (singleTokenDeposit owner source_token_key 1024%float seed_two payer)
                       usdc_holder)))
    /\ is_deposit ix = true
    /\ balances
         (trace (run handler
                   (singleTokenDeposit owner source_token_key 1024%float seed_two payer)
                   usdc_holder))
       = (source_token_key, balance) :: answers
    /\ mid_prices
         (trace (run handler
                   (singleTokenDeposit owner source_token_key 1024%float seed_two payer)
                   usdc_holder))
       = conv ++ filter_defined (map turn_mid turns)
    /\ conversion_of owner source_token_key (r_tokenSymbol r) conv mid usdcKey
    /\ deposit_amount ix
       = Some (1000000
               * fold_left Math_max
                   (filter_defined
                      (map (turn_ratio (pool_amounts answers) mid (r_amount r)
                              (pool_total answers))
                         (combine (seq 0 (length (r_poolAssets r))) turns)))
                   0)%float.
Proof.
  pose (sent := flat_map sent_instructions
                  (trace (run handler
                            (singleTokenDeposit owner source_token_key 1024%float seed_two payer)
                            usdc_holder))).
  assert (Hlast : exists ix, nth_error sent 2 = Some ix /\ is_deposit ix = true).
  { vm_compute. eexists. split; reflexivity. }
  destruct Hlast as (ix & Hnth & Hdep).
  destruct (deposit_claim_is_max World handler owner source_token_key 1024%float seed_two payer
              usdc_holder ix (nth_error_In _ _ Hnth) Hdep)
    as (r & balance & answers & conv & mid & usdcKey & turns
        & _ & _ & Hbalances & _ & Hmids & Hconv & _ & Hamount).
  exists ix, r, balance, answers, conv, mid, usdcKey, turns.
  split; [exact (nth_error_In _ _ Hnth)|]. split; [exact Hdep|].
  split; [exact Hbalances|]. split; [exact Hmids|]. split; [exact Hconv|exact Hamount].
Defined.

End Scenarios.

(** * The settlement and balance bindings

    [settlePool], [fetchPoolBalances] and [getPoolTokenMintFromSeed] await
    three requests besides those of [Event]: [Market.load], the connection's
    [getTokenSupply] and [settleFunds] of ./main. *)

(** What these bindings import besides [Imports]: [SERUM_PROGRAM_ID] of
    ./main and the base-58 rendering of a key (web3.js). *)
Class SettleImports : Type := {
  SERUM_PROGRAM_ID : PublicKey;
  toBase58 : PublicKey -> string
}.

(** [PoolAssetBalance] of ./types, by the fields [fetchPoolBalances] fills. *)
Record PoolAssetBalance : Type := {
  tokenAmount : TokenAmount;
  mint : string
}.

Inductive Request : Type -> Type :=
| OnChain (X : Type) (ev : Event X) : Request X
| MarketLoad (marketAddress programId : PublicKey) : Request Market
| GetTokenSupply (mintKey : PublicKey) : Request TokenAmount
| SettleFundsInstructions (poolSeed : Buffer) (market openOrders : PublicKey)
    : Request (list TransactionInstruction).
Arguments OnChain {X} ev.

(** An [async] function body over these requests. *)
Inductive Async (A : Type) : Type :=
| Return (a : A)
| Throw (e : exn)
| Call (X : Type) (r : Request X) (k : X -> Async A).
Arguments Return {A} a.
Arguments Throw {A} e.
Arguments Call {A X} r k.

Fixpoint and_then {A B} (p : Async A) (f : A -> Async B) : Async B :=
  match p with
  | Return a => f a
  | Throw e => Throw e
  | Call r k => Call r (fun x => and_then (k x) f)
  end.

Definition call {X} (r : Request X) : Async X := Call r Return.

Definition settled {A} (r : result A) : Async A :=
  match r with
  | Ok a => Return a
  | Err e => Throw e
  end.

Declare Scope async_scope.
Delimit Scope async_scope with async.
Notation "x <- p ;; q" := (and_then p (fun x => q))
  (at level 61, p at next level, right associativity) : async_scope.

(** [for (let a of l) { s = await body(s, a) }]. *)
Fixpoint for_of {S A} (body : S -> A -> Async S) (l : list A) (s : S) : Async S :=
  match l with
  | [] => Return s
  | a :: l' => and_then (body s a) (for_of body l')
  end.

(** The environment of these bindings, and a run against it. *)
Definition Venue (W : Type) : Type := forall X, Request X -> W -> result X * W.

Record Answered : Type := mkAnswered {
  a_type : Type;
  a_request : Request a_type;
  a_answer : result a_type
}.

Record Ending (W A : Type) : Type := mkEnding {
  ended : result A;
  after : W;
  asked : list Answered
}.
Arguments mkEnding {W A} ended after asked.
Arguments ended {W A} e.
Arguments after {W A} e.
Arguments asked {W A} e.

Fixpoint exec {W A} (v : Venue W) (p : Async A) (w : W) : Ending W A :=
  match p with
  | Return a => mkEnding (Ok a) w []
  | Throw e => mkEnding (Err e) w []
  | Call r k =>
      let (x, w') := v _ r w in
      match x with
      | Ok x' =>
          let o := exec v (k x') w' in
          mkEnding (ended o) (after o) (mkAnswered _ r x :: asked o)
      | Err e => mkEnding (Err e) w' [mkAnswered _ r x]
      end
  end.

(** The part of a venue that answers the requests of [Event]. *)
Definition chain_of {W} (v : Venue W) : Handler W := fun X ev => v X (OnChain ev).

Section SettleBindings.
Context `{Imp : Imports}.
Context {SI : SettleImports}.

(** *** settlePool *)

(** The inner loop: one instruction per open orders account. *)
Definition settle_open_orders (poolSeed : Buffer) (authorizedMarket : PublicKey)
    (instructions : list (option TransactionInstruction)) (openOrder : OpenOrders)
  : Async (list (option TransactionInstruction)) :=
  (ixs <- call (SettleFundsInstructions poolSeed authorizedMarket (oo_address openOrder)) ;;
   Return (instructions ++ [nth_error ixs 0]))%async.

(** The outer loop: one market at a time. *)
Definition settle_market (poolSeed : Buffer) (poolKey : PublicKey)
    (instructions : list (option TransactionInstruction)) (authorizedMarket : PublicKey)
  : Async (list (option TransactionInstruction)) :=
  (market <- call (MarketLoad authorizedMarket SERUM_PROGRAM_ID) ;;
   openOrdersAccounts <- call (OnChain (FindOpenOrdersAccountsForOwner market poolKey)) ;;
   for_of (settle_open_orders poolSeed authorizedMarket) openOrdersAccounts instructions)%async.

(** An entry is [undefined] when [settleFunds] returned no instruction. *)
Definition settlePool (poolSeed : Buffer) : Async (list (option TransactionInstruction)) :=
  (poolKey <- settled (createProgramAddress [poolSeed] BONFIDABOT_PROGRAM_ID) ;;
   poolData <- call (OnChain (GetAccountInfo poolKey)) ;;
   match poolData with
   | None => Throw PoolUnavailable
   | Some poolData =>
       poolHeader <- settled (PoolHeader_fromBuffer
                                (slice 0 PoolHeader_LEN (data poolData))) ;;
       authorizedMarkets <- settled (unpack_markets
         (slice PoolHeader_LEN
            (PoolHeader_LEN + N.to_nat (numberOfMarkets poolHeader) * PUBKEY_LENGTH)
            (data poolData))
         (numberOfMarkets poolHeader)) ;;
       for_of (settle_market poolSeed poolKey) authorizedMarkets []
   end)%async.

(** *** fetchPoolBalances *)

Definition asset_balance (poolKey : PublicKey) (assetBalances : list PoolAssetBalance)
    (asset : PoolAsset) : Async (list PoolAssetBalance) :=
  (assetKey <- settled (findAssociatedTokenAddress poolKey (mintAddress asset)) ;;
   balance <- call (OnChain (GetTokenAccountBalance assetKey)) ;;
   Return (assetBalances ++ [ {| tokenAmount := balance;
                                 mint := toBase58 (mintAddress asset) |} ]))%async.

Definition fetchPoolBalances (poolSeed : Buffer)
  : Async (TokenAmount * list PoolAssetBalance) :=
  (poolKey <- settled (createProgramAddress [poolSeed] BONFIDABOT_PROGRAM_ID) ;;
   poolMintKey <- settled (createProgramAddress [poolSeed; array_one]
                             BONFIDABOT_PROGRAM_ID) ;;
   poolData <- call (OnChain (GetAccountInfo poolKey)) ;;
   match poolData with
   | None => Throw PoolUnavailable
   | Some poolData =>
       poolHeader <- settled (PoolHeader_fromBuffer
                                (slice 0 PoolHeader_LEN (data poolData))) ;;
       poolAssets <- settled (unpack_assets
         (slice_from (PoolHeader_LEN
                      + N.to_nat (numberOfMarkets poolHeader) * PUBKEY_LENGTH)
            (data poolData))) ;;
       assetBalances <- for_of (asset_balance poolKey) poolAssets [] ;;
       poolTokenSupply <- call (GetTokenSupply poolMintKey) ;;
       Return (poolTokenSupply, assetBalances)
   end)%async.

(** *** getPoolTokenMintFromSeed *)

Definition getPoolTokenMintFromSeed (poolSeed : Buffer) : Prog PublicKey :=
  lift (createProgramAddress [poolSeed; array_one] BONFIDABOT_PROGRAM_ID).

End SettleBindings.

(** ** Runs of the settlement and balance bindings *)

Section Execs.
Variable W : Type.
Variable v : Venue W.

Lemma exec_and_then {A B} (p : Async A) (f : A -> Async B) (w : W) :
  exec v (and_then p f) w =
  match ended (exec v p w) with
  | Ok a =>
      let o := exec v (f a) (after (exec v p w)) in
      mkEnding (ended o) (after o) (asked (exec v p w) ++ asked o)
  | Err e => mkEnding (Err e) (after (exec v p w)) (asked (exec v p w))
  end.
Proof.
  revert w; induction p as [a|e|X r k IH]; intro w; simpl.
  - now destruct (exec v (f a) w).
  - reflexivity.
  - destruct (v _ r w) as [[x|e] w']; simpl; [|reflexivity].
    rewrite IH. now destruct (ended (exec v (k x) w')).
Qed.

Lemma exec_settled {A} (r : result A) (w : W) :
  exec v (settled r) w = mkEnding r w [].
Proof. now destruct r. Qed.

Lemma exec_call {X} (r : Request X) (w : W) :
  exec v (call r) w
  = mkEnding (fst (v _ r w)) (snd (v _ r w)) [mkAnswered _ r (fst (v _ r w))].
Proof. unfold call; simpl. now destruct (v _ r w) as [[x|e] w']. Qed.

Lemma ended_and_then {A B} (p : Async A) (f : A -> Async B) (w : W) :
  ended (exec v (and_then p f) w)
  = match ended (exec v p w) with
    | Ok a => ended (exec v (f a) (after (exec v p w)))
    | Err e => Err e
    end.
Proof. rewrite exec_and_then. now destruct (ended (exec v p w)). Qed.

Lemma asked_and_then {A B} (p : Async A) (f : A -> Async B) (w : W) :
  asked (exec v (and_then p f) w)
  = asked (exec v p w)
    ++ match ended (exec v p w) with
       | Ok a => asked (exec v (f a) (after (exec v p w)))
       | Err _ => []
       end.
Proof.
  rewrite exec_and_then. destruct (ended (exec v p w)); cbn; [reflexivity|].
  now rewrite app_nil_r.
Qed.

Lemma after_and_then {A B} (p : Async A) (f : A -> Async B) (w : W) :
  after (exec v (and_then p f) w)
  = match ended (exec v p w) with
    | Ok a => after (exec v (f a) (after (exec v p w)))
    | Err _ => after (exec v p w)
    end.
Proof. rewrite exec_and_then. now destruct (ended (exec v p w)). Qed.

End Execs.

(** The markets loaded in a run, each with the address and program asked. *)
Definition loaded_market (a : Answered) : option (PublicKey * PublicKey * Market) :=
  match a with
  | mkAnswered _ r ans =>
      match r in Request X return result X -> option (PublicKey * PublicKey * Market) with
      | MarketLoad address program =>
          fun x => match x with Ok m => Some (address, program, m) | Err _ => None end
      | _ => fun _ => None
      end ans
  end.

Definition loaded_markets (l : list Answered) : list (PublicKey * PublicKey * Market) :=
  filter_defined (map loaded_market l).

(** The open orders accounts found in a run, each with the market and owner
    asked. *)
Definition found_open_orders (a : Answered)
  : option (Market * PublicKey * list OpenOrders) :=
  match a with
  | mkAnswered _ r ans =>
      match r in Request X
            return result X -> option (Market * PublicKey * list OpenOrders) with
      | OnChain ev =>
          match ev in Event X
                return result X -> option (Market * PublicKey * list OpenOrders) with
          | FindOpenOrdersAccountsForOwner m owner =>
              fun x => match x with Ok oos => Some (m, owner, oos) | Err _ => None end
          | _ => fun _ => None
          end
      | _ => fun _ => None
      end ans
  end.

Definition all_found_open_orders (l : list Answered)
  : list (Market * PublicKey * list OpenOrders) :=
  filter_defined (map found_open_orders l).

(** The answers of [settleFunds] in a run, each with the arguments given. *)
Definition settle_answer (a : Answered)
  : option (Buffer * PublicKey * PublicKey * list TransactionInstruction) :=
  match a with
  | mkAnswered _ r ans =>
      match r in Request X
            return result X
                   -> option (Buffer * PublicKey * PublicKey * list TransactionInstruction)
      with
      | SettleFundsInstructions poolSeed market openOrders =>
          fun x => match x with
                   | Ok ixs => Some (poolSeed, market, openOrders, ixs)
                   | Err _ => None
                   end
      | _ => fun _ => None
      end ans
  end.

Definition settle_answers (l : list Answered)
  : list (Buffer * PublicKey * PublicKey * list TransactionInstruction) :=
  filter_defined (map settle_answer l).

(** The token balances and supplies answered in a run. *)
Definition balance_answered (a : Answered) : option (PublicKey * TokenAmount) :=
  match a with
  | mkAnswered _ r ans =>
      match r in Request X return result X -> option (PublicKey * TokenAmount) with
      | OnChain ev =>
          match ev in Event X return result X -> option (PublicKey * TokenAmount) with
          | GetTokenAccountBalance k =>
              fun x => match x with Ok b => Some (k, b) | Err _ => None end
          | _ => fun _ => None
          end
      | _ => fun _ => None
      end ans
  end.

Definition balances_answered (l : list Answered) : list (PublicKey * TokenAmount) :=
  filter_defined (map balance_answered l).

Definition supply_answered (a : Answered) : option (PublicKey * TokenAmount) :=
  match a with
  | mkAnswered _ r ans =>
      match r in Request X return result X -> option (PublicKey * TokenAmount) with
      | GetTokenSupply k => fun x => match x with Ok b => Some (k, b) | Err _ => None end
      | _ => fun _ => None
      end ans
  end.

Definition supplies_answered (l : list Answered) : list (PublicKey * TokenAmount) :=
  filter_defined (map supply_answered l).


(** ** A concrete venue for the settlement and balance bindings *)

Module SettleFixture.
Import Fixture.

(** The rendering of a key: its bytes as a string (it stands for base 58;
    like base 58 it tells keys apart). *)
#[export] Instance settle_imports : SettleImports := {|
  SERUM_PROGRAM_ID := key Byte.x0f;
  toBase58 := fun k => string_of_list_byte (key_bytes k)
|}.

(** Two open orders accounts of the pool on SRM/USDC, none elsewhere. *)
Definition open_orders_on (m : Market) : list OpenOrders :=
  if PublicKey_equals (market_address m) SRM_USDC
  then [ {| oo_address := key Byte.x71 |}; {| oo_address := key Byte.x72 |} ]
  else [].

Definition venue : Venue World := fun X r =>
  match r in Request X return World -> result X * World with
  | OnChain ev =>
      match ev in Event X return World -> result X * World with
      | FindOpenOrdersAccountsForOwner m _ => fun w => (Ok (open_orders_on m), w)
      | ev' => handler _ ev'
      end
  | MarketLoad a _ => fun w =>
      (Ok {| market_address := a; quoteMintAddress := USDC_mint |}, w)
  | GetTokenSupply _ => fun w => (Ok {| amount := 5000%float; decimals := 6%float |}, w)
  | SettleFundsInstructions _ _ oo => fun w =>
      (Ok (if PublicKey_equals oo (key Byte.x72) then []
           else [externalInstruction 7; externalInstruction 8]), w)
  end.
Arguments venue : clear implicits.

End SettleFixture.

(** ** Properties of [settlePool] *)

Lemma loaded_markets_app (l1 l2 : list Answered) :
  loaded_markets (l1 ++ l2) = loaded_markets l1 ++ loaded_markets l2.
Proof. unfold loaded_markets. now rewrite map_app, filter_defined_app. Qed.

Lemma all_found_open_orders_app (l1 l2 : list Answered) :
  all_found_open_orders (l1 ++ l2) = all_found_open_orders l1 ++ all_found_open_orders l2.
Proof. unfold all_found_open_orders. now rewrite map_app, filter_defined_app. Qed.

Lemma settle_answers_app (l1 l2 : list Answered) :
  settle_answers (l1 ++ l2) = settle_answers l1 ++ settle_answers l2.
Proof. unfold settle_answers. now rewrite map_app, filter_defined_app. Qed.

Lemma balances_answered_app (l1 l2 : list Answered) :
  balances_answered (l1 ++ l2) = balances_answered l1 ++ balances_answered l2.
Proof. unfold balances_answered. now rewrite map_app, filter_defined_app. Qed.

Lemma supplies_answered_app (l1 l2 : list Answered) :
  supplies_answered (l1 ++ l2) = supplies_answered l1 ++ supplies_answered l2.
Proof. unfold supplies_answered. now rewrite map_app, filter_defined_app. Qed.

(** The first instruction of an answer of [settleFunds], if any. *)
Definition first_instruction
    (s : Buffer * PublicKey * PublicKey * list TransactionInstruction)
  : option TransactionInstruction :=
  nth_error (snd s) 0.

(** The arguments [settlePool] gives to [settleFunds] for the accounts found
    on one loaded market. *)
Definition settle_requests_for (poolSeed : Buffer)
    (p : (PublicKey * PublicKey * Market) * (Market * PublicKey * list OpenOrders))
  : list (Buffer * PublicKey * PublicKey) :=
  map (fun oo => (poolSeed, fst (fst (fst p)), oo_address oo)) (snd (snd p)).








Lemma settle_requests_length (poolSeed : Buffer) (poolKey : PublicKey)
    (loaded : list (PublicKey * PublicKey * Market))
    (found : list (Market * PublicKey * list OpenOrders)) :
  Forall2 (fun x f => fst (fst f) = snd x /\ snd (fst f) = poolKey) loaded found ->
  length (flat_map (settle_requests_for poolSeed) (combine loaded found))
  = length (concat (map snd found)).
Proof.
  induction 1 as [|x f loaded found _ _ IH]; [reflexivity|].
  cbn [combine flat_map map concat]. rewrite !length_app, IH.
  unfold settle_requests_for. now rewrite length_map.
Qed.

Section SettlePool.
Context `{Imp : Imports}.
Context {SI : SettleImports}.
Variable W : Type.
Variable v : Venue W.

Lemma exec_settle_open_orders (poolSeed : Buffer) (market : PublicKey)
    (oos : list OpenOrders) :
  forall (acc ixs : list (option TransactionInstruction)) (w : W),
  ended (exec v (for_of (settle_open_orders poolSeed market) oos acc) w) = Ok ixs ->
  ixs = acc ++ map first_instruction
                 (settle_answers
                    (asked (exec v (for_of (settle_open_orders poolSeed market) oos acc) w)))
  /\ map fst (settle_answers
                (asked (exec v (for_of (settle_open_orders poolSeed market) oos acc) w)))
     = map (fun oo => (poolSeed, market, oo_address oo)) oos
  /\ loaded_markets
       (asked (exec v (for_of (settle_open_orders poolSeed market) oos acc) w)) = []
  /\ all_found_open_orders
       (asked (exec v (for_of (settle_open_orders poolSeed market) oos acc) w)) = [].
Proof.
  induction oos as [|oo oos IH]; intros acc ixs w; cbn [for_of].
  - cbn. intro H; injection H as <-. now rewrite app_nil_r.
  - rewrite ended_and_then, asked_and_then.
    assert (Hone : exec v (settle_open_orders poolSeed market acc oo) w
                   = let x := v _ (SettleFundsInstructions poolSeed market (oo_address oo))
                                w in
                     mkEnding
                       match fst x with
                       | Ok answer => Ok (acc ++ [nth_error answer 0])
                       | Err e => Err e
                       end
                       (snd x)
                       [mkAnswered _
                          (SettleFundsInstructions poolSeed market (oo_address oo))
                          (fst x)]).
    { unfold settle_open_orders. rewrite exec_and_then, exec_call.
      cbn [ended after asked].
      destruct (v _ (SettleFundsInstructions poolSeed market (oo_address oo)) w)
        as [[answer|e] w1]; cbn [fst snd]; reflexivity. }
    rewrite Hone. clear Hone. cbn zeta. cbn [ended after asked].
    destruct (v _ (SettleFundsInstructions poolSeed market (oo_address oo)) w)
      as [[answer|e] w1]; cbn [fst snd]; [|discriminate].
    intro Hrest. destruct (IH _ _ _ Hrest) as (Hixs & Hreq & Hl & Hf).
    rewrite !settle_answers_app, !loaded_markets_app, !all_found_open_orders_app.
    rewrite Hl, Hf, !map_app, Hreq, Hixs, <- app_assoc. repeat split; reflexivity.
Qed.

Lemma exec_settle_markets (poolSeed : Buffer) (poolKey : PublicKey)
    (markets : list PublicKey) :
  forall (acc ixs : list (option TransactionInstruction)) (w : W),
  ended (exec v (for_of (settle_market poolSeed poolKey) markets acc) w) = Ok ixs ->
  ixs = acc ++ map first_instruction
                 (settle_answers
                    (asked (exec v (for_of (settle_market poolSeed poolKey) markets acc) w)))
  /\ map (fun x => (fst (fst x), snd (fst x)))
       (loaded_markets
          (asked (exec v (for_of (settle_market poolSeed poolKey) markets acc) w)))
     = map (fun a => (a, SERUM_PROGRAM_ID)) markets
  /\ Forall2 (fun x f => fst (fst f) = snd x /\ snd (fst f) = poolKey)
       (loaded_markets
          (asked (exec v (for_of (settle_market poolSeed poolKey) markets acc) w)))
       (all_found_open_orders
          (asked (exec v (for_of (settle_market poolSeed poolKey) markets acc) w)))
  /\ map fst (settle_answers
                (asked (exec v (for_of (settle_market poolSeed poolKey) markets acc) w)))
     = flat_map (settle_requests_for poolSeed)
         (combine
            (loaded_markets
               (asked (exec v (for_of (settle_market poolSeed poolKey) markets acc) w)))
            (all_found_open_orders
               (asked (exec v (for_of (settle_market poolSeed poolKey) markets acc) w)))).
Proof.
  induction markets as [|a markets IH]; intros acc ixs w; cbn [for_of].
  - cbn. intro H; injection H as <-. rewrite app_nil_r. repeat split; constructor.
  - rewrite ended_and_then, asked_and_then.
    assert (Hone : exec v (settle_market poolSeed poolKey acc a) w
                   = let x := v _ (MarketLoad a SERUM_PROGRAM_ID) w in
                     match fst x with
                     | Err e => mkEnding (Err e) (snd x)
                                  [mkAnswered _ (MarketLoad a SERUM_PROGRAM_ID) (fst x)]
                     | Ok m =>
                         let y := v _ (OnChain (FindOpenOrdersAccountsForOwner m poolKey))
                                    (snd x) in
                         match fst y with
                         | Err e =>
                             mkEnding (Err e) (snd y)
                               [mkAnswered _ (MarketLoad a SERUM_PROGRAM_ID) (fst x);
                                mkAnswered _
                                  (OnChain (FindOpenOrdersAccountsForOwner m poolKey))
                                  (fst y)]
                         | Ok oos =>
                             let o := exec v (for_of (settle_open_orders poolSeed a) oos acc)
                                        (snd y) in
                             mkEnding (ended o) (after o)
                               ([mkAnswered _ (MarketLoad a SERUM_PROGRAM_ID) (fst x);
                                 mkAnswered _
                                   (OnChain (FindOpenOrdersAccountsForOwner m poolKey))
                                   (fst y)] ++ asked o)
                         end
                     end).
    { unfold settle_market. rewrite exec_and_then, exec_call. cbn [ended after asked].
      destruct (v _ (MarketLoad a SERUM_PROGRAM_ID) w) as [[m|e] w1];
        cbn [fst snd]; [|reflexivity].
      rewrite exec_and_then, exec_call. cbn [ended after asked].
      destruct (v _ (OnChain (FindOpenOrdersAccountsForOwner m poolKey)) w1)
        as [[oos|e] w2]; cbn [fst snd]; reflexivity. }
    rewrite Hone. clear Hone. cbn zeta.
    destruct (v _ (MarketLoad a SERUM_PROGRAM_ID) w) as [[m|e] w1];
      cbn [fst snd ended after asked]; [|discriminate].
    destruct (v _ (OnChain (FindOpenOrdersAccountsForOwner m poolKey)) w1)
      as [[oos|e] w2]; cbn [fst snd ended after asked]; [|discriminate].
    destruct (ended (exec v (for_of (settle_open_orders poolSeed a) oos acc) w2))
      as [acc1|e] eqn:Hinner; [|discriminate].
    intro Hrest.
    destruct (exec_settle_open_orders _ _ _ _ _ _ Hinner) as (Hacc1 & Hreq1 & Hl1 & Hf1).
    destruct (IH _ _ _ Hrest) as (Hixs & Hloaded & Hfound & Hreq).
    rewrite !settle_answers_app, !loaded_markets_app, !all_found_open_orders_app.
    rewrite Hl1, Hf1.
    change (settle_answers
              [mkAnswered _ (MarketLoad a SERUM_PROGRAM_ID) (Ok m);
               mkAnswered _ (OnChain (FindOpenOrdersAccountsForOwner m poolKey)) (Ok oos)])
      with (@nil (Buffer * PublicKey * PublicKey * list TransactionInstruction)).
    change (loaded_markets
              [mkAnswered _ (MarketLoad a SERUM_PROGRAM_ID) (Ok m);
               mkAnswered _ (OnChain (FindOpenOrdersAccountsForOwner m poolKey)) (Ok oos)])
      with [(a, SERUM_PROGRAM_ID, m)].
    change (all_found_open_orders
              [mkAnswered _ (MarketLoad a SERUM_PROGRAM_ID) (Ok m);
               mkAnswered _ (OnChain (FindOpenOrdersAccountsForOwner m poolKey)) (Ok oos)])
      with [(m, poolKey, oos)].
    cbn [app]. repeat split.
    + rewrite Hixs, Hacc1, map_app, <- app_assoc. reflexivity.
    + cbn [map fst snd]. now rewrite Hloaded.
    + constructor; [now split|assumption].
    + rewrite map_app, Hreq1, Hreq. reflexivity.
Qed.

(** [settlePool] up to the list of its markets. *)
Lemma exec_settlePool (poolSeed : Buffer) (poolKey : PublicKey) (w : W) :
  createProgramAddress [poolSeed] BONFIDABOT_PROGRAM_ID = Ok poolKey ->
  let x := v _ (OnChain (GetAccountInfo poolKey)) w in
  exec v (settlePool poolSeed) w
  = match fst x with
    | Err e => mkEnding (Err e) (snd x) [mkAnswered _ (OnChain (GetAccountInfo poolKey)) (fst x)]
    | Ok None =>
        mkEnding (Err PoolUnavailable) (snd x)
          [mkAnswered _ (OnChain (GetAccountInfo poolKey)) (fst x)]
    | Ok (Some poolData) =>
        match rbind (PoolHeader_fromBuffer (slice 0 PoolHeader_LEN (data poolData)))
                (fun poolHeader =>
                 unpack_markets
                   (slice PoolHeader_LEN
                      (PoolHeader_LEN
                       + N.to_nat (numberOfMarkets poolHeader) * PUBKEY_LENGTH)
                      (data poolData))
                   (numberOfMarkets poolHeader))
        with
        | Err e =>
            mkEnding (Err e) (snd x)
              [mkAnswered _ (OnChain (GetAccountInfo poolKey)) (fst x)]
        | Ok markets =>
            let o := exec v (for_of (settle_market poolSeed poolKey) markets []) (snd x) in
            mkEnding (ended o) (after o)
              ([mkAnswered _ (OnChain (GetAccountInfo poolKey)) (fst x)] ++ asked o)
        end
    end.
Proof.
  intro Hk. unfold settlePool. rewrite Hk. cbn [settled and_then]. cbn zeta.
  rewrite exec_and_then, exec_call. cbn [ended after asked].
  destruct (v _ (OnChain (GetAccountInfo poolKey)) w) as [[[poolData|]|e] w1];
    cbn [fst snd]; try reflexivity.
  destruct (PoolHeader_fromBuffer _) as [poolHeader|e]; cbn [settled and_then rbind];
    [|reflexivity].
  destruct (unpack_markets _ _) as [markets|e]; cbn [settled and_then]; reflexivity.
Qed.

(** X1: when no account exists at the pool address, [settlePool] fails with
    'Pool account is unavailable' after that one request: no market is
    loaded and [settleFunds] is not asked. *)
Theorem settlePool_unavailable (poolSeed : Buffer) (poolKey : PublicKey) (w : W) :
  createProgramAddress [poolSeed] BONFIDABOT_PROGRAM_ID = Ok poolKey ->
  fst (v _ (OnChain (GetAccountInfo poolKey)) w) = Ok None ->
  ended (exec v (settlePool poolSeed) w) = Err PoolUnavailable
  /\ asked (exec v (settlePool poolSeed) w)
     = [mkAnswered _ (OnChain (GetAccountInfo poolKey)) (Ok None)].
Proof.
  intros Hk Hnone. rewrite (exec_settlePool _ _ w Hk). cbn zeta. rewrite Hnone.
  split; reflexivity.
Qed.

(** X2: the instructions [settlePool] returns are, in order, the first
    instruction of each answer of [settleFunds] ([undefined] for an empty
    answer); [settleFunds] is asked once per open orders account found, in
    the order of the markets loaded and of the accounts of each, with the
    address of that market; so the result has one entry per open orders
    account. *)
Theorem settlePool_one_entry_per_open_orders_account (poolSeed : Buffer) (w : W)
    (ixs : list (option TransactionInstruction)) :
  ended (exec v (settlePool poolSeed) w) = Ok ixs ->
  ixs = map first_instruction (settle_answers (asked (exec v (settlePool poolSeed) w)))
  /\ map fst (settle_answers (asked (exec v (settlePool poolSeed) w)))
     = flat_map (settle_requests_for poolSeed)
         (combine (loaded_markets (asked (exec v (settlePool poolSeed) w)))
            (all_found_open_orders (asked (exec v (settlePool poolSeed) w))))
  /\ length ixs
     = length (concat (map snd (all_found_open_orders
                                  (asked (exec v (settlePool poolSeed) w))))).
Proof.
  destruct (createProgramAddress [poolSeed] BONFIDABOT_PROGRAM_ID) as [poolKey|e] eqn:Hk;
    [|unfold settlePool; rewrite Hk; cbn; discriminate].
  rewrite (exec_settlePool _ _ w Hk). cbn zeta.
  destruct (v _ (OnChain (GetAccountInfo poolKey)) w) as [[[poolData|]|e] w1];
    cbn [fst snd]; try (cbn; discriminate).
  destruct (rbind _ _) as [markets|e]; [|cbn; discriminate].
  cbn [ended asked]. intro Hloop.
  destruct (exec_settle_markets _ _ _ _ _ _ Hloop) as (Hixs & _ & Hfound & Hreq).
  rewrite !settle_answers_app, !loaded_markets_app, !all_found_open_orders_app.
  change (settle_answers [mkAnswered _ (OnChain (GetAccountInfo poolKey)) (Ok (Some poolData))])
    with (@nil (Buffer * PublicKey * PublicKey * list TransactionInstruction)).
  change (loaded_markets [mkAnswered _ (OnChain (GetAccountInfo poolKey)) (Ok (Some poolData))])
    with (@nil (PublicKey * PublicKey * Market)).
  change (all_found_open_orders
            [mkAnswered _ (OnChain (GetAccountInfo poolKey)) (Ok (Some poolData))])
    with (@nil (Market * PublicKey * list OpenOrders)).
  cbn [app]. split; [exact Hixs|]. split; [exact Hreq|].
  rewrite <- (settle_requests_length poolSeed poolKey _ _ Hfound), <- Hreq, Hixs.
  cbn [app]. now rewrite !length_map.
Qed.

(** X3: the markets [settlePool] loads are the [authorizedMarkets] that
    [fetchPoolInfo] reports for the same seed on the same chain, in the same
    order, each loaded for [SERUM_PROGRAM_ID]; the open orders accounts are
    looked up on each loaded market for the pool address. *)
Theorem settlePool_loads_authorized_markets (poolSeed : Buffer) (w : W) (info : PoolInfo)
    (ixs : list (option TransactionInstruction)) :
  returned (run (chain_of v) (fetchPoolInfo poolSeed) w) = Ok info ->
  ended (exec v (settlePool poolSeed) w) = Ok ixs ->
  map (fun x => (fst (fst x), snd (fst x)))
    (loaded_markets (asked (exec v (settlePool poolSeed) w)))
  = map (fun a => (a, SERUM_PROGRAM_ID)) (authorizedMarkets info)
  /\ Forall2 (fun x f => fst (fst f) = snd x /\ snd (fst f) = address info)
       (loaded_markets (asked (exec v (settlePool poolSeed) w)))
       (all_found_open_orders (asked (exec v (settlePool poolSeed) w))).
Proof.
  intro Hinfo.
  destruct (createProgramAddress [poolSeed] BONFIDABOT_PROGRAM_ID) as [poolKey|e] eqn:Hk;
    [|unfold settlePool; rewrite Hk; cbn; discriminate].
  destruct (createProgramAddress [poolSeed; array_one] BONFIDABOT_PROGRAM_ID)
    as [poolMintKey|e] eqn:Hm;
    [|unfold fetchPoolInfo in Hinfo; rewrite Hk, Hm in Hinfo; cbn in Hinfo; discriminate].
  destruct (run_fetchPoolInfo W (chain_of v) w poolSeed poolKey poolMintKey Hk Hm)
    as (_ & _ & Hr).
  rewrite Hinfo in Hr. unfold chain_of in Hr.
  rewrite (exec_settlePool _ _ w Hk). cbn zeta.
  destruct (v _ (OnChain (GetAccountInfo poolKey)) w) as [[[poolData|]|e] w1];
    cbn [fst snd] in *; try discriminate.
  destruct (PoolHeader_fromBuffer _) as [poolHeader|e]; cbn [rbind] in *; [|discriminate].
  destruct (unpack_assets _) as [poolAssets|e]; cbn [rbind] in Hr; [|discriminate].
  destruct (unpack_markets _ _) as [markets|e]; cbn [rbind] in Hr; [|discriminate].
  injection Hr as ->. cbn [ended asked authorizedMarkets address]. intro Hloop.
  destruct (exec_settle_markets _ _ _ _ _ _ Hloop) as (_ & Hloaded & Hfound & _).
  rewrite !loaded_markets_app, !all_found_open_orders_app.
  change (loaded_markets [mkAnswered _ (OnChain (GetAccountInfo poolKey)) (Ok (Some poolData))])
    with (@nil (PublicKey * PublicKey * Market)).
  change (all_found_open_orders
            [mkAnswered _ (OnChain (GetAccountInfo poolKey)) (Ok (Some poolData))])
    with (@nil (Market * PublicKey * list OpenOrders)).
  cbn [app]. split; assumption.
Qed.


End SettlePool.

(** ** Properties of [fetchPoolBalances] and [getPoolTokenMintFromSeed] *)

Section PoolBalances.
Context `{Imp : Imports}.
Context {SI : SettleImports}.
Variable W : Type.
Variable v : Venue W.

Lemma exec_asset_balances (poolKey : PublicKey) (assets : list PoolAsset) :
  forall (acc bals : list PoolAssetBalance) (w : W),
  ended (exec v (for_of (asset_balance poolKey) assets acc) w) = Ok bals ->
  exists fresh,
    bals = acc ++ fresh
    /\ map mint fresh = map (fun a => toBase58 (mintAddress a)) assets
    /\ map tokenAmount fresh
       = map snd (balances_answered
                    (asked (exec v (for_of (asset_balance poolKey) assets acc) w)))
    /\ map (fun k => Ok k)
         (map fst (balances_answered
                     (asked (exec v (for_of (asset_balance poolKey) assets acc) w))))
       = map (fun a => findAssociatedTokenAddress poolKey (mintAddress a)) assets
    /\ supplies_answered (asked (exec v (for_of (asset_balance poolKey) assets acc) w)) = [].
Proof.
  induction assets as [|asset assets IH]; intros acc bals w; cbn [for_of].
  - cbn. intro H; injection H as <-. exists []. now rewrite app_nil_r.
  - rewrite ended_and_then, asked_and_then.
    assert (Hone : exec v (asset_balance poolKey acc asset) w
                   = match findAssociatedTokenAddress poolKey (mintAddress asset) with
                     | Err e => mkEnding (Err e) w []
                     | Ok assetKey =>
                         let x := v _ (OnChain (GetTokenAccountBalance assetKey)) w in
                         mkEnding
                           match fst x with
                           | Ok balance =>
                               Ok (acc ++ [ {| tokenAmount := balance;
                                               mint := toBase58 (mintAddress asset) |} ])
                           | Err e => Err e
                           end
                           (snd x)
                           [mkAnswered _ (OnChain (GetTokenAccountBalance assetKey)) (fst x)]
                     end).
    { unfold asset_balance.
      destruct (findAssociatedTokenAddress poolKey (mintAddress asset)) as [assetKey|e];
        cbn [settled and_then]; [|reflexivity].
      rewrite exec_and_then, exec_call. cbn [ended after asked].
      destruct (v _ (OnChain (GetTokenAccountBalance assetKey)) w) as [[balance|e] w1];
        cbn [fst snd]; reflexivity. }
    rewrite Hone. clear Hone.
    destruct (findAssociatedTokenAddress poolKey (mintAddress asset)) as [assetKey|e] eqn:Hkey;
      [|cbn; discriminate].
    cbn zeta. cbn [ended after asked].
    destruct (v _ (OnChain (GetTokenAccountBalance assetKey)) w) as [[balance|e] w1];
      cbn [fst snd]; [|discriminate].
    intro Hrest. destruct (IH _ _ _ Hrest) as (fresh & Hbals & Hmint & Hamount & Hkeys & Hsup).
    exists ({| tokenAmount := balance; mint := toBase58 (mintAddress asset) |} :: fresh).
    rewrite balances_answered_app, supplies_answered_app, Hsup.
    change (balances_answered
              [mkAnswered _ (OnChain (GetTokenAccountBalance assetKey)) (Ok balance)])
      with [(assetKey, balance)].
    cbn [app map fst snd tokenAmount mint]. repeat split.
    + rewrite Hbals, <- app_assoc. reflexivity.
    + now rewrite Hmint.
    + now rewrite Hamount.
    + now rewrite Hkeys, Hkey.
Qed.

(** [fetchPoolBalances] up to the list of its assets. *)
Lemma exec_fetchPoolBalances (poolSeed : Buffer) (poolKey poolMintKey : PublicKey) (w : W) :
  createProgramAddress [poolSeed] BONFIDABOT_PROGRAM_ID = Ok poolKey ->
  createProgramAddress [poolSeed; array_one] BONFIDABOT_PROGRAM_ID = Ok poolMintKey ->
  let x := v _ (OnChain (GetAccountInfo poolKey)) w in
  exec v (fetchPoolBalances poolSeed) w
  = match fst x with
    | Err e =>
        mkEnding (Err e) (snd x) [mkAnswered _ (OnChain (GetAccountInfo poolKey)) (fst x)]
    | Ok None =>
        mkEnding (Err PoolUnavailable) (snd x)
          [mkAnswered _ (OnChain (GetAccountInfo poolKey)) (fst x)]
    | Ok (Some poolData) =>
        match rbind (PoolHeader_fromBuffer (slice 0 PoolHeader_LEN (data poolData)))
                (fun poolHeader =>
                 unpack_assets
                   (slice_from
                      (PoolHeader_LEN
                       + N.to_nat (numberOfMarkets poolHeader) * PUBKEY_LENGTH)
                      (data poolData)))
        with
        | Err e =>
            mkEnding (Err e) (snd x)
              [mkAnswered _ (OnChain (GetAccountInfo poolKey)) (fst x)]
        | Ok poolAssets =>
            let o := exec v (for_of (asset_balance poolKey) poolAssets []) (snd x) in
            match ended o with
            | Err e =>
                mkEnding (Err e) (after o)
                  ([mkAnswered _ (OnChain (GetAccountInfo poolKey)) (fst x)] ++ asked o)
            | Ok assetBalances =>
                let y := v _ (GetTokenSupply poolMintKey) (after o) in
                mkEnding
                  match fst y with
                  | Ok poolTokenSupply => Ok (poolTokenSupply, assetBalances)
                  | Err e => Err e
                  end
                  (snd y)
                  ([mkAnswered _ (OnChain (GetAccountInfo poolKey)) (fst x)]
                     ++ asked o ++ [mkAnswered _ (GetTokenSupply poolMintKey) (fst y)])
            end
        end
    end.
Proof.
  intros Hk Hm. unfold fetchPoolBalances. rewrite Hk, Hm. cbn [settled and_then]. cbn zeta.
  rewrite exec_and_then, exec_call. cbn [ended after asked].
  destruct (v _ (OnChain (GetAccountInfo poolKey)) w) as [[[poolData|]|e] w1];
    cbn [fst snd]; try reflexivity.
  destruct (PoolHeader_fromBuffer _) as [poolHeader|e]; cbn [settled and_then rbind];
    [|reflexivity].
  destruct (unpack_assets _) as [poolAssets|e]; cbn [settled and_then]; [|reflexivity].
  rewrite exec_and_then.
  destruct (ended (exec v (for_of (asset_balance poolKey) poolAssets []) w1))
    as [assetBalances|e]; cbn [ended after asked]; [|reflexivity].
  rewrite exec_and_then, exec_call. cbn [ended after asked].
  destruct (v _ (GetTokenSupply poolMintKey) _) as [[supply|e] w2]; cbn [fst snd];
    reflexivity.
Qed.

(** X5: when no account exists at the pool address, [fetchPoolBalances]
    fails with 'Pool account is unavailable' after that one request: no
    balance and no supply is asked. *)
Theorem fetchPoolBalances_unavailable (poolSeed : Buffer) (poolKey poolMintKey : PublicKey)
    (w : W) :
  createProgramAddress [poolSeed] BONFIDABOT_PROGRAM_ID = Ok poolKey ->
  createProgramAddress [poolSeed; array_one] BONFIDABOT_PROGRAM_ID = Ok poolMintKey ->
  fst (v _ (OnChain (GetAccountInfo poolKey)) w) = Ok None ->
  ended (exec v (fetchPoolBalances poolSeed) w) = Err PoolUnavailable
  /\ asked (exec v (fetchPoolBalances poolSeed) w)
     = [mkAnswered _ (OnChain (GetAccountInfo poolKey)) (Ok None)].
Proof.
  intros Hk Hm Hnone. rewrite (exec_fetchPoolBalances _ _ _ w Hk Hm). cbn zeta.
  rewrite Hnone. split; reflexivity.
Qed.

(** X6: the balances [fetchPoolBalances] returns are in the order of the
    pool's assets: their mints are the base-58 renderings of the
    [assetMintkeys] that [fetchPoolInfo] reports for the same seed on the
    same chain, position by position. *)
Theorem fetchPoolBalances_in_asset_order (poolSeed : Buffer) (w : W) (info : PoolInfo)
    (poolTokenSupply : TokenAmount) (assetBalances : list PoolAssetBalance) :
  returned (run (chain_of v) (fetchPoolInfo poolSeed) w) = Ok info ->
  ended (exec v (fetchPoolBalances poolSeed) w) = Ok (poolTokenSupply, assetBalances) ->
  map mint assetBalances = map toBase58 (assetMintkeys info).
Proof.
  intro Hinfo.
  destruct (createProgramAddress [poolSeed] BONFIDABOT_PROGRAM_ID) as [poolKey|e] eqn:Hk;
    [|unfold fetchPoolBalances; rewrite Hk; cbn; discriminate].
  destruct (createProgramAddress [poolSeed; array_one] BONFIDABOT_PROGRAM_ID)
    as [poolMintKey|e] eqn:Hm;
    [|unfold fetchPoolBalances; rewrite Hk, Hm; cbn; discriminate].
  destruct (run_fetchPoolInfo W (chain_of v) w poolSeed poolKey poolMintKey Hk Hm)
    as (_ & _ & Hr).
  rewrite Hinfo in Hr. unfold chain_of in Hr.
  rewrite (exec_fetchPoolBalances _ _ _ w Hk Hm). cbn zeta.
  destruct (v _ (OnChain (GetAccountInfo poolKey)) w) as [[[poolData|]|e] w1];
    cbn [fst snd] in *; try discriminate.
  destruct (PoolHeader_fromBuffer _) as [poolHeader|e]; cbn [rbind] in *; [|discriminate].
  destruct (unpack_assets _) as [poolAssets|e]; cbn [rbind] in *; [|discriminate].
  destruct (unpack_markets _ _) as [markets|e]; cbn [rbind] in Hr; [|discriminate].
  injection Hr as ->. cbn [assetMintkeys].
  destruct (ended (exec v (for_of (asset_balance poolKey) poolAssets []) w1))
    as [bals|e] eqn:Hloop; cbn [ended]; [|discriminate].
  destruct (exec_asset_balances _ _ _ _ _ Hloop) as (fresh & Hbals & Hmint & _).
  destruct (fst (v _ (GetTokenSupply poolMintKey) _)) as [supply|e]; [|discriminate].
  intro H; injection H as _ <-. rewrite Hbals. cbn [app].
  now rewrite Hmint, map_map.
Qed.

(** X7: each amount [fetchPoolBalances] returns is the answer of
    [getTokenAccountBalance] for one asset, asked in the order of the
    returned list, and the supply it returns is the answer of
    [getTokenSupply] for the mint key that [getPoolTokenMintFromSeed]
    derives from the seed; the supply is asked once. *)
Theorem fetchPoolBalances_answers (poolSeed : Buffer) (w w' : W)
    (poolTokenSupply : TokenAmount) (assetBalances : list PoolAssetBalance) :
  ended (exec v (fetchPoolBalances poolSeed) w) = Ok (poolTokenSupply, assetBalances) ->
  map tokenAmount assetBalances
  = map snd (balances_answered (asked (exec v (fetchPoolBalances poolSeed) w)))
  /\ exists poolMintKey,
       returned (run (chain_of v) (getPoolTokenMintFromSeed poolSeed) w') = Ok poolMintKey
       /\ supplies_answered (asked (exec v (fetchPoolBalances poolSeed) w))
          = [(poolMintKey, poolTokenSupply)].
Proof.
  destruct (createProgramAddress [poolSeed] BONFIDABOT_PROGRAM_ID) as [poolKey|e] eqn:Hk;
    [|unfold fetchPoolBalances; rewrite Hk; cbn; discriminate].
  destruct (createProgramAddress [poolSeed; array_one] BONFIDABOT_PROGRAM_ID)
    as [poolMintKey|e] eqn:Hm;
    [|unfold fetchPoolBalances; rewrite Hk, Hm; cbn; discriminate].
  rewrite (exec_fetchPoolBalances _ _ _ w Hk Hm). cbn zeta.
  destruct (v _ (OnChain (GetAccountInfo poolKey)) w) as [[[poolData|]|e] w1];
    cbn [fst snd] in *; try (cbn; discriminate).
  destruct (rbind _ _) as [poolAssets|e]; [|cbn; discriminate].
  destruct (ended (exec v (for_of (asset_balance poolKey) poolAssets []) w1))
    as [bals|e] eqn:Hloop; cbn [ended asked]; [|discriminate].
  destruct (exec_asset_balances _ _ _ _ _ Hloop) as (fresh & Hbals & _ & Hamount & _ & Hsup).
  destruct (v _ (GetTokenSupply poolMintKey) _) as [[supply|e] w2]; cbn [fst snd];
    [|discriminate].
  intro H; injection H as <- <-.
  rewrite !balances_answered_app, !supplies_answered_app, Hsup, Hbals.
  change (balances_answered
            [mkAnswered _ (OnChain (GetAccountInfo poolKey)) (Ok (Some poolData))])
    with (@nil (PublicKey * TokenAmount)).
  change (balances_answered [mkAnswered _ (GetTokenSupply poolMintKey) (Ok supply)])
    with (@nil (PublicKey * TokenAmount)).
  change (supplies_answered
            [mkAnswered _ (OnChain (GetAccountInfo poolKey)) (Ok (Some poolData))])
    with (@nil (PublicKey * TokenAmount)).
  change (supplies_answered [mkAnswered _ (GetTokenSupply poolMintKey) (Ok supply)])
    with [(poolMintKey, supply)].
  cbn [app]. rewrite app_nil_r. split; [exact Hamount|].
  exists poolMintKey. split; [|reflexivity].
  unfold getPoolTokenMintFromSeed. now rewrite Hm.
Qed.

(** X8: whenever [fetchPoolInfo] returns a pool info for a seed,
    [getPoolTokenMintFromSeed] returns its [mintKey] for that seed, on any
    chain and without a request. *)
Theorem getPoolTokenMintFromSeed_is_mintKey (h : Handler W) (poolSeed : Buffer) (w w' : W)
    (info : PoolInfo) :
  returned (run h (fetchPoolInfo poolSeed) w) = Ok info ->
  returned (run h (getPoolTokenMintFromSeed poolSeed) w') = Ok (mintKey info)
  /\ trace (run h (getPoolTokenMintFromSeed poolSeed) w') = [].
Proof.
  intro Hinfo.
  destruct (createProgramAddress [poolSeed] BONFIDABOT_PROGRAM_ID) as [poolKey|e] eqn:Hk;
    [|unfold fetchPoolInfo in Hinfo; rewrite Hk in Hinfo; cbn in Hinfo; discriminate].
  destruct (createProgramAddress [poolSeed; array_one] BONFIDABOT_PROGRAM_ID)
    as [poolMintKey|e] eqn:Hm;
    [|unfold fetchPoolInfo in Hinfo; rewrite Hk, Hm in Hinfo; cbn in Hinfo; discriminate].
  destruct (run_fetchPoolInfo W h w poolSeed poolKey poolMintKey Hk Hm) as (_ & _ & Hr).
  rewrite Hinfo in Hr.
  destruct (fst (h _ (GetAccountInfo poolKey) w)) as [[poolData|]|e]; try discriminate.
  destruct (PoolHeader_fromBuffer _) as [poolHeader|e]; cbn [rbind] in Hr; [|discriminate].
  destruct (unpack_assets _) as [poolAssets|e]; cbn [rbind] in Hr; [|discriminate].
  destruct (unpack_markets _ _) as [markets|e]; cbn [rbind] in Hr; [|discriminate].
  injection Hr as ->. unfold getPoolTokenMintFromSeed. rewrite Hm. split; reflexivity.
Qed.

End PoolBalances.

(** ** More on the order history *)

Lemma map_repeat_const {A B} (f : A -> B) (c : B) (l : list A) :
  Forall (fun a => f a = c) l -> map f l = repeat c (length l).
Proof. induction 1 as [|a l Ha _ IH]; simpl; [reflexivity|]. now rewrite Ha, IH. Qed.

Lemma map_slice_to {A B} (f : A -> B) (n : Z) (l : list A) :
  map f (slice_to n l) = slice_to n (map f l).
Proof. unfold slice_to. now rewrite length_map, firstn_map. Qed.

Lemma map_result_each {A B} (f : A -> result B) (l : list A) (x : list B) :
  map_result f l = Ok x -> forall a, In a l -> is_ok (f a) = true.
Proof.
  revert x; induction l as [|a l IH]; intros x H b Hb; [destruct Hb|].
  simpl in H. destruct (f a) as [y|] eqn:Ha; [|discriminate]. simpl in H.
  destruct (map_result f l) as [ys|]; [|discriminate].
  destruct Hb as [<-|Hb]; [now rewrite Ha|]. now apply (IH ys).
Qed.

Section HistoryOrder.
Context `{I : Imports}.
Variable W : Type.
Variable h : Handler W.

(** The signatures of the entries a window yields: each fetched transaction
    gives its signature once per order-creation instruction. *)
Definition window_signatures (tr : Trace) : list string :=
  flat_map (fun st => repeat (fst st) (create_orders_in (snd st))) (fetched_transactions tr).

Lemma orders_carry_signature (info : PoolInfo) (sig : ConfirmedSignatureInfo)
    (l : list Instruction) (x : list (option PoolOrderInfo)) :
  map_result (order_of_instruction info sig) l = Ok x ->
  Forall (fun o => transactionSignature o = signature sig /\ transactionSlot o = slot sig)
    (filter_defined x).
Proof.
  revert x; induction l as [|i l IH]; intros x; simpl.
  - intro H; injection H as <-. constructor.
  - unfold order_of_instruction at 1.
    destruct (is_create_order i).
    + destruct (parseCreateOrderInstruction (ix_data i) info sig) as [o|e] eqn:Hp;
        simpl; [|discriminate].
      destruct (map_result (order_of_instruction info sig) l) as [x'|e]; simpl;
        [|discriminate].
      intro H; injection H as <-. simpl. constructor; [|now apply IH].
      destruct (parse_fields _ _ _ _ Hp) as (? & ? & ? & ? & _ & _ & _ & _ & ->).
      split; reflexivity.
    + simpl.
      destruct (map_result (order_of_instruction info sig) l) as [x'|e]; simpl;
        [|discriminate].
      intro H; injection H as <-. simpl. now apply IH.
Qed.

(** What a returned [Promise.all] over the signatures holds. *)
Lemma run_per_signature_order (info : PoolInfo) (sigs : list ConfirmedSignatureInfo) :
  forall (w : W) (per : list (option (list PoolOrderInfo))),
  returned (run h (mapP (getPoolOrdersInfosFromSignature info) sigs) w) = Ok per ->
  map (fun o => transactionSignature o) (concat (filter_defined per))
  = window_signatures (trace (run h (mapP (getPoolOrdersInfosFromSignature info) sigs) w))
  /\ Forall (fun o => exists sig, In sig sigs /\ transactionSignature o = signature sig
                                  /\ transactionSlot o = slot sig)
       (concat (filter_defined per))
  /\ forall s t i,
       In (s, t) (fetched_transactions
                    (trace (run h (mapP (getPoolOrdersInfosFromSignature info) sigs) w))) ->
       In i (instructions t) -> is_create_order i = true ->
       exists sig, is_ok (parseCreateOrderInstruction (ix_data i) info sig) = true.
Proof.
  induction sigs as [|sig sigs IH]; intros w per; cbn [mapP].
  - cbn. intro H; injection H as <-. repeat split; try constructor. intros s t i [].
  - rewrite run_bind, run_getPoolOrdersInfosFromSignature. cbn [returned final trace].
    destruct (h _ (GetConfirmedTransaction (signature sig)) w) as [[ot|e] w'];
      cbn [fst snd]; [|cbn; discriminate].
    destruct ot as [t|].
    + destruct (map_result (order_of_instruction info sig) (instructions t))
        as [x|e] eqn:Hx; cbn [rbind]; [|cbn; discriminate].
      cbn [returned final trace app]. intro Hper.
      destruct (run_mapP_rest W h _ _ _ _ _ Hper) as (rest & -> & Hr & Htr). rewrite Htr.
      destruct (IH w' rest Hr) as (Hsig & Hall & Hdec).
      destruct (orders_of_instructions info sig _ _ Hx) as [Hlx _].
      pose proof (orders_carry_signature info sig _ _ Hx) as Hcarry.
      cbn [filter_defined concat]. unfold window_signatures in *.
      rewrite fetched_cons_some. cbn [flat_map fst snd]. repeat split.
      * rewrite map_app, Hsig. f_equal. unfold create_orders_in. rewrite <- Hlx.
        apply map_repeat_const. eapply Forall_impl; [|exact Hcarry]. now intros o [Ho _].
      * apply Forall_app. split.
        -- eapply Forall_impl; [|exact Hcarry]. intros o [Ho Hs].
           exists sig. repeat split; trivial. now left.
        -- eapply Forall_impl; [|exact Hall]. intros o (s & Hin & Ho & Hs).
           exists s. repeat split; trivial. now right.
      * intros s t' i [Heq|Hin] Hi Hq.
        -- injection Heq as _ <-. exists sig.
           pose proof (map_result_each _ _ _ Hx i Hi) as Hok.
           unfold order_of_instruction in Hok. rewrite Hq in Hok.
           now destruct (parseCreateOrderInstruction (ix_data i) info sig).
        -- now apply (Hdec s t' i).
    + cbn [returned final trace app]. intro Hper.
      destruct (run_mapP_rest W h _ _ _ _ _ Hper) as (rest & -> & Hr & Htr). rewrite Htr.
      destruct (IH w' rest Hr) as (Hsig & Hall & Hdec).
      cbn [filter_defined]. unfold window_signatures in *. rewrite fetched_cons_none.
      repeat split; trivial.
      eapply Forall_impl; [|exact Hall]. intros o (s & Hin & Ho & Hs).
      exists s. repeat split; trivial. now right.
Qed.

(** A run of [getPoolOrderInfos] that returns, by its parts. *)
Lemma run_getPoolOrderInfos_parts (w : W) (poolSeed : Buffer) (n : Z)
    (out : list PoolOrderInfo) :
  returned (run h (getPoolOrderInfos poolSeed n) w) = Ok out ->
  exists info sigs per w2,
    returned (run h (fetchPoolInfo poolSeed) w) = Ok info
    /\ returned (run h (mapP (getPoolOrdersInfosFromSignature info) sigs) w2) = Ok per
    /\ out = slice_to n (concat (filter_defined per))
    /\ fetched_transactions (trace (run h (getPoolOrderInfos poolSeed n) w))
       = fetched_transactions
           (trace (run h (mapP (getPoolOrdersInfosFromSignature info) sigs) w2)).
Proof.
  unfold getPoolOrderInfos. rewrite run_bind.
  pose proof (fetchPoolInfo_no_transactions W h w poolSeed) as Hnone.
  destruct (returned (run h (fetchPoolInfo poolSeed) w)) as [info|e]; [|cbn; discriminate].
  cbn zeta. cbn [returned final trace].
  rewrite run_bind, run_await. cbn [returned final trace].
  set (w1 := final (run h (fetchPoolInfo poolSeed) w)).
  destruct (h _ (GetConfirmedSignaturesForAddress2 (address info)) w1) as [[sigs|e] w2];
    cbn [fst snd]; [|cbn; discriminate].
  rewrite run_bind.
  destruct (returned (run h (mapP (getPoolOrdersInfosFromSignature info) sigs) w2))
    as [per|e] eqn:Hper; cbn [returned final trace run]; [|discriminate].
  intro H; injection H as <-.
  exists info, sigs, per, w2. repeat split; trivial.
  rewrite app_nil_r, !fetched_transactions_app, Hnone. reflexivity.
Qed.

End HistoryOrder.

(** The requests [getPoolOrderInfos] makes. *)
Definition history_request (X : Type) (ev : Event X) : Prop :=
  match ev with
  | GetAccountInfo _ | GetConfirmedSignaturesForAddress2 _ | GetConfirmedTransaction _ => True
  | _ => False
  end.

Lemma all_events_final {W A} (h : Handler W) (P : forall X, Event X -> Prop)
    (Inv : W -> Prop) (p : Prog A) :
  all_events P p ->
  (forall X (ev : Event X) w, P X ev -> Inv w -> Inv (snd (h X ev w))) ->
  forall w, Inv w -> Inv (final (run h p w)).
Proof.
  intros Hp Hkeep. induction p as [a|e|X ev k IH]; intros w Hw; simpl; trivial.
  destruct Hp as [Hev Hk]. specialize (Hkeep X ev w Hev Hw).
  destruct (h _ ev w) as [[x|e] w']; simpl in *; trivial. now apply IH.
Qed.

Section HistoryMore.
Context `{Imp : Imports}.
Variable W : Type.
Variable h : Handler W.

Lemma fetchPoolInfo_reads (poolSeed : Buffer) :
  all_events history_request (fetchPoolInfo poolSeed).
Proof. unfold fetchPoolInfo. all_events_tac. Qed.

Lemma getPoolOrdersInfosFromSignature_reads (info : PoolInfo) (sig : ConfirmedSignatureInfo) :
  all_events history_request (getPoolOrdersInfosFromSignature info sig).
Proof. unfold getPoolOrdersInfosFromSignature. all_events_tac. Qed.

Lemma mapP_returns_under {A B} (Inv : W -> Prop) (f : A -> Prog B) (l : list A) :
  (forall a w, In a l -> Inv w ->
     is_ok (returned (run h (f a) w)) = true /\ Inv (final (run h (f a) w))) ->
  forall w, Inv w -> is_ok (returned (run h (mapP f l) w)) = true.
Proof.
  induction l as [|a l IH]; intros Hok w Hw; [reflexivity|]. cbn [mapP].
  rewrite run_bind. destruct (Hok a w (or_introl eq_refl) Hw) as [Ha Hf].
  destruct (returned (run h (f a) w)) as [b|]; [|discriminate]. cbn [returned].
  rewrite run_bind.
  pose proof (IH (fun x w' Hx => Hok x w' (or_intror Hx)) (final (run h (f a) w)) Hf) as Hl.
  now destruct (returned (run h (mapP f l) (final (run h (f a) w)))).
Qed.

(** X9. [getPoolOrderInfos] returns a list whenever the pool can be read, the
    node answers the history requests, and the four numeric fields of every
    order-creation instruction in the transactions it serves decode; the
    conditions are asked of the node's states under an invariant the history
    requests keep. *)
Theorem getPoolOrderInfos_returns_when_decodable (Inv : W -> Prop) (w : W)
    (poolSeed : Buffer) (n : Z) (info : PoolInfo) :
  Inv w ->
  (forall X (ev : Event X) w', history_request X ev -> Inv w' -> Inv (snd (h X ev w'))) ->
  returned (run h (fetchPoolInfo poolSeed) w) = Ok info ->
  (forall w', Inv w' ->
     is_ok (fst (h _ (GetConfirmedSignaturesForAddress2 (address info)) w')) = true) ->
  (forall w' sig, Inv w' -> is_ok (fst (h _ (GetConfirmedTransaction sig) w')) = true) ->
  (forall w' sig t i, Inv w' ->
     fst (h _ (GetConfirmedTransaction sig) w') = Ok (Some t) ->
     In i (instructions t) -> is_create_order i = true ->
     is_ok (Numberu64_toNumber (slice 34 42 (ix_data i)))
     && is_ok (Numberu16_toNumber (slice 42 44 (ix_data i)))
     && is_ok (Numberu64_toNumber (slice 45 53 (ix_data i)))
     && is_ok (Numberu16_toNumber (slice 70 72 (ix_data i))) = true) ->
  exists out, returned (run h (getPoolOrderInfos poolSeed n) w) = Ok out.
Proof.
  intros Hw Hkeep Hinfo Hsigs Htx Hdec.
  assert (Hok : is_ok (returned (run h (getPoolOrderInfos poolSeed n) w)) = true).
  2:{ destruct (returned (run h (getPoolOrderInfos poolSeed n) w)) as [out|];
        [now exists out|discriminate]. }
  unfold getPoolOrderInfos.
  rewrite run_bind, Hinfo. cbn zeta. cbn [returned final trace].
  rewrite run_bind, run_await. cbn [returned final trace].
  pose proof (all_events_final h history_request Inv _ (fetchPoolInfo_reads poolSeed)
                Hkeep w Hw) as Hw1.
  set (w1 := final (run h (fetchPoolInfo poolSeed) w)) in *.
  specialize (Hsigs w1 Hw1).
  pose proof (Hkeep _ (GetConfirmedSignaturesForAddress2 (address info)) w1 Logic.I Hw1) as Hw2.
  destruct (h _ (GetConfirmedSignaturesForAddress2 (address info)) w1) as [[sigs|] w2];
    cbn [fst snd] in *; [|discriminate].
  rewrite run_bind.
  assert (Hper : is_ok (returned (run h (mapP (getPoolOrdersInfosFromSignature info) sigs)
                                    w2)) = true).
  { apply mapP_returns_under with (Inv := Inv); [|exact Hw2]. intros sig w' _ Hw'. split.
    2:{ apply (all_events_final h history_request Inv); trivial.
        apply getPoolOrdersInfosFromSignature_reads. }
    rewrite run_getPoolOrdersInfosFromSignature. cbn [returned].
    specialize (Htx w' (signature sig) Hw'). specialize (Hdec w' (signature sig)).
    destruct (h _ (GetConfirmedTransaction (signature sig)) w') as [[[t|]|] w''];
      cbn [fst snd] in *; try reflexivity; [|discriminate].
    assert (Hmap : is_ok (map_result (order_of_instruction info sig) (instructions t))
                   = true).
    { apply map_result_returns. intros i Hi. unfold order_of_instruction.
      destruct (is_create_order i) eqn:Hq; [|reflexivity].
      specialize (Hdec t i Hw' eq_refl Hi Hq).
      rewrite <- (parse_returns (ix_data i) info sig) in Hdec.
      now destruct (parseCreateOrderInstruction (ix_data i) info sig). }
    now destruct (map_result (order_of_instruction info sig) (instructions t)). }
  now destruct (returned (run h (mapP (getPoolOrdersInfosFromSignature info) sigs) w2)).
Qed.

Lemma window_signatures_requested (tr : Trace) :
  window_signatures tr
  = flat_map (fun st => repeat (fst st) (create_orders_of (snd st)))
      (requested_transactions tr).
Proof.
  unfold window_signatures, fetched_transactions, requested_transactions.
  induction tr as [|[X ev ans] tr IH]; [reflexivity|]. cbn [map].
  destruct ev; cbn [fetched_transaction requested_transaction filter_defined]; trivial.
  destruct ans as [[t|]|];
    cbn [filter_defined flat_map fst snd create_orders_of repeat app];
    [now rewrite IH|exact IH|exact IH].
Qed.

(** X10. The entries [getPoolOrderInfos] returns come in the order of the
    node's signature list: the run lists the signatures of the pool address
    once, asks for the transaction of every listed signature in the order of
    the list, and the signatures of the returned entries are those of the
    list, each repeated once per order-creation instruction of the
    transaction the node answered for it, cut by [slice(0, n)]. *)
Theorem getPoolOrderInfos_in_fetch_order (w : W) (poolSeed : Buffer) (n : Z)
    (out : list PoolOrderInfo) :
  returned (run h (getPoolOrderInfos poolSeed n) w) = Ok out ->
  exists info sigs,
    returned (run h (fetchPoolInfo poolSeed) w) = Ok info
    /\ listed_signatures (trace (run h (getPoolOrderInfos poolSeed n) w))
       = [(address info, sigs)]
    /\ map fst (requested_transactions (trace (run h (getPoolOrderInfos poolSeed n) w)))
       = map (fun sig => signature sig) sigs
    /\ map (fun o => transactionSignature o) out
       = slice_to n
           (flat_map (fun st => repeat (fst st) (create_orders_of (snd st)))
              (requested_transactions (trace (run h (getPoolOrderInfos poolSeed n) w)))).
Proof.
  intro Hout.
  destruct (run_getPoolOrderInfos_listing W h w poolSeed n out Hout)
    as (info & sigs & Hinfo & Hlisted & Hasked).
  exists info, sigs. split; [exact Hinfo|]. split; [exact Hlisted|].
  split; [exact Hasked|].
  destruct (run_getPoolOrderInfos_parts W h w poolSeed n out Hout)
    as (info' & sigs' & per & w2 & _ & Hper & -> & Hfetched).
  destruct (run_per_signature_order W h info' sigs' w2 per Hper) as (Hsig & _ & _).
  rewrite map_slice_to, Hsig, <- window_signatures_requested.
  unfold window_signatures. now rewrite Hfetched.
Qed.

(** X11. [getPoolOrderInfos] is all or nothing: when it returns a list, the
    numeric fields of every order-creation instruction of every transaction
    it fetched decode, also of those beyond the first [n]; one instruction
    that does not decode rejects the whole call. *)
Theorem getPoolOrderInfos_all_or_nothing (w : W) (poolSeed : Buffer) (n : Z)
    (out : list PoolOrderInfo) (s : string) (t : ConfirmedTransaction) (i : Instruction) :
  returned (run h (getPoolOrderInfos poolSeed n) w) = Ok out ->
  In (s, t) (fetched_transactions (trace (run h (getPoolOrderInfos poolSeed n) w))) ->
  In i (instructions t) ->
  is_create_order i = true ->
  is_ok (Numberu64_toNumber (slice 34 42 (ix_data i)))
  && is_ok (Numberu16_toNumber (slice 42 44 (ix_data i)))
  && is_ok (Numberu64_toNumber (slice 45 53 (ix_data i)))
  && is_ok (Numberu16_toNumber (slice 70 72 (ix_data i))) = true.
Proof.
  intros Hout Hin Hi Hq.
  destruct (run_getPoolOrderInfos_parts W h w poolSeed n out Hout)
    as (info & sigs & per & w2 & _ & Hper & _ & Hfetched).
  destruct (run_per_signature_order W h info sigs w2 per Hper) as (_ & _ & Hdec).
  rewrite Hfetched in Hin. destruct (Hdec s t i Hin Hi Hq) as [sig Hok].
  now rewrite parse_returns in Hok.
Qed.

(** X12. A negative [n] drops the last [-n] entries: the call then returns
    the order-creation instructions of the fetched transactions but the last
    [-n] of them, none when there are no more than [-n]. *)
Theorem getPoolOrderInfos_negative_count (w : W) (poolSeed : Buffer) (n : Z)
    (out : list PoolOrderInfo) :
  returned (run h (getPoolOrderInfos poolSeed n) w) = Ok out ->
  (n < 0)%Z ->
  Z.of_nat (length out)
  = Z.max 0 (Z.of_nat (qualifying_in_window (trace (run h (getPoolOrderInfos poolSeed n) w)))
             + n).
Proof.
  intros Hout Hn.
  destruct (run_getPoolOrderInfos W h w poolSeed n out Hout) as (info & per & _ & -> & Hlen & _).
  rewrite <- Hlen. unfold slice_to.
  destruct (Z.ltb_spec n 0) as [_|Hge]; [|lia].
  rewrite length_firstn. lia.
Qed.

(** X13. When the pool account does not exist, [getPoolOrderInfos] fails with
    'Pool account is unavailable' after the one account fetch: it lists no
    signature and fetches no transaction. *)
Theorem getPoolOrderInfos_unavailable (w : W) (poolSeed : Buffer) (n : Z)
    (poolKey poolMintKey : PublicKey) :
  createProgramAddress [poolSeed] BONFIDABOT_PROGRAM_ID = Ok poolKey ->
  createProgramAddress [poolSeed; array_one] BONFIDABOT_PROGRAM_ID = Ok poolMintKey ->
  fst (h _ (GetAccountInfo poolKey) w) = Ok None ->
  returned (run h (getPoolOrderInfos poolSeed n) w) = Err PoolUnavailable
  /\ trace (run h (getPoolOrderInfos poolSeed n) w)
     = [mkEntry (GetAccountInfo poolKey) (Ok None)].
Proof.
  intros Hkey Hmint Hnone.
  destruct (run_fetchPoolInfo W h w poolSeed poolKey poolMintKey Hkey Hmint)
    as (Htr & _ & Hret).
  rewrite Hnone in Hret, Htr.
  unfold getPoolOrderInfos. rewrite run_bind, Hret. cbn [returned trace]. now rewrite Htr.
Qed.

End HistoryMore.

(** ** More on the decoder and on the seed listing *)

Lemma slice_within {A} (a b s e : nat) (d : list A) :
  a <= s -> e <= b -> slice s e d = slice (s - a) (e - a) (slice a b d).
Proof.
  intros Has Heb. unfold slice.
  rewrite skipn_firstn_comm, firstn_firstn, skipn_skipn.
  replace (s - a + a) with s by lia. f_equal. lia.
Qed.

Lemma nth_error_within {A} (a b k : nat) (d : list A) :
  a <= k -> k < b -> nth_error d k = nth_error (slice a b d) (k - a).
Proof.
  intros Hak Hkb. unfold slice. rewrite nth_error_firstn.
  destruct (Nat.ltb_spec (k - a) (b - a)) as [_|Hge]; [|lia].
  rewrite nth_error_skipn. f_equal. lia.
Qed.

Lemma length_slice {A} (s e : nat) (d : list A) :
  e <= length d -> length (slice s e d) = e - s.
Proof. intro He. unfold slice. rewrite length_firstn, length_skipn. lia. Qed.

Section DecoderFrame.
Context `{Imp : Imports}.

(** X14. The decoder reads bytes 1 to 53 and bytes 70 and 71 of the
    instruction data and nothing else: two buffers that agree there decode to
    the same order, or fail alike, whatever their tag byte, their bytes 54 to
    69 and their bytes from 72 on. *)
Theorem parseCreateOrderInstruction_reads (d d' : Buffer) (info : PoolInfo)
    (sig : ConfirmedSignatureInfo) :
  slice 1 54 d = slice 1 54 d' ->
  slice 70 72 d = slice 70 72 d' ->
  parseCreateOrderInstruction d info sig = parseCreateOrderInstruction d' info sig.
Proof.
  intros Hbody Hindex. unfold parseCreateOrderInstruction.
  rewrite Hindex.
  rewrite (slice_within 1 54 34 42 d), (slice_within 1 54 34 42 d') by lia.
  rewrite (slice_within 1 54 42 44 d), (slice_within 1 54 42 44 d') by lia.
  rewrite (slice_within 1 54 45 53 d), (slice_within 1 54 45 53 d') by lia.
  rewrite (slice_within 1 54 1 33 d), (slice_within 1 54 1 33 d') by lia.
  rewrite (nth_error_within 1 54 33 d), (nth_error_within 1 54 33 d') by lia.
  rewrite (nth_error_within 1 54 44 d), (nth_error_within 1 54 44 d') by lia.
  rewrite (nth_error_within 1 54 53 d), (nth_error_within 1 54 53 d') by lia.
  now rewrite Hbody.
Qed.

End DecoderFrame.

Section SeedsMore.
Context `{Imp : Imports}.
Variable W : Type.
Variable h : Handler W.

Lemma run_getPoolsSeedsBySigProvider (w : W) (signalProviderKey : option PublicKey) :
  let answer := h _ (GetProgramAccounts BONFIDABOT_PROGRAM_ID) w in
  run h (getPoolsSeedsBySigProvider signalProviderKey) w
  = mkOutcome
      match fst answer with
      | Err e => Err e
      | Ok resp =>
          match resp_error resp with
          | Some message => Err (ThrownError message)
          | None => Ok (listed_seeds signalProviderKey (resp_result resp))
          end
      end
      (snd answer)
      [mkEntry (GetProgramAccounts BONFIDABOT_PROGRAM_ID) (fst answer)].
Proof.
  unfold getPoolsSeedsBySigProvider. cbn [bind await run].
  destruct (h _ (GetProgramAccounts BONFIDABOT_PROGRAM_ID) w) as [[resp|e] w'];
    cbn [fst snd]; [|reflexivity].
  destruct (resp_error resp); cbn [run returned final trace]; [reflexivity|].
  now rewrite fold_push_seed.
Qed.

(** X15. When the header is at least 64 bytes long, every seed
    [getPoolsSeedsBySigProvider] returns has 32 bytes, and there are no more
    seeds than accounts in the node's answer. *)
Theorem getPoolsSeedsBySigProvider_seed_length (w : W)
    (signalProviderKey : option PublicKey) (resp : RpcResponse) (seeds : list Buffer) :
  64 <= PoolHeader_LEN ->
  fst (h _ (GetProgramAccounts BONFIDABOT_PROGRAM_ID) w) = Ok resp ->
  returned (run h (getPoolsSeedsBySigProvider signalProviderKey) w) = Ok seeds ->
  Forall (fun s => length s = 32) seeds /\ length seeds <= length (resp_result resp).
Proof.
  intros Hlen Hresp. rewrite run_getPoolsSeedsBySigProvider. cbn [returned].
  rewrite Hresp. destruct (resp_error resp); [discriminate|].
  intro H; injection H as <-. unfold listed_seeds. split.
  - apply Forall_map, Forall_forall. intros d Hd. apply filter_In in Hd as [_ Hl].
    unfold listed in Hl. apply andb_true_iff in Hl as [Hl _]. apply Nat.leb_le in Hl.
    rewrite length_slice; lia.
  - rewrite length_map. apply filter_length_le.
Qed.

(** X16. Giving a signal provider only narrows the listing: on the same
    answer of the node, every seed returned for a key is among those returned
    when no key is given, and no more seeds are returned. *)
Theorem getPoolsSeedsBySigProvider_key_narrows (w : W) (key : PublicKey)
    (mine every : list Buffer) :
  returned (run h (getPoolsSeedsBySigProvider (Some key)) w) = Ok mine ->
  returned (run h (getPoolsSeedsBySigProvider None) w) = Ok every ->
  incl mine every /\ length mine <= length every.
Proof.
  rewrite !run_getPoolsSeedsBySigProvider. cbn [returned].
  destruct (fst (h _ (GetProgramAccounts BONFIDABOT_PROGRAM_ID) w)) as [resp|];
    [|discriminate].
  destruct (resp_error resp); [discriminate|].
  intros H1 H2; injection H1 as <-; injection H2 as <-. unfold listed_seeds.
  assert (Hsub : forall l : list Buffer,
            incl (map (slice 32 64) (filter (listed (Some key)) l))
                 (map (slice 32 64) (filter (listed None) l))
            /\ length (map (slice 32 64) (filter (listed (Some key)) l))
               <= length (map (slice 32 64) (filter (listed None) l))).
  { induction l as [|d l [IHi IHl]]; [split; [apply incl_refl|apply Nat.le_refl]|].
    cbn [filter].
    assert (Hwide : listed (Some key) d = true -> listed None d = true).
    { unfold listed. intro Hl. apply andb_true_iff in Hl as [-> _]. reflexivity. }
    destruct (listed (Some key) d); [rewrite (Hwide eq_refl)|destruct (listed None d)];
      cbn [map length]; split; try lia.
    - apply incl_cons; [now left|now apply incl_tl].
    - now apply incl_tl.
    - exact IHi. }
  apply Hsub.
Qed.

(** X17. An error in the node's response is thrown as an [Error] with the
    node's message, whatever accounts the response also carries and whatever
    key is given; the listing makes this one request and no other. *)
Theorem getPoolsSeedsBySigProvider_error (w : W) (signalProviderKey : option PublicKey)
    (resp : RpcResponse) (message : string) :
  fst (h _ (GetProgramAccounts BONFIDABOT_PROGRAM_ID) w) = Ok resp ->
  resp_error resp = Some message ->
  returned (run h (getPoolsSeedsBySigProvider signalProviderKey) w)
  = Err (ThrownError message)
  /\ trace (run h (getPoolsSeedsBySigProvider signalProviderKey) w)
     = [mkEntry (GetProgramAccounts BONFIDABOT_PROGRAM_ID) (Ok resp)].
Proof.
  intros Hresp Herr. rewrite run_getPoolsSeedsBySigProvider. cbn [returned trace].
  now rewrite Hresp, Herr.
Qed.

End SeedsMore.

(** ** More on singleTokenDeposit *)

(** The requests made while the pool and the source account are read. *)
Definition quiet (X : Type) (ev : Event X) : Prop :=
  match ev with
  | GetAccountInfo _ | GetTokenAccountBalance _ => True
  | _ => False
  end.

Lemma quiet_trace (t : Trace) :
  Forall (fun e => quiet _ (e_event e)) t ->
  mid_prices t = [] /\ placed_orders t = [] /\ flat_map sent_instructions t = [].
Proof.
  induction 1 as [|e t He _ (IHm & IHp & IHs)]; [repeat split; reflexivity|].
  destruct e as [X ev ans]. unfold placed_orders, mid_prices in *.
  destruct ev; cbn in He |- *; try contradiction; now repeat split.
Qed.

Section DepositFailures.
Context `{Imp : Imports}.
Variable W : Type.
Variable h : Handler W.

Lemma resolve_quiet (key : PublicKey) (user_amount : number) (poolSeed : Buffer) :
  all_events quiet (resolve key user_amount poolSeed).
Proof. unfold resolve. all_events_tac. Qed.

(** X18. When the pool account does not exist, [singleTokenDeposit] fails
    with 'Pool account is unavailable' after its first request, the fetch of
    the pool account: no order is placed and nothing is sent. *)
Theorem singleTokenDeposit_pool_unavailable (owner : Wallet) (key : PublicKey)
    (user_amount : number) (poolSeed : Buffer) (payer : Account) (w : W)
    (poolKey poolMintKey : PublicKey) :
  createProgramAddress [poolSeed] BONFIDABOT_PROGRAM_ID = Ok poolKey ->
  createProgramAddress [poolSeed; array_one] BONFIDABOT_PROGRAM_ID = Ok poolMintKey ->
  fst (h _ (GetAccountInfo poolKey) w) = Ok None ->
  returned (run h (singleTokenDeposit owner key user_amount poolSeed payer) w)
  = Err PoolUnavailable
  /\ trace (run h (singleTokenDeposit owner key user_amount poolSeed payer) w)
     = [mkEntry (GetAccountInfo poolKey) (Ok None)].
Proof.
  intros Hkey Hmint Hnone. unfold singleTokenDeposit, resolve.
  rewrite Hkey, Hmint. cbn [lift bind await run].
  destruct (h _ (GetAccountInfo poolKey) w) as [answer w1]. cbn [fst] in Hnone.
  subst answer. cbn. now split.
Qed.

(** X19. A failure while the pool and the source token account are read
    (pool or source account missing, undecodable pool data, a source mint
    that is not in [TOKEN_MINTS], a failing balance request) ends
    [singleTokenDeposit] with that error before it trades: the run places no
    order and sends no instruction. *)
Theorem singleTokenDeposit_fails_before_trading (owner : Wallet) (key : PublicKey)
    (user_amount : number) (poolSeed : Buffer) (payer : Account) (w : W) (e : exn) :
  returned (run h (resolve key user_amount poolSeed) w) = Err e ->
  returned (run h (singleTokenDeposit owner key user_amount poolSeed payer) w) = Err e
  /\ placed_orders (trace (run h (singleTokenDeposit owner key user_amount poolSeed payer) w))
     = []
  /\ flat_map sent_instructions
       (trace (run h (singleTokenDeposit owner key user_amount poolSeed payer) w)) = [].
Proof.
  intro Hr. unfold singleTokenDeposit. rewrite returned_bind, trace_bind, Hr, app_nil_r.
  split; [reflexivity|].
  apply (quiet_trace _ (all_events_run h _ _ (resolve_quiet key user_amount poolSeed) w)).
Qed.

(** X20. When the source token is not USDC and its USDC market is missing
    from [MARKETS] or deprecated, [singleTokenDeposit] fails at the lookup
    ('Chosen Market is deprecated' for a deprecated market): no mid price is
    asked, no order is placed and nothing is sent. *)
Theorem singleTokenDeposit_market_rejected (owner : Wallet) (key : PublicKey)
    (user_amount : number) (poolSeed : Buffer) (payer : Account) (w : W)
    (r : Resolved) (e : exn) :
  returned (run h (resolve key user_amount poolSeed) w) = Ok r ->
  r_tokenSymbol r <> "USDC"%string ->
  live_market_info (r_tokenSymbol r ++ "/USDC")%string = Err e ->
  returned (run h (singleTokenDeposit owner key user_amount poolSeed payer) w) = Err e
  /\ trace (run h (singleTokenDeposit owner key user_amount poolSeed payer) w)
     = trace (run h (resolve key user_amount poolSeed) w)
  /\ mid_prices (trace (run h (singleTokenDeposit owner key user_amount poolSeed payer) w))
     = []
  /\ placed_orders (trace (run h (singleTokenDeposit owner key user_amount poolSeed payer) w))
     = []
  /\ flat_map sent_instructions
       (trace (run h (singleTokenDeposit owner key user_amount poolSeed payer) w)) = [].
Proof.
  intros Hr Hsym Hmarket. apply String.eqb_neq in Hsym.
  assert (Htrace : trace (run h (singleTokenDeposit owner key user_amount poolSeed payer) w)
                   = trace (run h (resolve key user_amount poolSeed) w)).
  { unfold singleTokenDeposit. rewrite trace_bind, Hr, trace_bind.
    unfold convert. rewrite Hsym, Hmarket. cbn. now rewrite app_nil_r. }
  split; [|split; [exact Htrace|]].
  - unfold singleTokenDeposit. rewrite returned_bind, Hr, returned_bind.
    unfold convert. rewrite Hsym, Hmarket. reflexivity.
  - rewrite Htrace.
    apply (quiet_trace _ (all_events_run h _ _ (resolve_quiet key user_amount poolSeed) w)).
Qed.

End DepositFailures.

(** The orders of the phases other than the rebalance: sells, if any. *)
Definition only_sells (X : Type) (ev : Event X) : Prop :=
  match ev with
  | PlaceOrder _ o => op_side o = "sell"%string
  | _ => True
  end.

Lemma placed_orders_only_sells (t : Trace) :
  Forall (fun e => only_sells _ (e_event e)) t ->
  forall m o, In (m, o) (placed_orders t) -> op_side o = "sell"%string.
Proof.
  induction 1 as [|e t He Ht IH]; intros m o Hin; [destruct Hin|].
  unfold placed_orders in Hin. cbn [map filter_defined] in Hin.
  destruct e as [X ev ans].
  destruct ev; cbn in Hin; try (now apply (IH m o)).
  destruct ans as [[]|]; cbn in Hin; [|now apply (IH m o)].
  destruct Hin as [Heq|Hin]; [|now apply (IH m o)].
  injection Heq as <- <-. exact He.
Qed.

Section DepositOrders.
Context `{Imp : Imports}.
Variable W : Type.
Variable h : Handler W.

Lemma resolve_only_sells (key : PublicKey) (user_amount : number) (poolSeed : Buffer) :
  all_events only_sells (resolve key user_amount poolSeed).
Proof. unfold resolve. all_events_tac. Qed.

Lemma convert_only_sells (owner : Wallet) (key : PublicKey) (payer : Account)
    (symbol : string) (amount : number) :
  all_events only_sells (convert owner key payer symbol amount).
Proof. unfold convert, settle_all. all_events_tac. reflexivity. Qed.

Lemma verify_only_sells (key : PublicKey) (initial amount : number) :
  all_events only_sells (verify key initial amount).
Proof. unfold verify. all_events_tac. Qed.

Lemma provision_only_sells (owner : Wallet) (payer : Account) (poolKey : PublicKey)
    (assets : list PoolAsset) :
  all_events only_sells (provision owner payer poolKey assets).
Proof. unfold provision, provision_asset. all_events_tac. Qed.

Lemma pool_balances_only_sells (poolKey : PublicKey) (assets : list PoolAsset) :
  all_events only_sells (pool_balances poolKey assets).
Proof. unfold pool_balances, pool_balance. all_events_tac. Qed.

Lemma settle_only_sells (owner : Wallet) (key : PublicKey) (assets : list PoolAsset)
    (markets : list (option Market)) (keys : list PublicKey) :
  all_events only_sells (settle owner key assets markets keys).
Proof. unfold settle, settle_asset, settle_all. all_events_tac. Qed.

Lemma deposit_only_sells (owner : Wallet) (payer : Account) (poolSeed : Buffer)
    (poolKey poolMintKey : PublicKey) (header : PoolHeader)
    (poolAssetKeys sourceAssetKeys : list PublicKey) (pta : number) :
  all_events only_sells
    (deposit owner payer poolSeed poolKey poolMintKey header poolAssetKeys
       sourceAssetKeys pta).
Proof. unfold deposit. all_events_tac. Qed.

Lemma all_events_impl {A} (P Q : forall X, Event X -> Prop) (p : Prog A) :
  (forall X (ev : Event X), P X ev -> Q X ev) -> all_events P p -> all_events Q p.
Proof.
  intro Himp. induction p as [a|e|X ev k IH]; simpl; trivial.
  intros [Hev Hk]. split; [now apply Himp|]. intro x. now apply IH.
Qed.

(** A buy order of the rebalance loop, as the run shows it: the order is for
    the [i]-th pool asset, which is not USDC and has a nonzero pool balance;
    it is placed on the market that the mid price request for the pair of
    that asset was answered, right after that answer, at 1.05 times the
    answered price. *)
Definition buy_order (owner : Wallet) (usdcKey : PublicKey) (assets : list PoolAsset)
    (amounts : list number) (mid amount total : number) (tr : Trace) (m : Market)
    (o : OrderParams) : Prop :=
  exists i asset symbol info assetMid before after,
    nth_error assets i = Some asset
    /\ token_name (mintAddress asset) = Ok symbol
    /\ (symbol =? "USDC")%string = false
    /\ live_market_info (symbol ++ "/USDC")%string = Ok info
    /\ PrimFloat.eqb (nth i amounts PrimFloat.nan) 0 = false
    /\ tr = before
            ++ mkEntry (GetMidPrice (mi_address info)) (Ok (m, assetMid))
               :: mkEntry (PlaceOrder m o) (Ok tt) :: after
    /\ o = {| op_owner := owner;
              op_payer := usdcKey;
              op_side := "buy";
              op_price := (1.05 * assetMid)%float;
              op_size := assetAmountToBuy mid amount (nth i amounts PrimFloat.nan)
                           assetMid total;
              op_orderType := "ioc" |}.

Lemma buy_order_within (owner : Wallet) (usdcKey : PublicKey) (assets : list PoolAsset)
    (amounts : list number) (mid amount total : number) (pre t post : Trace) (m : Market)
    (o : OrderParams) :
  buy_order owner usdcKey assets amounts mid amount total t m o ->
  buy_order owner usdcKey assets amounts mid amount total (pre ++ t ++ post) m o.
Proof.
  intros (i & asset & symbol & info & assetMid & before & after
          & Hi & Hname & Hsym & Hinfo & Hz & -> & Ho).
  exists i, asset, symbol, info, assetMid, (pre ++ before), (after ++ post).
  repeat (split; [assumption|]). split; [|exact Ho].
  rewrite <- !app_assoc. reflexivity.
Qed.

Lemma buy_order_after (owner : Wallet) (usdcKey : PublicKey) (assets : list PoolAsset)
    (amounts : list number) (mid amount total : number) (pre t : Trace) (m : Market)
    (o : OrderParams) :
  buy_order owner usdcKey assets amounts mid amount total t m o ->
  buy_order owner usdcKey assets amounts mid amount total (pre ++ t) m o.
Proof.
  intro H. rewrite <- (app_nil_r t). now apply buy_order_within.
Qed.

Lemma rebalance_asset_orders (owner : Wallet) (key : PublicKey) (assets : list PoolAsset)
    (amounts : list number) (mid amount total : number)
    (acc : list (option Market) * number) (i : nat) (w : W) (m : Market)
    (o : OrderParams) :
  In (m, o)
    (placed_orders
       (trace (run h (rebalance_asset owner key assets amounts mid amount total acc i) w))) ->
  buy_order owner key assets amounts mid amount total
    (trace (run h (rebalance_asset owner key assets amounts mid amount total acc i) w)) m o.
Proof.
  unfold rebalance_asset, buy_order. destruct acc as [markets pta].
  destruct (nth_error assets i) as [asset|] eqn:Hi; cbn [lift bind]; [|cbn; contradiction].
  destruct (token_name (mintAddress asset)) as [symbol|] eqn:Hname; cbn [lift bind];
    [|cbn; contradiction].
  destruct (symbol =? "USDC")%string eqn:Hsym; cbn [negb]; [cbn; contradiction|].
  destruct (live_market_info _) as [info|] eqn:Hinfo; cbn [lift bind];
    [|cbn; contradiction].
  destruct (PrimFloat.eqb (nth i amounts PrimFloat.nan) 0) eqn:Hzero;
    [cbn; contradiction|].
  cbn [await bind run].
  destruct (h _ (GetMidPrice (mi_address info)) w) as [[[m' assetMid]|] w1];
    cbn [run returned trace]; [|cbn; contradiction].
  match goal with
  | |- context [h _ (PlaceOrder m' ?o) w1] =>
      destruct (h _ (PlaceOrder m' o) w1) as [[[]|] w2]
  end; cbn [returned trace run]; [|cbn; contradiction].
  unfold placed_orders. cbn [map filter_defined placed_order e_event e_answer].
  intros [Heq|[]]. injection Heq as <- <-.
  exists i, asset, symbol, info, assetMid, [], [].
  repeat (split; [assumption || reflexivity|]). reflexivity.
Qed.

Lemma rebalance_loop_orders (owner : Wallet) (key : PublicKey) (assets : list PoolAsset)
    (amounts : list number) (mid amount total : number) (idxs : list nat) (m : Market)
    (o : OrderParams) :
  forall (acc : list (option Market) * number) (w : W),
  In (m, o)
    (placed_orders
       (trace (run h (foldP (rebalance_asset owner key assets amounts mid amount total)
                        idxs acc) w))) ->
  buy_order owner key assets amounts mid amount total
    (trace (run h (foldP (rebalance_asset owner key assets amounts mid amount total)
                     idxs acc) w)) m o.
Proof.
  induction idxs as [|i idxs IH]; intros acc w; cbn [foldP]; [cbn; contradiction|].
  rewrite trace_bind, placed_orders_app. intro Hin.
  apply in_app_or in Hin as [Hin|Hin].
  - apply (buy_order_within _ _ _ _ _ _ _ [] _ _).
    exact (rebalance_asset_orders _ _ _ _ _ _ _ _ _ _ _ _ Hin).
  - destruct (returned (run h (rebalance_asset owner key assets amounts mid amount total
                                 acc i) w)) as [acc1|]; [|destruct Hin].
    rewrite <- (app_nil_r (trace (run h (foldP _ idxs acc1) _))).
    apply buy_order_within. exact (IH _ _ Hin).
Qed.

(** The workflow from the rebalance loop on. *)
Definition after_balances (owner : Wallet) (payer : Account) (poolSeed : Buffer)
    (r : Resolved) (usdcKey : PublicKey) (sk pk : list PublicKey) (amounts : list number)
    (mid total : number) : Prog unit :=
  ('(poolAssetMarkets, poolTokenAmount) <-
     rebalance owner usdcKey (r_poolAssets r) amounts mid (r_amount r) total ;;
   await (Sleep (3 * 1000)) ;;
   settle owner usdcKey (r_poolAssets r) poolAssetMarkets sk ;;
   deposit owner payer poolSeed (r_poolKey r) (r_poolMintKey r) (r_poolHeader r)
     pk sk poolTokenAmount)%prog.

Lemma after_balances_no_balance (owner : Wallet) (payer : Account) (poolSeed : Buffer)
    (r : Resolved) (usdcKey : PublicKey) (sk pk : list PublicKey) (amounts : list number)
    (mid total : number) :
  all_events no_balance (after_balances owner payer poolSeed r usdcKey sk pk amounts mid total).
Proof.
  assert (Himp : forall X (ev : Event X), silent X ev -> no_balance X ev)
    by (intros X ev Hs; exact (proj1 Hs)).
  unfold after_balances.
  apply all_events_bind; [apply rebalance_no_balance|intros [markets pta]].
  apply all_events_bind; [now apply all_events_await|intros _].
  apply all_events_bind; [apply (all_events_impl _ _ _ Himp), settle_silent|intros _].
  apply (all_events_impl _ _ _ Himp), deposit_silent.
Qed.

Lemma after_balances_orders (owner : Wallet) (payer : Account) (poolSeed : Buffer)
    (r : Resolved) (usdcKey : PublicKey) (sk pk : list PublicKey) (amounts : list number)
    (mid total : number) (w : W) (m : Market) (o : OrderParams) :
  In (m, o)
    (placed_orders
       (trace (run h (after_balances owner payer poolSeed r usdcKey sk pk amounts mid total)
                 w))) ->
  op_side o = "buy"%string ->
  buy_order owner usdcKey (r_poolAssets r) amounts mid (r_amount r) total
    (trace (run h (after_balances owner payer poolSeed r usdcKey sk pk amounts mid total) w))
    m o.
Proof.
  unfold after_balances. rewrite trace_bind, placed_orders_app. intros Hin Hbuy.
  apply in_app_or in Hin as [Hin|Hin].
  - apply (buy_order_within _ _ _ _ _ _ _ [] _ _). unfold rebalance in Hin |- *.
    exact (rebalance_loop_orders _ _ _ _ _ _ _ _ _ _ _ _ Hin).
  - exfalso.
    destruct (returned (run h (rebalance _ _ _ _ _ _ _) w)) as [[markets pta]|];
      [|destruct Hin].
    match type of Hin with
    | In _ (placed_orders (trace (run _ ?p _))) =>
        assert (Hp : all_events only_sells p)
    end.
    { apply all_events_bind; [now apply all_events_await|intros _].
      apply all_events_bind; [apply settle_only_sells|intros _].
      apply deposit_only_sells. }
    pose proof (placed_orders_only_sells _ (all_events_run h _ _ Hp _) _ _ Hin).
    congruence.
Qed.

Ltac sells_part Hin Hbuy lemma :=
  rewrite trace_bind in Hin |- *; rewrite placed_orders_app in Hin;
  apply in_app_or in Hin as [Hin|Hin];
  [ exfalso;
    pose proof (placed_orders_only_sells _ (all_events_run h _ _ lemma _) _ _ Hin);
    congruence
  | ].

(** X21. Every buy order [singleTokenDeposit] places is an
    immediate-or-cancel order of the source owner for a pool asset that is
    not USDC and has a nonzero pool balance: it is placed on the market
    answered for the pair of that asset, right after the mid price answer,
    at 1.05 times that price, and its size is midPriceUSDC * amount *
    poolAssetAmount / (assetMidPrice * totalPoolAssetAmount), paid from the
    USDC account of the conversion step. The quantities are what the run
    was answered: the amount is the source account's [decimals] times the
    requested amount, the pool balances and their total are the answers to
    the balance requests for the pool's associated addresses, and
    midPriceUSDC is the mid price the conversion step asked; for a USDC
    source it is 1 and the paying account is the source account itself. *)
Theorem rebalance_order_shape (owner : Wallet) (key : PublicKey) (user_amount : number)
    (poolSeed : Buffer) (payer : Account) (w : W) (m : Market) (o : OrderParams) :
  In (m, o)
    (placed_orders (trace (run h (singleTokenDeposit owner key user_amount poolSeed payer) w))) ->
  op_side o = "buy"%string ->
  exists r balance answers conv later mid usdcKey,
    returned (run h (resolve key user_amount poolSeed) w) = Ok r
    /\ r_amount r = (decimals balance * user_amount)%float
    /\ balances (trace (run h (singleTokenDeposit owner key user_amount poolSeed payer) w))
       = (key, balance) :: answers
    /\ map (fun kb => Ok (fst kb)) answers
       = map (fun a => findAssociatedTokenAddress (r_poolKey r) (mintAddress a))
           (r_poolAssets r)
    /\ mid_prices (trace (run h (singleTokenDeposit owner key user_amount poolSeed payer) w))
       = conv ++ later
    /\ conversion_of owner key (r_tokenSymbol r) conv mid usdcKey
    /\ buy_order owner usdcKey (r_poolAssets r) (pool_amounts answers) mid (r_amount r)
         (pool_total answers)
         (trace (run h (singleTokenDeposit owner key user_amount poolSeed payer) w)) m o.
Proof.
  intros Hin Hbuy. unfold singleTokenDeposit in Hin |- *.
  sells_part Hin Hbuy (resolve_only_sells key user_amount poolSeed).
  destruct (returned (run h (resolve key user_amount poolSeed) w)) as [r|] eqn:Hr;
    [|destruct Hin].
  set (w1 := final (run h (resolve key user_amount poolSeed) w)) in *.
  sells_part Hin Hbuy (convert_only_sells owner key payer (r_tokenSymbol r) (r_amount r)).
  destruct (returned (run h (convert _ _ _ _ _) w1)) as [[mid usdcKey]|] eqn:Hc;
    [|destruct Hin].
  set (w2 := final (run h (convert _ _ _ _ _) w1)) in *.
  sells_part Hin Hbuy (verify_only_sells key (r_tokenInitialBalance r) (r_amount r)).
  destruct (returned (run h (verify _ _ _) w2)) as [[]|]; [|destruct Hin].
  set (w3 := final (run h (verify _ _ _) w2)) in *.
  sells_part Hin Hbuy (provision_only_sells owner payer (r_poolKey r) (r_poolAssets r)).
  destruct (returned (run h (provision _ _ _ _) w3)) as [[sk pk]|]; [|destruct Hin].
  set (w4 := final (run h (provision _ _ _ _) w3)) in *.
  sells_part Hin Hbuy (pool_balances_only_sells (r_poolKey r) (r_poolAssets r)).
  destruct (returned (run h (pool_balances _ _) w4)) as [[amounts total]|] eqn:Hb;
    [|destruct Hin].
  set (w5 := final (run h (pool_balances _ _) w4)) in *.
  fold (after_balances owner payer poolSeed r usdcKey sk pk amounts mid total) in Hin |- *.
  destruct (run_resolve_balance W h _ _ _ _ _ Hr) as (balance & Hb1 & Hamount).
  pose proof (no_mid_price_trace _
                (all_events_run h _ _ (resolve_no_mid_price key user_amount poolSeed) w))
    as Hm1.
  pose proof (no_balance_trace _
                (all_events_run h _ _
                   (convert_no_balance owner key payer (r_tokenSymbol r) (r_amount r)) w1))
    as Hb2.
  pose proof (run_convert_mid W h _ _ _ _ _ _ _ _ Hc) as Hconv.
  destruct (silent_trace _
              (all_events_run h _ _
                 (verify_silent key (r_tokenInitialBalance r) (r_amount r)) w2))
    as [Hb3 Hm3].
  destruct (silent_trace _
              (all_events_run h _ _
                 (provision_silent owner payer (r_poolKey r) (r_poolAssets r)) w3))
    as [Hb4 Hm4].
  destruct (run_pool_balances W h _ _ _ _ _ Hb) as (Hkeys & Hamounts & Htotal).
  pose proof (no_mid_price_trace _
                (all_events_run h _ _
                   (pool_balances_no_mid_price (r_poolKey r) (r_poolAssets r)) w4))
    as Hm5.
  pose proof (no_balance_trace _
                (all_events_run h _ _
                   (after_balances_no_balance owner payer poolSeed r usdcKey sk pk amounts
                      mid total) w5))
    as Hb6.
  exists r, balance,
    (balances (trace (run h (pool_balances (r_poolKey r) (r_poolAssets r)) w4))),
    (mid_prices (trace (run h (convert owner key payer (r_tokenSymbol r) (r_amount r)) w1))),
    (mid_prices
       (trace (run h (after_balances owner payer poolSeed r usdcKey sk pk amounts mid total)
                 w5))),
    mid, usdcKey.
  split; [reflexivity|]. split; [exact Hamount|]. split.
  { rewrite !balances_app, Hb1, Hb2, Hb3, Hb4, Hb6. cbn [app]. now rewrite !app_nil_r. }
  split; [exact Hkeys|]. split.
  { rewrite !mid_prices_app, Hm1, Hm3, Hm4, Hm5. reflexivity. }
  split; [exact Hconv|]. rewrite <- Hamounts, <- Htotal.
  pose proof (after_balances_orders _ _ _ _ _ _ _ _ _ _ _ _ _ Hin Hbuy) as Horder.
  do 5 apply buy_order_after. exact Horder.
Qed.

End DepositOrders.

(** What every instruction sent in a run satisfies. *)
Definition sends (P : TransactionInstruction -> Prop) (X : Type) (ev : Event X) : Prop :=
  match ev with
  | SignAndSendTransactionInstructions _ _ ixs => Forall P ixs
  | _ => True
  end.

Lemma sends_trace (P : TransactionInstruction -> Prop) (t : Trace) :
  Forall (fun e => sends P _ (e_event e)) t -> Forall P (flat_map sent_instructions t).
Proof.
  induction 1 as [|e t He _ IH]; [constructor|].
  cbn [flat_map]. apply Forall_app. split; [|exact IH].
  destruct e as [X ev ans]. unfold sent_instructions. cbn [e_event].
  destruct ev; try constructor. exact He.
Qed.

Lemma push_if_defined_external (P : TransactionInstruction -> Prop)
    (l : list TransactionInstruction) (ix : option N) :
  (forall id, P (externalInstruction id)) -> Forall P l -> Forall P (push_if_defined l ix).
Proof.
  intros Hext Hl. destruct ix as [id|]; [|exact Hl].
  apply Forall_app. split; [exact Hl|]. constructor; [apply Hext|constructor].
Qed.

Section DepositInstruction.
Context `{Imp : Imports}.
Variable W : Type.
Variable h : Handler W.

(** The deposit instruction of a pool, up to the receiving accounts and the
    amount. *)
Definition deposit_for (owner : Wallet) (poolSeed : Buffer) (poolKey poolMintKey : PublicKey)
    (poolAssetKeys sourceAssetKeys : list PublicKey) (ix : TransactionInstruction) : Prop :=
  exists sigProviderFeeReceiverKey bonfidaFeeReceiverKey bonfidaBuyAndBurnKey
         targetPoolTokenKey poolTokenAmount,
    ix = depositInstruction TOKEN_PROGRAM_ID BONFIDABOT_PROGRAM_ID
           sigProviderFeeReceiverKey bonfidaFeeReceiverKey bonfidaBuyAndBurnKey
           poolMintKey poolKey poolAssetKeys targetPoolTokenKey (wallet_publicKey owner)
           sourceAssetKeys [poolSeed] poolTokenAmount.

Lemma deposit_sends_for (owner : Wallet) (payer : Account) (poolSeed : Buffer)
    (poolKey poolMintKey : PublicKey) (header : PoolHeader)
    (poolAssetKeys sourceAssetKeys : list PublicKey) (pta : number) :
  all_events
    (sends (fun ix => is_deposit ix = true ->
                      deposit_for owner poolSeed poolKey poolMintKey poolAssetKeys
                        sourceAssetKeys ix))
    (deposit owner payer poolSeed poolKey poolMintKey header poolAssetKeys
       sourceAssetKeys pta).
Proof.
  unfold deposit.
  repeat first
    [ apply all_events_bind | apply all_events_await; exact Logic.I
    | progress intros
    | match goal with
      | |- all_events _ (let '(_, _) := ?x in _) => destruct x
      end ];
    try exact Logic.I.
  apply all_events_await. cbn [sends].
  apply Forall_app. split.
  - repeat apply push_if_defined_external; try (intros; discriminate). constructor.
  - constructor; [|constructor]. intros _. unfold deposit_for. eauto 10.
Qed.

Lemma resolve_keys (key : PublicKey) (user_amount : number) (poolSeed : Buffer) (w : W)
    (r : Resolved) :
  returned (run h (resolve key user_amount poolSeed) w) = Ok r ->
  createProgramAddress [poolSeed] BONFIDABOT_PROGRAM_ID = Ok (r_poolKey r)
  /\ createProgramAddress [poolSeed; array_one] BONFIDABOT_PROGRAM_ID
     = Ok (r_poolMintKey r).
Proof.
  unfold resolve.
  destruct (createProgramAddress [poolSeed] BONFIDABOT_PROGRAM_ID) as [poolKey|];
    cbn [lift bind]; [|cbn; discriminate].
  destruct (createProgramAddress [poolSeed; array_one] BONFIDABOT_PROGRAM_ID)
    as [poolMintKey|]; cbn [lift bind]; [|cbn; discriminate].
  cbn [await bind run].
  destruct (h _ (GetAccountInfo poolKey) w) as [[[poolInfo|]|] w1];
    cbn [returned trace]; try discriminate.
  destruct (PoolHeader_fromBuffer _) as [header|]; cbn [lift bind]; [|cbn; discriminate].
  destruct (unpack_assets _) as [assets|]; cbn [lift bind]; [|cbn; discriminate].
  cbn [await bind run].
  destruct (h _ (GetAccountInfo key) w1) as [[[tokenInfo|]|] w2];
    cbn [returned trace]; try discriminate.
  destruct (token_name _) as [symbol|]; cbn [lift bind]; [|cbn; discriminate].
  cbn [await bind run].
  destruct (h _ (GetTokenAccountBalance key) w2) as [[balance|] w3];
    cbn [returned trace run]; [|discriminate].
  intro H; injection H as <-. now split.
Qed.

(** The key lists the provisioning loop builds: one associated address per
    asset, in the order of the assets. *)
Lemma run_provision_loop (owner : Wallet) (payer : Account) (poolKey : PublicKey)
    (assets : list PoolAsset) :
  forall (acc acc' : list TransactionInstruction * list PublicKey * list PublicKey) (w : W),
  returned (run h (foldP (provision_asset owner payer poolKey) assets acc) w) = Ok acc' ->
  map (fun k => Ok k) (snd (fst acc'))
  = map (fun k => Ok k) (snd (fst acc))
    ++ map (fun a => findAssociatedTokenAddress (wallet_publicKey owner) (mintAddress a))
         assets
  /\ map (fun k => Ok k) (snd acc')
     = map (fun k => Ok k) (snd acc)
       ++ map (fun a => findAssociatedTokenAddress poolKey (mintAddress a)) assets.
Proof.
  induction assets as [|a assets IH]; intros acc acc' w; cbn [foldP].
  - cbn. intro H; injection H as <-. now rewrite !app_nil_r.
  - rewrite returned_bind.
    destruct (returned (run h (provision_asset owner payer poolKey acc a) w))
      as [acc1|] eqn:H1; [|discriminate].
    intro Hrest. destruct (IH _ _ _ Hrest) as [Hs Hp]. rewrite Hs, Hp.
    clear Hs Hp Hrest IH. revert H1. unfold provision_asset.
    destruct acc as [[ixs sk] pk]. cbn [map].
    destruct (findAssociatedTokenAddress (wallet_publicKey owner) (mintAddress a))
      as [sourceAssetKey|]; cbn [lift bind]; [|cbn; discriminate].
    destruct (findAssociatedTokenAddress poolKey (mintAddress a)) as [poolAssetKey|];
      cbn [lift bind]; [|cbn; discriminate].
    cbn [await bind run].
    destruct (h _ (GetAccountInfo sourceAssetKey) w) as [[[info|]|] w1];
      cbn [returned run]; try discriminate;
      intro H; injection H as <-; cbn [fst snd map];
      now rewrite !map_app, <- !app_assoc.
Qed.

Lemma run_provision (owner : Wallet) (payer : Account) (poolKey : PublicKey)
    (assets : list PoolAsset) (w : W) (sk pk : list PublicKey) :
  returned (run h (provision owner payer poolKey assets) w) = Ok (sk, pk) ->
  map (fun k => Ok k) sk
  = map (fun a => findAssociatedTokenAddress (wallet_publicKey owner) (mintAddress a)) assets
  /\ map (fun k => Ok k) pk
     = map (fun a => findAssociatedTokenAddress poolKey (mintAddress a)) assets.
Proof.
  unfold provision. rewrite returned_bind.
  destruct (returned (run h (foldP (provision_asset owner payer poolKey) assets ([], [], []))
                        w)) as [[[ixs sk'] pk']|] eqn:Hloop; [|discriminate].
  rewrite returned_bind.
  destruct (returned (run h (if 0 <? length ixs then _ else _) _)); [|discriminate].
  cbn [run returned]. intro H; injection H as <- <-.
  exact (run_provision_loop _ _ _ _ _ _ _ Hloop).
Qed.

Ltac sent_part Hin Hdep lemma :=
  rewrite trace_bind in Hin; rewrite flat_map_app in Hin;
  apply in_app_or in Hin as [Hin|Hin];
  [ exfalso;
    pose proof (sent_no_deposit _ (all_events_run h _ _ lemma _) _ Hin);
    congruence
  | ].

(** X22. Every deposit instruction [singleTokenDeposit] sends is for the
    pool of the given seed: it names the token and bot programs, the pool key
    and the pool mint derived from the seed, the source owner, the seed
    itself as its only signer seed, and as asset accounts the associated
    addresses of the pool and of the source owner for the pool's assets, one
    per asset and in the order of the assets. *)
Theorem deposit_instruction_accounts (owner : Wallet) (key : PublicKey)
    (user_amount : number) (poolSeed : Buffer) (payer : Account) (w : W)
    (ix : TransactionInstruction) :
  In ix (flat_map sent_instructions
           (trace (run h (singleTokenDeposit owner key user_amount poolSeed payer) w))) ->
  is_deposit ix = true ->
  exists r sourceAssetKeys poolAssetKeys,
    returned (run h (resolve key user_amount poolSeed) w) = Ok r
    /\ createProgramAddress [poolSeed] BONFIDABOT_PROGRAM_ID = Ok (r_poolKey r)
    /\ createProgramAddress [poolSeed; array_one] BONFIDABOT_PROGRAM_ID
       = Ok (r_poolMintKey r)
    /\ deposit_for owner poolSeed (r_poolKey r) (r_poolMintKey r) poolAssetKeys
         sourceAssetKeys ix
    /\ map (fun k => Ok k) sourceAssetKeys
       = map (fun a => findAssociatedTokenAddress (wallet_publicKey owner) (mintAddress a))
           (r_poolAssets r)
    /\ map (fun k => Ok k) poolAssetKeys
       = map (fun a => findAssociatedTokenAddress (r_poolKey r) (mintAddress a))
           (r_poolAssets r).
Proof.
  intros Hin Hdep. unfold singleTokenDeposit in Hin.
  sent_part Hin Hdep (resolve_no_deposit key user_amount poolSeed).
  destruct (returned (run h (resolve key user_amount poolSeed) w)) as [r|] eqn:Hr;
    [|destruct Hin].
  set (w1 := final (run h (resolve key user_amount poolSeed) w)) in *.
  sent_part Hin Hdep (convert_no_deposit owner key payer (r_tokenSymbol r) (r_amount r)).
  destruct (returned (run h (convert _ _ _ _ _) w1)) as [[mid usdcKey]|]; [|destruct Hin].
  set (w2 := final (run h (convert _ _ _ _ _) w1)) in *.
  sent_part Hin Hdep (verify_no_deposit key (r_tokenInitialBalance r) (r_amount r)).
  destruct (returned (run h (verify _ _ _) w2)) as [[]|]; [|destruct Hin].
  set (w3 := final (run h (verify _ _ _) w2)) in *.
  sent_part Hin Hdep (provision_no_deposit owner payer (r_poolKey r) (r_poolAssets r)).
  destruct (returned (run h (provision _ _ _ _) w3)) as [[sk pk]|] eqn:Hprov;
    [|destruct Hin].
  set (w4 := final (run h (provision _ _ _ _) w3)) in *.
  sent_part Hin Hdep (pool_balances_no_deposit (r_poolKey r) (r_poolAssets r)).
  destruct (returned (run h (pool_balances _ _) w4)) as [[amounts total]|]; [|destruct Hin].
  set (w5 := final (run h (pool_balances _ _) w4)) in *.
  sent_part Hin Hdep
    (rebalance_no_deposit owner usdcKey (r_poolAssets r) amounts mid (r_amount r) total).
  destruct (returned (run h (rebalance _ _ _ _ _ _ _) w5)) as [[markets pta]|];
    [|destruct Hin].
  set (w6 := final (run h (rebalance _ _ _ _ _ _ _) w5)) in *.
  assert (Hsleep : all_events no_deposit (await (Sleep (3 * 1000))))
    by now apply all_events_await.
  sent_part Hin Hdep Hsleep.
  destruct (returned (run h (await (Sleep _)) w6)) as [[]|]; [|destruct Hin].
  set (w7 := final (run h (await (Sleep _)) w6)) in *.
  sent_part Hin Hdep (settle_no_deposit owner usdcKey (r_poolAssets r) markets sk).
  destruct (returned (run h (settle _ _ _ _ _) w7)) as [[]|]; [|destruct Hin].
  set (w8 := final (run h (settle _ _ _ _ _) w7)) in *.
  destruct (resolve_keys _ _ _ _ _ Hr) as [Hkey Hmint].
  destruct (run_provision _ _ _ _ _ _ _ Hprov) as [Hsk Hpk].
  exists r, sk, pk. repeat (split; [assumption || reflexivity|]). split; [|now split].
  pose proof (sends_trace _ _
                (all_events_run h _ _
                   (deposit_sends_for owner payer poolSeed (r_poolKey r) (r_poolMintKey r)
                      (r_poolHeader r) pk sk pta) w8)) as Hall.
  rewrite Forall_forall in Hall. exact (Hall ix Hin Hdep).
Qed.

End DepositInstruction.

(** A list of sent instructions whose last one is its only deposit. *)
Definition ends_with_one_deposit (l : list TransactionInstruction) : Prop :=
  exists before ix,
    l = before ++ [ix] /\ is_deposit ix = true
    /\ Forall (fun i => is_deposit i = false) before.

Lemma ends_with_one_deposit_app (l1 l2 : list TransactionInstruction) :
  Forall (fun i => is_deposit i = false) l1 ->
  ends_with_one_deposit l2 -> ends_with_one_deposit (l1 ++ l2).
Proof.
  intros H1 (before & ix & -> & Hix & Hb). exists (l1 ++ before), ix.
  split; [now rewrite app_assoc|]. split; [exact Hix|]. apply Forall_app. now split.
Qed.

Section DepositCompleted.
Context `{Imp : Imports}.
Variable W : Type.
Variable h : Handler W.

Lemma completed_step {A B} (p : Prog A) (f : A -> Prog B) (w : W) (b : B) :
  all_events no_deposit p ->
  returned (run h (bind p f) w) = Ok b ->
  exists a,
    returned (run h (f a) (final (run h p w))) = Ok b
    /\ flat_map sent_instructions (trace (run h (bind p f) w))
       = flat_map sent_instructions (trace (run h p w))
         ++ flat_map sent_instructions (trace (run h (f a) (final (run h p w))))
    /\ Forall (fun i => is_deposit i = false) (flat_map sent_instructions (trace (run h p w))).
Proof.
  intros Hp. rewrite returned_bind, trace_bind, flat_map_app.
  destruct (returned (run h p w)) as [a|]; [|discriminate].
  intro Hb. exists a. repeat split; trivial.
  apply Forall_forall. intros ix Hin.
  exact (sent_no_deposit _ (all_events_run h _ _ Hp w) ix Hin).
Qed.

Lemma run_deposit_completed (owner : Wallet) (payer : Account) (poolSeed : Buffer)
    (poolKey poolMintKey : PublicKey) (header : PoolHeader)
    (poolAssetKeys sourceAssetKeys : list PublicKey) (pta : number) (w : W) :
  returned (run h (deposit owner payer poolSeed poolKey poolMintKey header poolAssetKeys
                     sourceAssetKeys pta) w) = Ok tt ->
  ends_with_one_deposit
    (flat_map sent_instructions
       (trace (run h (deposit owner payer poolSeed poolKey poolMintKey header
                        poolAssetKeys sourceAssetKeys pta) w))).
Proof.
  unfold deposit. cbn [await bind run].
  destruct (h _ (FindAndCreateAssociatedAccount _ (wallet_publicKey owner) _ _) w)
    as [[[k1 o1]|] w1]; cbn [returned trace]; [|discriminate].
  cbn [await bind run].
  destruct (h _ (FindAndCreateAssociatedAccount _ (hdr_signalProvider header) _ _) w1)
    as [[[k2 o2]|] w2]; cbn [returned trace]; [|discriminate].
  cbn [await bind run].
  destruct (h _ (FindAndCreateAssociatedAccount _ BONFIDA_FEE_KEY _ _) w2)
    as [[[k3 o3]|] w3]; cbn [returned trace]; [|discriminate].
  cbn [await bind run].
  destruct (h _ (FindAndCreateAssociatedAccount _ BONFIDA_BNB_KEY _ _) w3)
    as [[[k4 o4]|] w4]; cbn [returned trace]; [|discriminate].
  cbn [await bind run].
  match goal with
  | |- context [h _ (SignAndSendTransactionInstructions ?s ?p (?pre ++ [?ix])) w4] =>
      destruct (h _ (SignAndSendTransactionInstructions s p (pre ++ [ix])) w4)
        as [[sig|] w5]; cbn [returned trace run]; [|discriminate];
      intros _; exists pre, ix
  end.
  split; [cbn; now rewrite app_nil_r|]. split; [reflexivity|].
  repeat apply push_if_defined_external; try (intros; reflexivity). constructor.
Qed.

(** X23. A run of [singleTokenDeposit] that completes has sent exactly one
    deposit instruction, and it is the last instruction the run sent: every
    account creation goes before it. *)
Theorem singleTokenDeposit_completed_one_deposit (owner : Wallet) (key : PublicKey)
    (user_amount : number) (poolSeed : Buffer) (payer : Account) (w : W) :
  returned (run h (singleTokenDeposit owner key user_amount poolSeed payer) w) = Ok tt ->
  exists before ix,
    flat_map sent_instructions
      (trace (run h (singleTokenDeposit owner key user_amount poolSeed payer) w))
    = before ++ [ix]
    /\ is_deposit ix = true
    /\ Forall (fun i => is_deposit i = false) before.
Proof.
  intro Hdone. unfold singleTokenDeposit in *.
  apply completed_step in Hdone as (r & Hdone & -> & Hn);
    [|apply resolve_no_deposit].
  apply ends_with_one_deposit_app; [exact Hn|clear Hn].
  apply completed_step in Hdone as ([mid usdcKey] & Hdone & -> & Hn);
    [|apply convert_no_deposit].
  apply ends_with_one_deposit_app; [exact Hn|clear Hn].
  apply completed_step in Hdone as ([] & Hdone & -> & Hn); [|apply verify_no_deposit].
  apply ends_with_one_deposit_app; [exact Hn|clear Hn].
  apply completed_step in Hdone as ([sk pk] & Hdone & -> & Hn);
    [|apply provision_no_deposit].
  apply ends_with_one_deposit_app; [exact Hn|clear Hn].
  apply completed_step in Hdone as ([amounts total] & Hdone & -> & Hn);
    [|apply pool_balances_no_deposit].
  apply ends_with_one_deposit_app; [exact Hn|clear Hn].
  apply completed_step in Hdone as ([markets pta] & Hdone & -> & Hn);
    [|apply rebalance_no_deposit].
  apply ends_with_one_deposit_app; [exact Hn|clear Hn].
  apply completed_step in Hdone as ([] & Hdone & -> & Hn);
    [|now apply all_events_await].
  apply ends_with_one_deposit_app; [exact Hn|clear Hn].
  apply completed_step in Hdone as ([] & Hdone & -> & Hn); [|apply settle_no_deposit].
  apply ends_with_one_deposit_app; [exact Hn|clear Hn].
  now apply run_deposit_completed.
Qed.

End DepositCompleted.

Section DepositMarkets.
Context `{Imp : Imports}.
Variable W : Type.
Variable h : Handler W.

Lemma run_rebalance_asset_markets (owner : Wallet) (key : PublicKey)
    (assets : list PoolAsset) (amounts : list number) (mid amount total : number)
    (acc acc' : list (option Market) * number) (i : nat) (w : W) :
  returned (run h (rebalance_asset owner key assets amounts mid amount total acc i) w)
  = Ok acc' ->
  exists leg,
    leg_of assets amounts mid amount total
      (trace (run h (rebalance_asset owner key assets amounts mid amount total acc i) w))
      i leg
    /\ length (fst acc') = length (fst acc) + length (filter_defined [leg]).
Proof.
  unfold rebalance_asset, leg_of. destruct acc as [markets pta].
  destruct (nth_error assets i) as [asset|]; cbn [lift bind]; [|cbn; discriminate].
  destruct (token_name (mintAddress asset)) as [symbol|] eqn:Hname; cbn [lift bind];
    [|cbn; discriminate].
  destruct (symbol =? "USDC")%string eqn:Hsym; cbn [negb].
  - cbn [run returned trace]. intro H; injection H as <-.
    exists (Some (usdc_leg_ratio mid amount total)).
    split; [|cbn [fst filter_defined]; now rewrite length_app].
    exists asset, symbol. rewrite Hsym. auto.
  - destruct (live_market_info _) as [info|] eqn:Hinfo; cbn [lift bind];
      [|cbn; discriminate].
    destruct (PrimFloat.eqb (nth i amounts PrimFloat.nan) 0) eqn:Hzero.
    + cbn [run returned trace]. intro H; injection H as <-.
      exists None. split; [|cbn; lia].
      exists asset, symbol. rewrite Hsym. repeat split; trivial.
      exists info. try rewrite Hzero. split; trivial.
    + cbn [await bind run].
      destruct (h _ (GetMidPrice (mi_address info)) w) as [[[m assetMid]|] w1];
        cbn [run returned trace]; [|discriminate].
      match goal with
      | |- context [h _ (PlaceOrder m ?o) w1] =>
          destruct (h _ (PlaceOrder m o) w1) as [[[]|] w2]
      end; cbn [returned trace run]; [|discriminate].
      intro H; injection H as <-.
      exists (Some (traded_leg_ratio mid amount (nth i amounts PrimFloat.nan) assetMid
                      total)).
      split; [|cbn [fst filter_defined]; now rewrite length_app].
      exists asset, symbol. rewrite Hsym. repeat split; trivial.
      exists info. try rewrite Hzero. split; [trivial|].
      exists m, assetMid. split; [|reflexivity]. cbn. now left.
Qed.

Lemma run_rebalance_loop_markets (owner : Wallet) (key : PublicKey)
    (assets : list PoolAsset) (amounts : list number) (mid amount total : number)
    (idxs : list nat) :
  forall (acc acc' : list (option Market) * number) (w : W),
  returned (run h (foldP (rebalance_asset owner key assets amounts mid amount total)
                     idxs acc) w) = Ok acc' ->
  exists legs,
    Forall2 (leg_of assets amounts mid amount total
               (trace (run h (foldP (rebalance_asset owner key assets amounts mid amount
                                       total) idxs acc) w)))
      idxs legs
    /\ length (fst acc') = length (fst acc) + length (filter_defined legs).
Proof.
  induction idxs as [|i idxs IH]; intros acc acc' w; cbn [foldP].
  - cbn. intro H; injection H as <-. exists []. split; [constructor|cbn; lia].
  - rewrite returned_bind, trace_bind.
    destruct (returned (run h (rebalance_asset owner key assets amounts mid amount total
                                 acc i) w)) as [acc1|] eqn:H1; [|discriminate].
    intro Hrest.
    destruct (run_rebalance_asset_markets _ _ _ _ _ _ _ _ _ _ _ H1) as (leg & Hleg & Hacc1).
    destruct (IH _ _ _ Hrest) as (legs & Hlegs & Hacc').
    exists (leg :: legs). split.
    + constructor.
      * eapply leg_of_mono; [|exact Hleg]. intros x Hx.
        rewrite mid_prices_app. apply in_or_app. now left.
      * eapply Forall2_impl; [|exact Hlegs]. intros j l Hl.
        eapply leg_of_mono; [|exact Hl]. intros x Hx.
        rewrite mid_prices_app. apply in_or_app. now right.
    + rewrite Hacc', Hacc1. destruct leg; cbn [filter_defined length]; lia.
Qed.

(** X24. The rebalance loop of [singleTokenDeposit] records one market entry
    per leg that counts (the USDC asset, and each other asset of nonzero
    pool balance), not one per asset: an asset whose pool balance is zero
    leaves no entry, so [poolAssetMarkets] is then shorter than [poolAssets]
    and the entries after it sit below their asset's index. *)
Theorem rebalance_markets_skip_empty (owner : Wallet) (key : PublicKey)
    (assets : list PoolAsset) (amounts : list number) (mid amount total : number) (w : W)
    (markets : list (option Market)) (poolTokenAmount : number) :
  returned (run h (rebalance owner key assets amounts mid amount total) w)
  = Ok (markets, poolTokenAmount) ->
  exists legs,
    Forall2 (leg_of assets amounts mid amount total
               (trace (run h (rebalance owner key assets amounts mid amount total) w)))
      (seq 0 (length assets)) legs
    /\ length markets = length (filter_defined legs)
    /\ length markets <= length assets.
Proof.
  unfold rebalance. intro H.
  destruct (run_rebalance_loop_markets _ _ _ _ _ _ _ _ _ _ _ H) as (legs & Hlegs & Hlen).
  exists legs. split; [exact Hlegs|]. cbn [fst length] in Hlen. split; [exact Hlen|].
  rewrite Hlen. apply Forall2_length in Hlegs. rewrite length_seq in Hlegs.
  rewrite Hlegs. clear. induction legs as [|[x|] legs IH]; cbn; lia.
Qed.

End DepositMarkets.

Section DepositReadsPool.
Context `{Imp : Imports}.
Variable W : Type.
Variable h : Handler W.

(** X25. [singleTokenDeposit] reads the pool as [fetchPoolInfo] does: on the
    same state of the chain, the pool key, the pool mint, the signal provider
    and the asset mints it works with are those [fetchPoolInfo] reports, in
    the same order. *)
Theorem singleTokenDeposit_reads_pool_as_fetchPoolInfo (key : PublicKey)
    (user_amount : number) (poolSeed : Buffer) (w : W) (r : Resolved) (info : PoolInfo) :
  returned (run h (resolve key user_amount poolSeed) w) = Ok r ->
  returned (run h (fetchPoolInfo poolSeed) w) = Ok info ->
  address info = r_poolKey r
  /\ mintKey info = r_poolMintKey r
  /\ signalProvider info = hdr_signalProvider (r_poolHeader r)
  /\ assetMintkeys info = map mintAddress (r_poolAssets r).
Proof.
  intros Hr Hinfo.
  destruct (resolve_keys W h _ _ _ _ _ Hr) as [Hkey Hmint].
  destruct (run_fetchPoolInfo W h w poolSeed _ _ Hkey Hmint) as (_ & _ & Hret).
  rewrite Hinfo in Hret. revert Hr Hret. unfold resolve.
  rewrite Hkey, Hmint. cbn [lift bind await run].
  destruct (h _ (GetAccountInfo (r_poolKey r)) w) as [[[poolInfo|]|] w1];
    cbn [fst returned trace]; try discriminate.
  destruct (PoolHeader_fromBuffer _) as [header|]; cbn [lift bind rbind];
    [|cbn; discriminate].
  destruct (unpack_assets _) as [assets|]; cbn [lift bind rbind]; [|cbn; discriminate].
  cbn [await bind run].
  destruct (h _ (GetAccountInfo key) w1) as [[[tokenInfo|]|] w2];
    cbn [returned trace]; try discriminate.
  destruct (token_name _) as [symbol|]; cbn [lift bind]; [|cbn; discriminate].
  cbn [await bind run].
  destruct (h _ (GetTokenAccountBalance key) w2) as [[balance|] w3];
    cbn [returned trace run]; [|discriminate].
  intros Hr Hret.
  destruct (unpack_markets _ _) as [markets|]; cbn [rbind] in Hret; [|discriminate].
  injection Hret as ->. injection Hr as Hr. rewrite <- Hr. cbn. now repeat split.
Qed.

End DepositReadsPool.

(** * Further scenarios *)

Module MoreScenarios.
Import Fixture.
Import SettleFixture.

(** ** settlePool and fetchPoolBalances *)

Lemma settlePool_unavailable_witness :
  ended (exec venue (settlePool seed_none) chain) = Err PoolUnavailable
  /\ length (asked (exec venue (settlePool seed_none) chain)) = 1.
Proof.
  destruct (@settlePool_unavailable types imports settle_imports World venue seed_none
              (pool_key seed_none) chain) as [Hended Hasked];
    [vm_compute; reflexivity|vm_compute; reflexivity|].
  split; [exact Hended|]. rewrite Hasked. reflexivity.
Defined.

Lemma settlePool_one_entry_per_open_orders_account_witness :
  exists ixs,
    ended (exec venue (settlePool seed_one) chain) = Ok ixs
    /\ ixs = [Some (externalInstruction 7); None]
    /\ ixs = map first_instruction
               (settle_answers (asked (exec venue (settlePool seed_one) chain)))
    /\ length ixs
       = length (concat (map snd (all_found_open_orders
                                    (asked (exec venue (settlePool seed_one) chain))))).
Proof.
  exists [Some (externalInstruction 7); None].
  assert (H : ended (exec venue (settlePool seed_one) chain)
              = Ok [Some (externalInstruction 7); None]) by (vm_compute; reflexivity).
  split; [exact H|]. split; [reflexivity|].
  destruct (@settlePool_one_entry_per_open_orders_account types imports settle_imports
              World venue seed_one chain _ H) as (Hixs & _ & Hlen).
  split; [exact Hixs|exact Hlen].
Defined.

Lemma settlePool_loads_authorized_markets_witness :
  map (fun x => (fst (fst x), snd (fst x)))
    (loaded_markets (asked (exec venue (settlePool seed_one) chain)))
  = [(SRM_USDC, key Byte.x0f); (FIDA_USDC, key Byte.x0f)].
Proof.
  assert (Hinfo : returned (run (chain_of venue) (fetchPoolInfo seed_one) chain)
                  = Ok info_one) by (vm_compute; reflexivity).
  assert (H : ended (exec venue (settlePool seed_one) chain)
              = Ok [Some (externalInstruction 7); None]) by (vm_compute; reflexivity).
  rewrite (proj1 (@settlePool_loads_authorized_markets types imports settle_imports
                    World venue seed_one chain info_one _ Hinfo H)).
  reflexivity.
Defined.

Lemma fetchPoolBalances_unavailable_witness :
  ended (exec venue (fetchPoolBalances seed_none) chain) = Err PoolUnavailable
  /\ length (asked (exec venue (fetchPoolBalances seed_none) chain)) = 1.
Proof.
  destruct (@fetchPoolBalances_unavailable types imports settle_imports World venue seed_none
              (pool_key seed_none)
              (mkPublicKey (firstn 32 (rev (seed_none ++ array_one) ++ key_bytes program_id)))
              chain) as [Hended Hasked];
    [vm_compute; reflexivity|vm_compute; reflexivity|vm_compute; reflexivity|].
  split; [exact Hended|]. rewrite Hasked. reflexivity.
Defined.

Lemma fetchPoolBalances_in_asset_order_witness :
  exists supply assetBalances,
    ended (exec venue (fetchPoolBalances seed_two) chain) = Ok (supply, assetBalances)
    /\ map mint assetBalances = map toBase58 [SRM_mint; FIDA_mint].
Proof.
  pose (res := ended (exec venue (fetchPoolBalances seed_two) chain)).
  assert (Hres : exists supply assetBalances, res = Ok (supply, assetBalances)).
  { vm_compute. eexists. eexists. reflexivity. }
  destruct Hres as (supply & assetBalances & Hres). exists supply, assetBalances.
  split; [exact Hres|].
  assert (Hinfo : exists i, returned (run (chain_of venue) (fetchPoolInfo seed_two) chain)
                            = Ok i /\ assetMintkeys i = [SRM_mint; FIDA_mint]).
  { vm_compute. eexists. split; reflexivity. }
  destruct Hinfo as (i & Hinfo & <-).
  exact (@fetchPoolBalances_in_asset_order types imports settle_imports World venue seed_two
           chain i supply assetBalances Hinfo Hres).
Defined.

Lemma fetchPoolBalances_answers_witness :
  exists supply assetBalances,
    ended (exec venue (fetchPoolBalances seed_two) chain) = Ok (supply, assetBalances)
    /\ map tokenAmount assetBalances
       = map snd (balances_answered (asked (exec venue (fetchPoolBalances seed_two) chain)))
    /\ length assetBalances = 2.
Proof.
  pose (res := ended (exec venue (fetchPoolBalances seed_two) chain)).
  assert (Hres : exists supply assetBalances,
            res = Ok (supply, assetBalances) /\ length assetBalances = 2).
  { vm_compute. eexists. eexists. split; reflexivity. }
  destruct Hres as (supply & assetBalances & Hres & Hlen). exists supply, assetBalances.
  split; [exact Hres|]. split; [|exact Hlen].
  exact (proj1 (@fetchPoolBalances_answers types imports settle_imports World venue seed_two
                  chain chain supply assetBalances Hres)).
Defined.

Lemma getPoolTokenMintFromSeed_is_mintKey_witness :
  returned (run handler (getPoolTokenMintFromSeed seed_one) chain) = Ok (mintKey info_one).
Proof.
  apply (@getPoolTokenMintFromSeed_is_mintKey types imports World handler seed_one chain chain
           info_one).
  vm_compute; reflexivity.
Defined.

(** ** The order history *)

Lemma getPoolOrderInfos_returns_when_decodable_witness :
  exists out, returned (run handler (getPoolOrderInfos seed_one 10) chain) = Ok out.
Proof.
  apply (@getPoolOrderInfos_returns_when_decodable types imports World handler
           (fun w => w = chain) chain seed_one 10 info_one).
  - reflexivity.
  - intros X ev w' Hreq ->. destruct ev; try contradiction; reflexivity.
  - vm_compute; reflexivity.
  - intros w' ->. reflexivity.
  - intros w' sig ->. reflexivity.
  - intros w' sig t i -> Hfetch Hin _.
    assert (Hcases : t = transaction_one \/ t = transaction_two).
    { cbn [handler fst] in Hfetch. injection Hfetch as Hfetch.
      unfold transaction_of, chain in Hfetch.
      cbn [w_history find fst snd signature sig_one sig_two sig_three] in Hfetch.
      destruct ("sig1" =? sig)%string; [left; now injection Hfetch|].
      destruct ("sig2" =? sig)%string; [right; now injection Hfetch|].
      destruct ("sig3" =? sig)%string; discriminate. }
    destruct Hcases as [-> | ->]; cbn [instructions transaction_one transaction_two In] in Hin;
      repeat (destruct Hin as [<-|Hin]; [vm_compute; reflexivity|]); destruct Hin.
Defined.

Lemma getPoolOrderInfos_in_fetch_order_witness :
  exists out info sigs,
    returned (run handler (getPoolOrderInfos seed_one 10) chain) = Ok out
    /\ returned (run handler (fetchPoolInfo seed_one) chain) = Ok info
    /\ listed_signatures (trace (run handler (getPoolOrderInfos seed_one 10) chain))
       = [(address info, sigs)]
    /\ map fst (requested_transactions
                  (trace (run handler (getPoolOrderInfos seed_one 10) chain)))
       = map (fun sig => signature sig) sigs
    /\ map (fun o => transactionSignature o) out
       = slice_to 10
           (flat_map (fun st => repeat (fst st) (create_orders_of (snd st)))
              (requested_transactions
                 (trace (run handler (getPoolOrderInfos seed_one 10) chain))))
    /\ map fst (requested_transactions
                  (trace (run handler (getPoolOrderInfos seed_one 10) chain)))
       = ["sig1"%string; "sig2"%string; "sig3"%string]
    /\ slice_to 10
         (flat_map (fun st => repeat (fst st) (create_orders_of (snd st)))
            (requested_transactions
               (trace (run handler (getPoolOrderInfos seed_one 10) chain))))
       = ["sig1"%string; "sig2"%string].
Proof.
  pose (res := returned (run handler (getPoolOrderInfos seed_one 10) chain)).
  assert (Hres : exists out, res = Ok out) by (vm_compute; eexists; reflexivity).
  destruct Hres as (out & Hres).
  destruct (@getPoolOrderInfos_in_fetch_order types imports World handler chain seed_one 10
              out Hres) as (info & sigs & Hinfo & Hlisted & Hasked & Horder).
  exists out, info, sigs. split; [exact Hres|]. split; [exact Hinfo|].
  split; [exact Hlisted|]. split; [exact Hasked|]. split; [exact Horder|].
  split; vm_compute; reflexivity.
Defined.

(** The order creation of [transaction_one]. *)
Definition create_order_one : Instruction :=
  {| programId := program_id;
     ix_data := order_bytes Byte.x03 Byte.x01 Byte.x01 Byte.x00 1 |}.

Lemma getPoolOrderInfos_all_or_nothing_witness :
  In ("sig1"%string, transaction_one)
    (fetched_transactions (trace (run handler (getPoolOrderInfos seed_one 1) chain)))
  /\ is_create_order create_order_one = true
  /\ is_ok (Numberu64_toNumber (slice 34 42 (ix_data create_order_one)))
     && is_ok (Numberu16_toNumber (slice 42 44 (ix_data create_order_one)))
     && is_ok (Numberu64_toNumber (slice 45 53 (ix_data create_order_one)))
     && is_ok (Numberu16_toNumber (slice 70 72 (ix_data create_order_one))) = true.
Proof.
  pose (res := returned (run handler (getPoolOrderInfos seed_one 1) chain)).
  assert (Hres : exists out, res = Ok out) by (vm_compute; eexists; reflexivity).
  destruct Hres as (out & Hres).
  assert (Hin : In ("sig1"%string, transaction_one)
                  (fetched_transactions
                     (trace (run handler (getPoolOrderInfos seed_one 1) chain))))
    by (vm_compute; left; reflexivity).
  assert (Hq : is_create_order create_order_one = true) by (vm_compute; reflexivity).
  split; [exact Hin|]. split; [exact Hq|].
  apply (@getPoolOrderInfos_all_or_nothing types imports World handler chain seed_one 1 out
           "sig1"%string transaction_one create_order_one Hres Hin);
    [vm_compute; right; left; reflexivity|exact Hq].
Defined.

Lemma getPoolOrderInfos_negative_count_witness :
  exists out,
    returned (run handler (getPoolOrderInfos seed_one (-1)) chain) = Ok out
    /\ qualifying_in_window (trace (run handler (getPoolOrderInfos seed_one (-1)) chain)) = 2
    /\ Z.of_nat (length out)
       = Z.max 0
           (Z.of_nat (qualifying_in_window
                        (trace (run handler (getPoolOrderInfos seed_one (-1)) chain)))
            + -1).
Proof.
  pose (res := returned (run handler (getPoolOrderInfos seed_one (-1)) chain)).
  assert (Hres : exists out, res = Ok out) by (vm_compute; eexists; reflexivity).
  destruct Hres as (out & Hres). exists out. split; [exact Hres|].
  split; [vm_compute; reflexivity|].
  apply (@getPoolOrderInfos_negative_count types imports World handler chain seed_one (-1)
           out Hres).
  lia.
Defined.

Lemma getPoolOrderInfos_unavailable_witness :
  returned (run handler (getPoolOrderInfos seed_none 10) chain) = Err PoolUnavailable
  /\ length (trace (run handler (getPoolOrderInfos seed_none 10) chain)) = 1.
Proof.
  destruct (@getPoolOrderInfos_unavailable types imports World handler chain seed_none 10
              (pool_key seed_none)
              (mkPublicKey (firstn 32 (rev (seed_none ++ array_one) ++ key_bytes program_id))))
    as [Hret Htrace];
    [vm_compute; reflexivity|vm_compute; reflexivity|vm_compute; reflexivity|].
  split; [exact Hret|]. rewrite Htrace. reflexivity.
Defined.

(** ** The decoder and the seed listing *)

(** The data of an order creation, and the same bytes under another tag,
    with other bytes at 54 to 69 and with a trailing byte. *)
Definition order_data : Buffer := order_bytes Byte.x03 Byte.x01 Byte.x01 Byte.x00 1.
Definition order_data_padded : Buffer :=
  [Byte.xff] ++ slice 1 54 order_data ++ repeat Byte.xee 16 ++ slice 70 72 order_data
    ++ [Byte.x09].

Lemma parseCreateOrderInstruction_reads_witness :
  nth_error order_data 0 = Some Byte.x03
  /\ nth_error order_data_padded 0 = Some Byte.xff
  /\ parseCreateOrderInstruction order_data info_one sig_one
     = parseCreateOrderInstruction order_data_padded info_one sig_one.
Proof.
  split; [reflexivity|]. split; [reflexivity|].
  apply (@parseCreateOrderInstruction_reads types imports order_data order_data_padded
           info_one sig_one); vm_compute; reflexivity.
Defined.

Lemma getPoolsSeedsBySigProvider_seed_length_witness :
  returned (run handler (getPoolsSeedsBySigProvider None) chain)
  = Ok [seed_one; seed_none; seed_two]
  /\ Forall (fun s => length s = 32) [seed_one; seed_none; seed_two].
Proof.
  assert (H : returned (run handler (getPoolsSeedsBySigProvider None) chain)
              = Ok [seed_one; seed_none; seed_two]) by (vm_compute; reflexivity).
  split; [exact H|].
  apply (@getPoolsSeedsBySigProvider_seed_length types imports World handler chain None
           {| resp_error := None; resp_result := w_program_accounts chain |}
           [seed_one; seed_none; seed_two]);
    [vm_compute; lia|reflexivity|exact H].
Defined.

Lemma getPoolsSeedsBySigProvider_key_narrows_witness :
  returned (run handler (getPoolsSeedsBySigProvider (Some (key Byte.x07))) chain)
  = Ok [seed_one; seed_two]
  /\ incl [seed_one; seed_two] [seed_one; seed_none; seed_two].
Proof.
  assert (H1 : returned (run handler (getPoolsSeedsBySigProvider (Some (key Byte.x07))) chain)
               = Ok [seed_one; seed_two]) by (vm_compute; reflexivity).
  assert (H2 : returned (run handler (getPoolsSeedsBySigProvider None) chain)
               = Ok [seed_one; seed_none; seed_two]) by (vm_compute; reflexivity).
  split; [exact H1|].
  exact (proj1 (@getPoolsSeedsBySigProvider_key_narrows types imports World handler chain
                  (key Byte.x07) _ _ H1 H2)).
Defined.

(** A node that answers the listing with an error beside an account. *)
Definition behind : Handler World := fun X ev =>
  match ev in Event X return World -> result X * World with
  | GetProgramAccounts _ => fun w =>
      (Ok {| resp_error := Some "Node is behind"%string; resp_result := [pool_one] |}, w)
  | ev' => handler _ ev'
  end.

Lemma getPoolsSeedsBySigProvider_error_witness :
  returned (run behind (getPoolsSeedsBySigProvider None) chain)
  = Err (ThrownError "Node is behind")
  /\ length (trace (run behind (getPoolsSeedsBySigProvider None) chain)) = 1.
Proof.
  destruct (@getPoolsSeedsBySigProvider_error types imports World behind chain None
              {| resp_error := Some "Node is behind"%string; resp_result := [pool_one] |}
              "Node is behind"%string eq_refl eq_refl) as [Hret Htrace].
  split; [exact Hret|]. rewrite Htrace. reflexivity.
Defined.

(** ** The deposit workflow *)

Lemma singleTokenDeposit_pool_unavailable_witness :
  returned (run handler (singleTokenDeposit owner source_token_key 500%float seed_none payer)
              Scenarios.sold_600)
  = Err PoolUnavailable
  /\ length (trace (run handler
                      (singleTokenDeposit owner source_token_key 500%float seed_none payer)
                      Scenarios.sold_600)) = 1.
Proof.
  destruct (@singleTokenDeposit_pool_unavailable types imports World handler owner
              source_token_key 500%float seed_none payer Scenarios.sold_600
              (pool_key seed_none)
              (mkPublicKey (firstn 32 (rev (seed_none ++ array_one) ++ key_bytes program_id))))
    as [Hret Htrace];
    [vm_compute; reflexivity|vm_compute; reflexivity|vm_compute; reflexivity|].
  split; [exact Hret|]. rewrite Htrace. reflexivity.
Defined.

(** A key at which no token account exists. *)
Definition no_account : PublicKey := key Byte.x99.

Lemma singleTokenDeposit_fails_before_trading_witness :
  returned (run handler (singleTokenDeposit owner no_account 500%float seed_two payer) chain)
  = Err SourceUnavailable
  /\ placed_orders
       (trace (run handler (singleTokenDeposit owner no_account 500%float seed_two payer) chain))
     = []
  /\ flat_map sent_instructions
       (trace (run handler (singleTokenDeposit owner no_account 500%float seed_two payer) chain))
     = [].
Proof.
  apply (@singleTokenDeposit_fails_before_trading types imports World handler owner no_account
           500%float seed_two payer chain SourceUnavailable).
  vm_compute; reflexivity.
Defined.

(** The imports with a market list whose last SRM/USDC entry is deprecated. *)
Definition delisted : Imports := {|
  BONFIDABOT_PROGRAM_ID := @BONFIDABOT_PROGRAM_ID _ imports;
  BONFIDA_FEE_KEY := @BONFIDA_FEE_KEY _ imports;
  BONFIDA_BNB_KEY := @BONFIDA_BNB_KEY _ imports;
  PoolHeader_LEN := @PoolHeader_LEN _ imports;
  PoolHeader_fromBuffer := @PoolHeader_fromBuffer _ imports;
  unpack_assets := @unpack_assets _ imports;
  unpack_markets := @unpack_markets _ imports;
  Numberu64_toNumber := @Numberu64_toNumber _ imports;
  Numberu16_toNumber := @Numberu16_toNumber _ imports;
  findAssociatedTokenAddress := @findAssociatedTokenAddress _ imports;
  createProgramAddress := @createProgramAddress _ imports;
  SystemProgram_programId := @SystemProgram_programId _ imports;
  TOKEN_PROGRAM_ID := @TOKEN_PROGRAM_ID _ imports;
  AccountLayout_decode := @AccountLayout_decode _ imports;
  TOKEN_MINTS := @TOKEN_MINTS _ imports;
  MARKETS := [ {| mi_name := "SRM/USDC"; mi_address := SRM_USDC; mi_deprecated := false |};
               {| mi_name := "SRM/USDC"; mi_address := key Byte.x30;
                  mi_deprecated := true |} ]
|}.

Lemma singleTokenDeposit_market_rejected_witness :
  returned (run handler
              (@singleTokenDeposit types delisted owner source_token_key 500%float seed_two
                 payer)
              Scenarios.sold_600)
  = Err MarketDeprecated
  /\ placed_orders
       (trace (run handler
                 (@singleTokenDeposit types delisted owner source_token_key 500%float seed_two
                    payer)
                 Scenarios.sold_600))
     = [].
Proof.
  assert (Hr : exists r,
            returned (run handler (@resolve types delisted source_token_key 500%float seed_two)
                        Scenarios.sold_600) = Ok r
            /\ r_tokenSymbol r = "SRM"%string).
  { vm_compute. eexists. split; reflexivity. }
  destruct Hr as (r & Hr & Hsym).
  destruct (@singleTokenDeposit_market_rejected types delisted World handler owner
              source_token_key 500%float seed_two payer Scenarios.sold_600 r MarketDeprecated
              Hr) as (Hret & _ & _ & Hplaced & _).
  - rewrite Hsym. discriminate.
  - rewrite Hsym. vm_compute; reflexivity.
  - split; [exact Hret|exact Hplaced].
Defined.

Lemma rebalance_order_shape_witness :
  exists m o r balance answers conv later mid usdcKey,
    nth_error
      (placed_orders
         (trace (run handler
                   (singleTokenDeposit owner source_token_key 1024%float seed_two payer)
                   Scenarios.usdc_holder))) 0
    = Some (m, o)
    /\ op_side o = "buy"%string
    /\ balances
         (trace (run handler
                   (singleTokenDeposit owner source_token_key 1024%float seed_two payer)
                   Scenarios.usdc_holder))
       = (source_token_key, balance) :: answers
    /\ mid_prices
         (trace (run handler
                   (singleTokenDeposit owner source_token_key 1024%float seed_two payer)
                   Scenarios.usdc_holder))
       = conv ++ later
    /\ conversion_of owner source_token_key (r_tokenSymbol r) conv mid usdcKey
    /\ buy_order owner usdcKey (r_poolAssets r) (pool_amounts answers) mid (r_amount r)
         (pool_total answers)
         (trace (run handler
                   (singleTokenDeposit owner source_token_key 1024%float seed_two payer)
                   Scenarios.usdc_holder)) m o.
Proof.
  pose (first := nth_error
                   (placed_orders
                      (trace (run handler
                                (singleTokenDeposit owner source_token_key 1024%float seed_two
                                   payer)
                                Scenarios.usdc_holder))) 0).
  assert (Hfirst : exists m o, first = Some (m, o) /\ op_side o = "buy"%string).
  { vm_compute. eexists. eexists. split; reflexivity. }
  destruct Hfirst as (m & o & Hnth & Hbuy).
  destruct (@rebalance_order_shape types imports World handler owner source_token_key
              1024%float seed_two payer Scenarios.usdc_holder m o (nth_error_In _ _ Hnth)
              Hbuy)
    as (r & balance & answers & conv & later & mid & usdcKey
        & _ & _ & Hbalances & _ & Hmids & Hconv & Horder).
  exists m, o, r, balance, answers, conv, later, mid, usdcKey.
  split; [exact Hnth|]. split; [exact Hbuy|]. split; [exact Hbalances|].
  split; [exact Hmids|]. split; [exact Hconv|exact Horder].
Defined.

Lemma deposit_instruction_accounts_witness :
  exists ix r sourceAssetKeys poolAssetKeys,
    nth_error
      (flat_map sent_instructions
         (trace (run handler
                   (singleTokenDeposit owner source_token_key 1024%float seed_two payer)
                   Scenarios.usdc_holder))) 2
    = Some ix
    /\ is_deposit ix = true
    /\ deposit_for owner seed_two (r_poolKey r) (r_poolMintKey r) poolAssetKeys
         sourceAssetKeys ix
    /\ map (fun k => Ok k) poolAssetKeys
       = map (fun a => findAssociatedTokenAddress (r_poolKey r) (mintAddress a))
           (r_poolAssets r).
Proof.
  pose (sent := flat_map sent_instructions
                  (trace (run handler
                            (singleTokenDeposit owner source_token_key 1024%float seed_two payer)
                            Scenarios.usdc_holder))).
  assert (Hlast : exists ix, nth_error sent 2 = Some ix /\ is_deposit ix = true).
  { vm_compute. eexists. split; reflexivity. }
  destruct Hlast as (ix & Hnth & Hdep).
  destruct (@deposit_instruction_accounts types imports World handler owner source_token_key
              1024%float seed_two payer Scenarios.usdc_holder ix (nth_error_In _ _ Hnth) Hdep)
    as (r & sk & pk & _ & _ & _ & Hfor & _ & Hpk).
  exists ix, r, sk, pk. split; [exact Hnth|]. split; [exact Hdep|].
  split; [exact Hfor|exact Hpk].
Defined.

Lemma singleTokenDeposit_completed_one_deposit_witness :
  exists before ix,
    flat_map sent_instructions
      (trace (run handler (singleTokenDeposit owner source_token_key 1024%float seed_two payer)
                Scenarios.usdc_holder))
    = before ++ [ix]
    /\ is_deposit ix = true
    /\ Forall (fun i => is_deposit i = false) before.
Proof.
  apply (@singleTokenDeposit_completed_one_deposit types imports World handler owner
           source_token_key 1024%float seed_two payer Scenarios.usdc_holder).
  vm_compute; reflexivity.
Defined.

(** The assets of [pool_two], the first read with a pool balance of zero. *)
Definition assets_two : list PoolAsset :=
  [ {| asset_mint := SRM_mint; asset_amount := 128 |};
    {| asset_mint := FIDA_mint; asset_amount := 128 |} ].

Lemma rebalance_markets_skip_empty_witness :
  exists markets poolTokenAmount,
    returned (run handler
                (rebalance owner source_token_key assets_two [0%float; 128%float] 1%float
                   1024%float 128%float)
                Scenarios.usdc_holder)
    = Ok (markets, poolTokenAmount)
    /\ length markets = 1
    /\ length assets_two = 2
    /\ exists legs : list (option number), length markets = length (filter_defined legs).
Proof.
  pose (res := returned (run handler
                           (rebalance owner source_token_key assets_two [0%float; 128%float]
                              1%float 1024%float 128%float)
                           Scenarios.usdc_holder)).
  assert (Hres : exists markets pta, res = Ok (markets, pta) /\ length markets = 1).
  { vm_compute. eexists. eexists. split; reflexivity. }
  destruct Hres as (markets & pta & Hres & Hlen). exists markets, pta.
  split; [exact Hres|]. split; [exact Hlen|]. split; [reflexivity|].
  destruct (@rebalance_markets_skip_empty types imports World handler owner source_token_key
              assets_two [0%float; 128%float] 1%float 1024%float 128%float
              Scenarios.usdc_holder markets pta Hres) as (legs & _ & Hlegs & _).
  exists legs. exact Hlegs.
Defined.

Lemma singleTokenDeposit_reads_pool_as_fetchPoolInfo_witness :
  exists r info,
    returned (run handler (resolve source_token_key 1024%float seed_two) Scenarios.usdc_holder)
    = Ok r
    /\ returned (run handler (fetchPoolInfo seed_two) Scenarios.usdc_holder) = Ok info
    /\ address info = r_poolKey r
    /\ assetMintkeys info = map mintAddress (r_poolAssets r).
Proof.
  pose (res := returned (run handler (resolve source_token_key 1024%float seed_two)
                           Scenarios.usdc_holder)).
  assert (Hres : exists r, res = Ok r) by (vm_compute; eexists; reflexivity).
  destruct Hres as (r & Hres).
  pose (got := returned (run handler (fetchPoolInfo seed_two) Scenarios.usdc_holder)).
  assert (Hgot : exists info, got = Ok info) by (vm_compute; eexists; reflexivity).
  destruct Hgot as (info & Hgot).
  exists r, info. split; [exact Hres|]. split; [exact Hgot|].
  destruct (@singleTokenDeposit_reads_pool_as_fetchPoolInfo types imports World handler
              source_token_key 1024%float seed_two Scenarios.usdc_holder r info Hres Hgot)
    as (Haddress & _ & _ & Hmints).
  split; [exact Haddress|exact Hmints].
Defined.

End MoreScenarios.
